(** * SensorArduino: statistics and figure scripts

    A shallow embedding of the three analysis scripts of the repository
    ([estatistica.py], [gerar_figuras.py], [plotagem.py]) and the
    properties their specification states about them.

    The scripts are modelled at two levels of detail.

    The first part idealises numbers: a cell of a numeric column is [num],
    the not-a-number value (the "missing" cell), an infinity, or a finite
    value kept as an exact rational, and a numeric column is a list of
    them.  It carries the control flow of the three scripts, the coercion,
    the library calls and the files written; none of its theorems depends
    on how binary64 rounds or on the width of an integer.

    Module [B64] models the statistics script and the outlier rule again
    over what the CSV reader really returns: columns of dtype float64,
    int64, uint64, bool or object; binary64 arithmetic as IEEE 754 defines
    it; integer subtraction that wraps; the boolean subtraction that
    raises.  The reductions of the data library (mean, standard deviation,
    quantile, ...) are parameters there. *)

From Stdlib Require Import QArith Qround ZArith String Ascii List Bool Lia.
From Stdlib Require Import SpecFloat.
Import ListNotations.
Open Scope string_scope.

(** ** Numbers *)

Inductive num : Type :=
| NaN
| Inf (neg : bool)
| Fin (q : Q).

Definition Qltb (a b : Q) : bool := negb (Qle_bool b a).
Definition Qneg (q : Q) : bool := (Qnum q <? 0)%Z.

Definition is_nan (x : num) : bool :=
  match x with NaN => true | _ => false end.

Definition nopp (x : num) : num :=
  match x with
  | NaN => NaN
  | Inf s => Inf (negb s)
  | Fin q => Fin (Qred (- q))
  end.

Definition nadd (x y : num) : num :=
  match x, y with
  | NaN, _ | _, NaN => NaN
  | Inf s, Inf t => if Bool.eqb s t then Inf s else NaN
  | Inf s, Fin _ => Inf s
  | Fin _, Inf t => Inf t
  | Fin a, Fin b => Fin (Qred (a + b))
  end.

Definition nsub (x y : num) : num := nadd x (nopp y).

Definition nmul (x y : num) : num :=
  match x, y with
  | NaN, _ | _, NaN => NaN
  | Inf s, Inf t => Inf (xorb s t)
  | Inf s, Fin b => if Qeq_bool b 0 then NaN else Inf (xorb s (Qneg b))
  | Fin a, Inf t => if Qeq_bool a 0 then NaN else Inf (xorb (Qneg a) t)
  | Fin a, Fin b => Fin (Qred (a * b))
  end.

(** Division of two binary64 scalars never raises: a zero divisor gives an
    infinity (or not-a-number for 0/0) and a warning. *)
Definition ndiv (x y : num) : num :=
  match x, y with
  | NaN, _ | _, NaN => NaN
  | Inf _, Inf _ => NaN
  | Inf s, Fin b => Inf (xorb s (Qneg b))
  | Fin _, Inf _ => Fin 0
  | Fin a, Fin b =>
      if Qeq_bool b 0
      then (if Qeq_bool a 0 then NaN else Inf (Qneg a))
      else Fin (Qred (a / b))
  end.

(** [x < y] on scalars; any comparison with not-a-number is false. *)
Definition nltb (x y : num) : bool :=
  match x, y with
  | NaN, _ | _, NaN => false
  | Inf s, Inf t => s && negb t
  | Inf s, Fin _ => s
  | Fin _, Inf t => negb t
  | Fin a, Fin b => Qltb a b
  end.

Definition ngtb (x y : num) : bool := nltb y x.

(** Truth value of a scalar in a condition ([if media]): false exactly for
    zero; not-a-number and the infinities are true. *)
Definition truthy (x : num) : bool :=
  match x with
  | Fin q => negb (Qeq_bool q 0)
  | _ => true
  end.

Definition is_zero (x : num) : bool :=
  match x with
  | Fin q => Qeq_bool q 0
  | _ => false
  end.

Definition of_Z (z : Z) : num := Fin (inject_Z z).
Definition of_nat (n : nat) : num := of_Z (Z.of_nat n).

(** Rounding half to even, the rule of the numeric library's [round]. *)
Definition round_half_even (q : Q) : Z :=
  let n := Qnum q in
  let d := Zpos (Qden q) in
  let f := (n / d)%Z in
  let r := (n mod d)%Z in
  match (2 * r ?= d)%Z with
  | Lt => f
  | Gt => (f + 1)%Z
  | Eq => if Z.even f then f else (f + 1)%Z
  end.

Definition round_decimals (decimals : nat) (x : num) : num :=
  match x with
  | Fin q =>
      let s := inject_Z (10 ^ Z.of_nat decimals) in
      Fin (Qred (inject_Z (round_half_even (q * s)) / s))
  | _ => x
  end.

(** ** Aggregates of a numeric series, all skipping missing values *)

Definition dropna (s : list num) : list num :=
  filter (fun x => negb (is_nan x)) s.

Definition nsum (s : list num) : num := fold_left nadd s (Fin 0).

Definition nmin2 (x y : num) : num := if nltb y x then y else x.
Definition nmax2 (x y : num) : num := if nltb x y then y else x.

Definition series_mean (s : list num) : num :=
  match dropna s with
  | [] => NaN
  | xs => ndiv (nsum xs) (of_nat (length xs))
  end.

Definition series_min (s : list num) : num :=
  match dropna s with
  | [] => NaN
  | x :: xs => fold_left nmin2 xs x
  end.

Definition series_max (s : list num) : num :=
  match dropna s with
  | [] => NaN
  | x :: xs => fold_left nmax2 xs x
  end.

(** Sample variance (one delta degree of freedom): not-a-number when fewer
    than two values remain. *)
Definition series_var (s : list num) : num :=
  let xs := dropna s in
  let count := length xs in
  if (count <=? 1)%nat then NaN
  else
    let avg := ndiv (nsum xs) (of_nat count) in
    let sqr := map (fun x => let d := nsub avg x in nmul d d) xs in
    ndiv (nsum sqr) (of_nat (count - 1)).

Fixpoint insert_sorted (x : num) (l : list num) : list num :=
  match l with
  | [] => [x]
  | y :: l' => if nltb y x then y :: insert_sorted x l' else x :: l
  end.

Definition sort_num (l : list num) : list num :=
  fold_right insert_sorted [] l.

Definition series_median (s : list num) : num :=
  let xs := sort_num (dropna s) in
  let n := length xs in
  match n with
  | O => NaN
  | _ =>
      if Nat.odd n then nth (n / 2) xs NaN
      else ndiv (nadd (nth (n / 2 - 1) xs NaN) (nth (n / 2) xs NaN)) (of_Z 2)
  end.

(** Linear interpolation between two neighbours, in the two-sided form the
    numeric library uses. *)
Definition lerp (a b t : num) : num :=
  let diff_b_a := nsub b a in
  if nltb t (Fin (1 # 2))
  then nadd a (nmul diff_b_a t)
  else nsub b (nmul diff_b_a (nsub (of_Z 1) t)).

(** [Series.quantile(q)] with the default linear interpolation: the value at
    the virtual index [(n - 1) * q] of the sorted non-missing values. *)
Definition series_quantile (s : list num) (q : Q) : num :=
  let xs := sort_num (dropna s) in
  let n := length xs in
  match n with
  | O => NaN
  | _ =>
      let virtual := (inject_Z (Z.of_nat (n - 1)) * q)%Q in
      let previous := Z.to_nat (Qfloor virtual) in
      let next := Nat.min (previous + 1) (n - 1) in
      let gamma := Qred (virtual - inject_Z (Z.of_nat previous)) in
      lerp (nth previous xs NaN) (nth next xs NaN) (Fin gamma)
  end.

(** ** Tables as the CSV reader returns them *)

(** A cell of an object column: a string, or the missing marker. *)
Inductive objcell : Type :=
| OStr (s : string)
| ONaN.

(** A column of the idealised tables: numeric (a float64 column, or an
    int64 column whose values and differences stay far from the int64
    bounds), object, or timestamp (nanoseconds, [None] for not-a-time).
    A boolean column is not a numeric column and has no counterpart in
    this type; [B64.column] tells the dtypes apart. *)
Inductive column : Type :=
| NumCol (l : list num)
| ObjCol (l : list objcell)
| TimeCol (l : list (option Z)).

Definition DataFrame : Type := list (string * column).

Inductive exception : Type :=
| KeyError (key : string)
| TypeError (msg : string)
| ValueError (msg : string)
| OtherError (cls msg : string).

Definition str_exception (e : exception) : string :=
  match e with
  | KeyError k => "'" ++ k ++ "'"
  | TypeError m | ValueError m | OtherError _ m => m
  end.

Fixpoint assoc {V : Type} (k : string) (l : list (string * V)) : option V :=
  match l with
  | [] => None
  | (k', v) :: l' => if String.eqb k k' then Some v else assoc k l'
  end.

Definition columns {V : Type} (df : list (string * V)) : list string :=
  map fst df.

Definition has_column {V : Type} (c : string) (df : list (string * V)) : bool :=
  existsb (String.eqb c) (columns df).

(** [df[c]]: the column, or [KeyError]. *)
Definition getitem {V : Type} (df : list (string * V)) (c : string)
  : exception + V :=
  match assoc c df with
  | Some v => inr v
  | None => inl (KeyError c)
  end.

(** [df[c] = v]: replaces the column in place, or appends it. *)
Fixpoint setitem {V : Type} (df : list (string * V)) (c : string) (v : V)
  : list (string * V) :=
  match df with
  | [] => [(c, v)]
  | (k, w) :: df' =>
      if String.eqb c k then (k, v) :: df' else (k, w) :: setitem df' c v
  end.

(** A small error monad for code that may raise. *)
Definition bindE {A B : Type} (m : exception + A) (f : A -> exception + B)
  : exception + B :=
  match m with
  | inl e => inl e
  | inr a => f a
  end.

Declare Scope err_scope.
Delimit Scope err_scope with err.
Notation "x <-- m ; k" := (bindE m (fun x => k))
  (at level 61, m at next level, right associativity) : err_scope.

Fixpoint mapE {A B : Type} (f : A -> exception + B) (l : list A)
  : exception + list B :=
  match l with
  | [] => inr []
  | a :: l' =>
      (b <-- f a ; bs <-- mapE f l' ; inr (b :: bs))%err
  end.

(** ** Numeric coercion *)

Inductive errors_mode : Type := ErrorsRaise | ErrorsCoerce.

Definition iNaT : Z := (- 2 ^ 63)%Z.

Section Coercion.

(** The reader of one numeric literal, a library routine: the number a
    string denotes, or [None] when it is not a number. *)
Variable str_to_num : string -> option num.

Definition convert_cell (errors : errors_mode) (c : objcell)
  : exception + num :=
  match c with
  | ONaN => inr NaN
  | OStr s =>
      match str_to_num s with
      | Some x => inr x
      | None =>
          match errors with
          | ErrorsCoerce => inr NaN
          | ErrorsRaise =>
              inl (ValueError ("Unable to parse string " ++ s))
          end
      end
  end.

(** [pd.to_numeric(col, errors=...)]: a numeric column is returned as it
    is, a timestamp column as its integer view, an object column cell by
    cell. *)
Definition to_numeric (errors : errors_mode) (c : column)
  : exception + column :=
  match c with
  | NumCol l => inr (NumCol l)
  | TimeCol l =>
      inr (NumCol (map (fun t => of_Z (match t with
                                       | Some ns => ns
                                       | None => iNaT
                                       end)) l))
  | ObjCol l =>
      (xs <-- mapE (convert_cell errors) l ; inr (NumCol xs))%err
  end.

(** The values [errors='coerce'] leaves in a column. *)
Definition coerced_cell (c : objcell) : num :=
  match c with
  | ONaN => NaN
  | OStr s =>
      match str_to_num s with
      | Some x => x
      | None => NaN
      end
  end.

Definition coerced_values (c : column) : list num :=
  match c with
  | NumCol l => l
  | TimeCol l => map (fun t => of_Z (match t with
                                     | Some ns => ns
                                     | None => iNaT
                                     end)) l
  | ObjCol l => map coerced_cell l
  end.

(** The cleaned series of a variable: its column in the coerced table. *)
Definition cleaned (df : DataFrame) (var : string) : option (list num) :=
  option_map coerced_values (assoc var df).

(** [df.apply(f)]: [f] on every column, in order. *)
Definition df_apply (f : column -> exception + column) (df : DataFrame)
  : exception + DataFrame :=
  mapE (fun kv => (v <-- f (snd kv) ; inr (fst kv, v))%err) df.

End Coercion.

(** ** The statistics script, [estatistica.py] *)

(** A Python dict keeps insertion order; [d[k] = v] is [setitem]. *)
Definition pydict (V : Type) : Type := list (string * V).

(** A table of numbers, stored by column: column label, then row label. *)
Definition Frame : Type := list (string * list (string * num)).

(** [f.loc[row, col]] *)
Definition loc (f : Frame) (row col : string) : option num :=
  match assoc col f with
  | Some c => assoc row c
  | None => None
  end.

Definition add_key (acc : list string) (k : string) : list string :=
  if existsb (String.eqb k) acc then acc else (acc ++ [k])%list.

(** The row labels of [pd.DataFrame(d)] for a dict of dicts: the inner keys,
    in order of first appearance. *)
Definition index_of_dicts (d : pydict (pydict (option num))) : list string :=
  fold_left (fun acc inner => fold_left add_key (map fst inner) acc)
            (map snd d) [].

(** [pd.DataFrame(d)]: one column per outer key; [None] and absent entries
    become not-a-number. *)
Definition DataFrame_of_dicts (d : pydict (pydict (option num))) : Frame :=
  let index := index_of_dicts d in
  map (fun '(c, inner) =>
         (c, map (fun r => (r, match assoc r inner with
                               | Some (Some x) => x
                               | _ => NaN
                               end)) index)) d.

(** [.T]: the row labels become the column labels. *)
Definition transpose (f : Frame) : Frame :=
  let index := match f with
               | [] => []
               | (_, col) :: _ => map fst col
               end in
  map (fun r =>
         (r, map (fun '(c, col) => (c, match assoc r col with
                                       | Some x => x
                                       | None => NaN
                                       end)) f)) index.

(** [.round(decimals)] *)
Definition frame_round (decimals : nat) (f : Frame) : Frame :=
  map (fun '(c, col) =>
         (c, map (fun '(r, x) => (r, round_decimals decimals x)) col)) f.

(** The values of a column for an aggregate; an aggregate of a column that
    is not numeric raises. *)
Definition numeric_series (c : column) : exception + list num :=
  match c with
  | NumCol l => inr l
  | ObjCol _ => inl (TypeError "could not convert string to numeric")
  | TimeCol _ => inl (TypeError "unsupported operand type(s)")
  end.

Definition variaveis : list string := ["Temp"; "UmidadeAr"; "USolo"].

Section Estatistica.

Variable str_to_num : string -> option num.

(** The square root of the numeric library on a finite value that is not
    negative. *)
Variable sqrtQ : Q -> Q.

Definition nsqrt (x : num) : num :=
  match x with
  | NaN => NaN
  | Inf s => if s then NaN else Inf false
  | Fin q => if Qneg q then NaN else Fin (Qred (sqrtQ q))
  end.

(** Sample standard deviation. *)
Definition series_std (s : list num) : num := nsqrt (series_var s).

(** The body of the loop over [variaveis], for one series. *)
Definition estatisticas_var (s : list num) : pydict (option num) :=
  let media := series_mean s in
  let min_val := series_min s in
  let max_val := series_max s in
  let intervalo := nsub max_val min_val in
  let desvio := series_std s in
  let variancia := series_var s in
  let mediana := series_median s in
  [ ("Intervalo (%)",
     if truthy media
     then Some (nmul (ndiv intervalo media) (of_Z 100)) else None);
    ("Desvio Padrão (%)",
     if truthy media
     then Some (nmul (ndiv desvio media) (of_Z 100)) else None);
    ("Variância (%)",
     if truthy media
     then Some (nmul (ndiv variancia media) (of_Z 100)) else None);
    ("Mediana (valor)", Some mediana);
    ("Mediana (%)",
     if truthy media
     then Some (nmul (ndiv mediana media) (of_Z 100)) else None) ].

Fixpoint for_var (vars : list string) (df_numeric : DataFrame)
         (estatisticas_percentuais : pydict (pydict (option num)))
  : exception + pydict (pydict (option num)) :=
  match vars with
  | [] => inr estatisticas_percentuais
  | var :: vars' =>
      (col <-- getitem df_numeric var ;
       s <-- numeric_series col ;
       for_var vars' df_numeric
               (setitem estatisticas_percentuais var (estatisticas_var s)))%err
  end.

(** Line 43: [pd.DataFrame(d).T.round(2)]. *)
Definition resultado (d : pydict (pydict (option num))) : Frame :=
  frame_round 2 (transpose (DataFrame_of_dicts d)).

(** The script on the table the CSV reader returned: [df_resultado], the
    table that is printed and saved, or the exception that ends the run. *)
Definition estatistica (df : DataFrame) : exception + Frame :=
  (df_numeric <-- df_apply (to_numeric str_to_num ErrorsCoerce) df ;
   estatisticas_percentuais <-- for_var variaveis df_numeric [] ;
   let df_resultado := resultado estatisticas_percentuais in
   inr df_resultado)%err.

End Estatistica.

(** The five columns of [df_resultado], the keys of the dict of lines
    34-40. *)
Definition colunas_resultado : list string :=
  [ "Intervalo (%)"; "Desvio Padrão (%)"; "Variância (%)";
    "Mediana (valor)"; "Mediana (%)" ].

Definition linha (a b c d e : option num) : pydict (option num) :=
  [ ("Intervalo (%)", a); ("Desvio Padrão (%)", b); ("Variância (%)", c);
    ("Mediana (valor)", d); ("Mediana (%)", e) ].

(** The cell a dict entry becomes in the table: [None] and absent entries
    are not-a-number. *)
Definition celula (o : option (option num)) : num :=
  match o with
  | Some (Some x) => x
  | _ => NaN
  end.

(** The statistics the loop computes for a variable, and the column of
    [df_resultado] that carries each: mean, minimum, maximum and range are
    local variables of the loop and have no entry in the dict. *)
Inductive statistic : Type :=
| Mean | Min | Max | Range
| RangePct | StdPct | VarPct | Median | MedianPct.

Definition coluna_de (st : statistic) : option string :=
  match st with
  | RangePct => Some "Intervalo (%)"
  | StdPct => Some "Desvio Padrão (%)"
  | VarPct => Some "Variância (%)"
  | Median => Some "Mediana (valor)"
  | MedianPct => Some "Mediana (%)"
  | Mean | Min | Max | Range => None
  end.

(** What the printed and saved table reports for a variable. *)
Definition reports (out : Frame) (var : string) (st : statistic)
  : option num :=
  match coluna_de st with
  | Some c => loc out var c
  | None => None
  end.

(** * The scripts over dtypes and binary64 *)

Module B64.

(** ** Binary64 *)

(** A binary64 value: a signed zero, a signed infinity, not-a-number, or a
    finite value [m * 2^e] with its sign.  The arithmetic is that of the
    IEEE 754 specification, rounding to nearest, ties to even. *)
Definition f64 : Type := spec_float.

Definition prec : Z := 53%Z.
Definition emax : Z := 1024%Z.

Definition nan : f64 := S754_nan.

Definition fadd (x y : f64) : f64 := SFadd prec emax x y.
Definition fsub (x y : f64) : f64 := SFsub prec emax x y.
Definition fmul (x y : f64) : f64 := SFmul prec emax x y.
Definition fdiv (x y : f64) : f64 := SFdiv prec emax x y.
Definition fsqrt (x : f64) : f64 := SFsqrt prec emax x.

(** [x < y]; false when either side is not-a-number. *)
Definition fltb (x y : f64) : bool := SFltb x y.

(** The binary64 value nearest to an integer. *)
Definition of_Z (z : Z) : f64 := binary_normalize prec emax z 0 false.

(** The literals of the scripts; each is exact in binary64. *)
Definition f100 : f64 := of_Z 100.
Definition f0_25 : f64 := binary_normalize prec emax 1 (-2) false.
Definition f0_75 : f64 := binary_normalize prec emax 3 (-2) false.
Definition f1_5 : f64 := binary_normalize prec emax 3 (-1) false.

Definition is_nan (x : f64) : bool :=
  match x with S754_nan => true | _ => false end.

Definition is_zero (x : f64) : bool :=
  match x with S754_zero _ => true | _ => false end.

(** Truth value of a binary64 scalar in a condition ([if media]): [x != 0],
    so false for both zeros and true for not-a-number. *)
Definition truthy (x : f64) : bool := negb (is_zero x).

(** Rounding to an integral value, ties to even; the sign is kept, so a
    small negative value rounds to the negative zero. *)
Definition rint (x : f64) : f64 :=
  match x with
  | S754_finite s m e =>
      match e with
      | Zneg k =>
          let d := Z.pow_pos 2 k in
          let q := (Zpos m / d)%Z in
          let r := (Zpos m mod d)%Z in
          let n := match (2 * r ?= d)%Z with
                   | Lt => q
                   | Gt => (q + 1)%Z
                   | Eq => if Z.even q then q else (q + 1)%Z
                   end in
          binary_normalize prec emax (if s then (- n)%Z else n) 0 s
      | _ => x
      end
  | _ => x
  end.

(** [round(decimals)] of the numeric library on binary64 values: multiply
    by the power of ten, round to an integral value, divide again, each
    step in binary64.  It is not the decimal rounding of the exact value.
    (The power of ten is exact up to 22 decimals; the script asks for 2.) *)
Definition around (decimals : nat) (x : f64) : f64 :=
  let f := of_Z (10 ^ Z.of_nat decimals) in
  fdiv (rint (fmul x f)) f.

(** ** Scalars and columns with their dtype *)

(** A scalar of the numeric library. *)
Inductive scalar : Type :=
| Float64 (x : f64)
| Int64 (z : Z)
| UInt64 (z : Z)
| Bool_ (b : bool).

(** A column of a numeric dtype.  The values of an integer column lie
    within the bounds of its dtype. *)
Inductive numeric : Type :=
| F64Col (l : list f64)
| I64Col (l : list Z)
| U64Col (l : list Z)
| BoolCol (l : list bool).

(** A column as the CSV reader returns it: of a numeric dtype, or of
    object dtype (strings and missing cells). *)
Inductive column : Type :=
| Num (n : numeric)
| Obj (l : list objcell).

Definition DataFrame : Type := list (string * column).

Definition Z_of_bool (b : bool) : Z := if b then 1%Z else 0%Z.

Definition wrap_int64 (z : Z) : Z := ((z + 2 ^ 63) mod 2 ^ 64 - 2 ^ 63)%Z.
Definition wrap_uint64 (z : Z) : Z := (z mod 2 ^ 64)%Z.

(** The binary64 value a scalar converts to. *)
Definition to_float (a : scalar) : f64 :=
  match a with
  | Float64 x => x
  | Int64 z | UInt64 z => of_Z z
  | Bool_ b => of_Z (Z_of_bool b)
  end.

(** The text of the exception of a boolean subtraction. *)
Definition boolean_subtract : string :=
  "numpy boolean subtract, the `-` operator, is not supported, "
  ++ "use the bitwise_xor, the `^` operator, or the logical_xor "
  ++ "function instead.".

(** [a - b] on scalars.  Two booleans do not subtract; two integers of one
    dtype subtract in that dtype and wrap around (with a warning, no
    exception); a float64 operand makes it a binary64 subtraction.  The
    script only subtracts the minimum of a column from its maximum, so
    there both operands have one dtype; the remaining cases follow the
    promotion rules (int64 with uint64 is computed in float64, a boolean
    with an integer in the integer dtype). *)
Definition scalar_sub (a b : scalar) : exception + scalar :=
  match a, b with
  | Bool_ _, Bool_ _ =>
      inl (TypeError boolean_subtract)
  | Float64 x, _ => inr (Float64 (fsub x (to_float b)))
  | _, Float64 y => inr (Float64 (fsub (to_float a) y))
  | Int64 x, Int64 y => inr (Int64 (wrap_int64 (x - y)))
  | Int64 x, Bool_ y => inr (Int64 (wrap_int64 (x - Z_of_bool y)))
  | Bool_ x, Int64 y => inr (Int64 (wrap_int64 (Z_of_bool x - y)))
  | UInt64 x, UInt64 y => inr (UInt64 (wrap_uint64 (x - y)))
  | UInt64 x, Bool_ y => inr (UInt64 (wrap_uint64 (x - Z_of_bool y)))
  | Bool_ x, UInt64 y => inr (UInt64 (wrap_uint64 (Z_of_bool x - y)))
  | Int64 x, UInt64 y | UInt64 x, Int64 y =>
      inr (Float64 (fsub (of_Z x) (of_Z y)))
  end.

(** [a / m] for a binary64 [m]: true division, in binary64; a zero divisor
    gives an infinity or not-a-number, not an exception. *)
Definition scalar_div (a : scalar) (m : f64) : f64 := fdiv (to_float a) m.

(** The values of a numeric column as binary64. *)
Definition to_floats (n : numeric) : list f64 :=
  match n with
  | F64Col l => l
  | I64Col l | U64Col l => map of_Z l
  | BoolCol l => map (fun b => of_Z (Z_of_bool b)) l
  end.

(** A boolean column with at least one row: the columns on which minimum
    and maximum are booleans. *)
Definition is_bool_column (n : numeric) : bool :=
  match n with
  | BoolCol (_ :: _) => true
  | _ => false
  end.

(** ** The data library *)

(** The routines of the data library that the scripts call and that do
    arithmetic on whole columns.  They are parameters: the coercion of an
    object column under [errors='coerce'], which never raises and returns
    a column of a numeric dtype; the reductions behind [mean()], [std()],
    [var()] and [median()] called with their default arguments, which
    skip missing values and return a binary64 scalar for every numeric
    dtype; minimum and maximum of the non-missing values of a float64
    column; and the linear quantile of a column that is not boolean.
    How they sum and round is theirs; the scripts' own arithmetic on
    their results is modelled below. *)
Record pandas : Type := {
  obj_to_numeric : list objcell -> numeric;
  nanmean : numeric -> f64;
  nanstd : numeric -> f64;
  nanvar : numeric -> f64;
  nanmedian : numeric -> f64;
  nanmin : list f64 -> f64;
  nanmax : list f64 -> f64;
  quantile : numeric -> f64 -> f64
}.

(** A table of binary64 cells, stored by column: column label, then row
    label. *)
Definition Frame : Type := list (string * list (string * f64)).

(** [f.loc[row, col]] *)
Definition loc (f : Frame) (row col : string) : option f64 :=
  match assoc col f with
  | Some c => assoc row c
  | None => None
  end.

Definition index_of_dicts (d : pydict (pydict (option f64))) : list string :=
  fold_left (fun acc inner => fold_left add_key (map fst inner) acc)
            (map snd d) [].

(** [pd.DataFrame(d)] for a dict of dicts: one column per outer key, the
    rows being the inner keys; [None] and absent entries become
    not-a-number. *)
Definition DataFrame_of_dicts (d : pydict (pydict (option f64))) : Frame :=
  let index := index_of_dicts d in
  map (fun '(c, inner) =>
         (c, map (fun r => (r, match assoc r inner with
                               | Some (Some x) => x
                               | _ => nan
                               end)) index)) d.

(** [.T] *)
Definition transpose (f : Frame) : Frame :=
  let index := match f with
               | [] => []
               | (_, col) :: _ => map fst col
               end in
  map (fun r =>
         (r, map (fun '(c, col) => (c, match assoc r col with
                                       | Some x => x
                                       | None => nan
                                       end)) f)) index.

(** [.round(decimals)] *)
Definition frame_round (decimals : nat) (f : Frame) : Frame :=
  map (fun '(c, col) =>
         (c, map (fun '(r, x) => (r, around decimals x)) col)) f.

(** Line 43: [pd.DataFrame(d).T.round(2)]. *)
Definition resultado (d : pydict (pydict (option f64))) : Frame :=
  frame_round 2 (transpose (DataFrame_of_dicts d)).

Definition linha (a b c d e : option f64) : pydict (option f64) :=
  [ ("Intervalo (%)", a); ("Desvio Padrão (%)", b); ("Variância (%)", c);
    ("Mediana (valor)", d); ("Mediana (%)", e) ].

(** The cell a dict entry becomes in the table. *)
Definition celula (o : option (option f64)) : f64 :=
  match o with
  | Some (Some x) => x
  | _ => nan
  end.

Inductive label : Type := Outlier | Normal.

Definition label_name (l : label) : string :=
  match l with
  | Outlier => "Outlier"
  | Normal => "Normal"
  end.

(** The lambda of [plot_outliers]. *)
Definition classify (limite_inf limite_sup x : f64) : label :=
  if fltb x limite_inf || fltb limite_sup x then Outlier else Normal.

Section Script.

Variable pd : pandas.

(** [pd.to_numeric(col, errors='coerce')]: a column of a numeric dtype,
    boolean included, is returned as it is. *)
Definition to_numeric (c : column) : numeric :=
  match c with
  | Num n => n
  | Obj l => obj_to_numeric pd l
  end.

(** [df.apply(pd.to_numeric, errors='coerce')] *)
Definition df_apply (df : DataFrame) : list (string * numeric) :=
  map (fun kv => (fst kv, to_numeric (snd kv))) df.

(** [series.min()]: a scalar of the dtype of the column, or not-a-number
    when an integer or boolean column has no row. *)
Definition series_min (s : numeric) : scalar :=
  match s with
  | F64Col l => Float64 (nanmin pd l)
  | I64Col [] | U64Col [] | BoolCol [] => Float64 nan
  | I64Col (x :: r) => Int64 (fold_left Z.min r x)
  | U64Col (x :: r) => UInt64 (fold_left Z.min r x)
  | BoolCol (x :: r) => Bool_ (fold_left andb r x)
  end.

Definition series_max (s : numeric) : scalar :=
  match s with
  | F64Col l => Float64 (nanmax pd l)
  | I64Col [] | U64Col [] | BoolCol [] => Float64 nan
  | I64Col (x :: r) => Int64 (fold_left Z.max r x)
  | U64Col (x :: r) => UInt64 (fold_left Z.max r x)
  | BoolCol (x :: r) => Bool_ (fold_left orb r x)
  end.

(** The body of the loop over [variaveis], lines 26-40, for one column of
    the coerced table: the dict of the variable, or the exception of
    line 29. *)
Definition estatisticas_var (s : numeric)
  : exception + pydict (option f64) :=
  let media := nanmean pd s in
  let min_val := series_min s in
  let max_val := series_max s in
  (intervalo <-- scalar_sub max_val min_val ;
   let desvio := Float64 (nanstd pd s) in
   let variancia := Float64 (nanvar pd s) in
   let mediana := Float64 (nanmedian pd s) in
   inr [ ("Intervalo (%)",
          if truthy media
          then Some (fmul (scalar_div intervalo media) f100) else None);
         ("Desvio Padrão (%)",
          if truthy media
          then Some (fmul (scalar_div desvio media) f100) else None);
         ("Variância (%)",
          if truthy media
          then Some (fmul (scalar_div variancia media) f100) else None);
         ("Mediana (valor)", Some (to_float mediana));
         ("Mediana (%)",
          if truthy media
          then Some (fmul (scalar_div mediana media) f100) else None) ])%err.

Fixpoint for_var (vars : list string) (df_numeric : list (string * numeric))
         (estatisticas_percentuais : pydict (pydict (option f64)))
  : exception + pydict (pydict (option f64)) :=
  match vars with
  | [] => inr estatisticas_percentuais
  | var :: vars' =>
      (s <-- getitem df_numeric var ;
       d <-- estatisticas_var s ;
       for_var vars' df_numeric (setitem estatisticas_percentuais var d))%err
  end.

(** The script on the table the CSV reader returned: [df_resultado], the
    table that is printed and saved, or the exception that ends the run. *)
Definition estatistica (df : DataFrame) : exception + Frame :=
  let df_numeric := df_apply df in
  (estatisticas_percentuais <-- for_var variaveis df_numeric [] ;
   let df_resultado := resultado estatisticas_percentuais in
   inr df_resultado)%err.

(** [series.quantile(q)]: a boolean column has no quantile, nor has an
    object column that holds a string; an object column without any
    value has the quantile not-a-number. *)
Definition column_quantile (c : column) (q : f64) : exception + f64 :=
  match c with
  | Num (BoolCol _) =>
      inl (TypeError boolean_subtract)
  | Num n => inr (quantile pd n q)
  | Obj l =>
      if forallb (fun x => match x with ONaN => true | OStr _ => false end) l
      then inr nan
      else inl (TypeError "unsupported operand type(s) for -: 'str' and 'str'")
  end.

(** The values of a column as the lambda compares them with a binary64
    limit: a number as its binary64 value, a missing cell as not-a-number;
    a string does not compare. *)
Definition compared_values (c : column) : exception + list f64 :=
  match c with
  | Num n => inr (to_floats n)
  | Obj l =>
      mapE (fun x => match x with
                     | ONaN => inr nan
                     | OStr _ =>
                         inl (TypeError
                                ("'<' not supported between instances of "
                                 ++ "'str' and 'float'"))
                     end) l
  end.

(** [series.apply(f)] for the lambda of [plot_outliers]. *)
Definition column_apply (f : f64 -> label) (c : column)
  : exception + list label :=
  (vs <-- compared_values c ; inr (map f vs))%err.

End Script.

End B64.

(** ** The figure script, [gerar_figuras.py] *)

(** The script talks to the plotting, numeric and operating-system
    libraries.  A library call is recorded with its arguments; whether it
    raises is decided by the library, not by the script. *)
Inductive arg : Type :=
| AStr (s : string)
| ALit (src : string)
| AIdx (i : nat)
| ANum (x : num)
| ACol (c : column)
| ADf (d : DataFrame)
| ALabels (l : list string)
| AVar (name : string)
| AKw (k : string) (a : arg)
| AF64 (x : B64.f64)
| ATab (d : B64.DataFrame).

Record call : Type := Call { fn : string; args : list arg }.

(** What a statement can raise: an [Exception], or the [SystemExit] of
    [exit()], which [except Exception] does not catch. *)
Inductive raised : Type :=
| Exc (e : exception)
| SystemExit.

(** The world the script acts on: the lines printed, the image files
    written, and the library calls made so far. *)
Record World : Type := mkWorld {
  stdout : list string;
  files : list string;
  trace : list call
}.

Definition M (A : Type) : Type := World -> (raised + A) * World.

Definition ret {A : Type} (a : A) : M A := fun w => (inr a, w).

Definition bind {A B : Type} (m : M A) (f : A -> M B) : M B :=
  fun w =>
    match m w with
    | (inl r, w') => (inl r, w')
    | (inr a, w') => f a w'
    end.

Declare Scope script_scope.
Delimit Scope script_scope with script.
Notation "x <- m ;; k" := (bind m (fun x => k))
  (at level 61, m at next level, right associativity) : script_scope.
Notation "m ;; k" := (bind m (fun _ => k))
  (at level 61, right associativity) : script_scope.

(** The world after one more printed line. *)
Definition printed (w : World) (line : string) : World :=
  mkWorld (stdout w ++ [line])%list (files w) (trace w).

Definition print (line : string) : M unit :=
  fun w => (inr tt, printed w line).

Definition exit_ {A : Type} : M A := fun w => (inl SystemExit, w).

(** A pure step that may raise. *)
Definition lift {A : Type} (r : exception + A) : M A :=
  fun w =>
    match r with
    | inl e => (inl (Exc e), w)
    | inr a => (inr a, w)
    end.

(** [try: body  except Exception as e: handler e] *)
Definition try_except {A : Type} (body : M A) (handler : exception -> M A)
  : M A :=
  fun w =>
    match body w with
    | (inl (Exc e), w') => handler e w'
    | other => other
    end.

(** [try: body  except: handler] *)
Definition try_bare {A : Type} (body : M A) (handler : M A) : M A :=
  fun w =>
    match body w with
    | (inl _, w') => handler w'
    | other => other
    end.

Fixpoint for_each {A : Type} (l : list A) (body : A -> M unit) : M unit :=
  match l with
  | [] => ret tt
  | a :: l' => (body a ;; for_each l' body)%script
  end.

Definition enumerate {A : Type} (l : list A) : list (nat * A) :=
  combine (seq 0 (length l)) l.

(** [keeps R m]: the world after [m] is related by [R] to the world
    before, however [m] ends. *)
Definition keeps (R : World -> World -> Prop) {A : Type} (m : M A) : Prop :=
  forall w, R w (snd (m w)).

(** [no_exit m]: [m] never ends the process by itself. *)
Definition no_exit {A : Type} (m : M A) : Prop :=
  forall w, fst (m w) <> inl SystemExit.

(** The library functions the configuration lines call. *)
Definition nomes_config : list string :=
  ["plt.style.use"; "sns.set_theme"; "plt.rcParams.__setitem__"].

(** Between two worlds: no file was written and the only library calls made
    were configuration calls. *)
Definition so_config (w w' : World) : Prop :=
  files w' = files w
  /\ exists cs, trace w' = (trace w ++ cs)%list
                /\ Forall (fun k => In (fn k) nomes_config) cs.

(** Between two worlds: nothing was printed. *)
Definition calado (w w' : World) : Prop := stdout w' = stdout w.

(** The line printed for a missing required column. *)
Definition erro_coluna (col : string) : string :=
  "Erro: Coluna '" ++ col ++ "' não encontrada no arquivo CSV.".

Inductive label : Type := Outlier | Normal.

Definition label_name (l : label) : string :=
  match l with
  | Outlier => "Outlier"
  | Normal => "Normal"
  end.

(** The scatter call of [plot_outliers], for a table and the labels of its
    points. *)
Definition chamada_scatter (df : DataFrame) (hue : list label) : call :=
  Call "sns.scatterplot"
       [AKw "x" (AStr "Data_Hora"); AKw "y" (AStr "UmidadeAr");
        AKw "data" (ADf df);
        AKw "hue" (ALabels (map label_name hue));
        AKw "palette" (ALit "{'Normal':'blue', 'Outlier':'red'}");
        AKw "s" (ALit "80")].

(** The image file a successful call writes. *)
Definition saved_file (c : call) : option string :=
  if String.eqb (fn c) "plt.savefig"
  then match args c with
       | AStr path :: _ => Some path
       | _ => None
       end
  else None.

Definition lower_ascii (c : ascii) : ascii :=
  let n := nat_of_ascii c in
  if (65 <=? n)%nat && (n <=? 90)%nat then ascii_of_nat (n + 32) else c.

Fixpoint lower (s : string) : string :=
  match s with
  | EmptyString => EmptyString
  | String c s' => String (lower_ascii c) (lower s')
  end.

(** [series + ' '] and [series + series] as the load step uses them: only
    strings add; a missing cell stays missing. *)
Definition series_add_str (c : column) (s : string) : exception + column :=
  match c with
  | ObjCol l =>
      inr (ObjCol (map (fun x => match x with
                                 | OStr a => OStr (a ++ s)
                                 | ONaN => ONaN
                                 end) l))
  | _ => inl (TypeError "unsupported operand type(s) for +")
  end.

Definition series_add (a b : column) : exception + column :=
  match a, b with
  | ObjCol la, ObjCol lb =>
      inr (ObjCol (map (fun xy => match xy with
                                  | (OStr x, OStr y) => OStr (x ++ y)
                                  | _ => ONaN
                                  end) (combine la lb)))
  | ObjCol la, NumCol lb =>
      if forallb (fun xy => match xy with
                            | (ONaN, _) | (_, NaN) => true
                            | _ => false
                            end) (combine la lb)
      then inr (ObjCol (map (fun _ => ONaN) (combine la lb)))
      else inl (TypeError "can only concatenate str to str")
  | _, _ => inl (TypeError "unsupported operand type(s) for +")
  end.

(** [df[[c1, c2, ...]]] *)
Definition select (df : DataFrame) (cols : list string)
  : exception + DataFrame :=
  mapE (fun c => (v <-- getitem df c ; inr (c, v))%err) cols.

(** An object column without any value: every cell is the missing marker
    (the columns of a file that has only its header line are such). *)
Definition sem_valores (l : list objcell) : bool :=
  forallb (fun x => match x with ONaN => true | OStr _ => false end) l.

(** [series.quantile(q)]: a column that holds a string has no quantile; an
    object column without any value has the quantile not-a-number. *)
Definition column_quantile (c : column) (q : Q) : exception + num :=
  match c with
  | NumCol l => inr (series_quantile l q)
  | ObjCol l =>
      if sem_valores l then inr NaN
      else inl (TypeError "unsupported operand type(s) for -")
  | TimeCol _ => inl (TypeError "unsupported operand type(s) for -")
  end.

(** The lambda of [plot_outliers]. *)
Definition classify (limite_inf limite_sup x : num) : label :=
  if nltb x limite_inf || ngtb x limite_sup then Outlier else Normal.

(** [series.apply(f)] on the values of a column the lambda can compare: a
    missing cell compares as not-a-number, a string does not compare. *)
Definition column_apply (f : num -> label) (c : column)
  : exception + list label :=
  match c with
  | NumCol l => inr (map f l)
  | ObjCol l =>
      if sem_valores l then inr (map (fun _ => f NaN) l)
      else inl (TypeError "'<' not supported between instances")
  | TimeCol _ => inl (TypeError "'<' not supported between instances")
  end.

Definition required_columns : list string := ["UmidadeAr"; "Temp"; "USolo"].

Definition core_vars : list string := ["UmidadeAr"; "Temp"; "USolo"].

Record var_info : Type := mkInfo { nome : string; cor : string; unidade : string }.

Definition variaveis_info : list (string * var_info) :=
  [ ("UmidadeAr", mkInfo "Umidade do Ar" "blue" "%");
    ("Temp", mkInfo "Temperatura" "red" "°C");
    ("USolo", mkInfo "Umidade do Solo" "green" "%") ].

Definition arquivos_gerados : list string :=
  [ "- temporal_combinado.png (gráfico com 3 subplots)";
    "- temporal_umidadear.png (umidade do ar individual)";
    "- temporal_temp.png (temperatura individual)";
    "- temporal_usolo.png (umidade do solo individual)";
    "- boxplot_variaveis.png";
    "- matriz_correlacao.png";
    "- outliers_umidade.png";
    "- pca_ambiental.png" ].

Definition mensagens_finais : list string :=
  "Processamento concluído. Verifique a pasta 'graficos/'"
  :: "Arquivos gerados:" :: arquivos_gerados.

Definition savefig (path : string) : call :=
  Call "plt.savefig" [AStr path; AKw "dpi" (ALit "300");
                      AKw "bbox_inches" (AStr "tight")].

Section Figuras.

(** The libraries: whether a call raises, given the calls made before it;
    and the timestamp parser. *)
Variable lib_raises : list call -> call -> option exception.
Variable to_datetime : column -> exception + column.

(** A library call: recorded, then it raises or returns; a returning
    [plt.savefig] has written its file. *)
Definition lib (c : call) : M unit :=
  fun w =>
    let tr := (trace w ++ [c])%list in
    match lib_raises (trace w) c with
    | Some e => (inl (Exc e), mkWorld (stdout w) (files w) tr)
    | None =>
        let fs := match saved_file c with
                  | Some path => (files w ++ [path])%list
                  | None => files w
                  end in
        (inr tt, mkWorld (stdout w) fs tr)
    end.

(** Lines 18-20: the table read from the CSV file, with the parsed
    [Data_Hora] column added.  [csv] is what [pd.read_csv] returned or
    raised. *)
Definition carregar (csv : exception + DataFrame) : exception + DataFrame :=
  (dados <-- csv ;
   data <-- getitem dados "Data" ;
   data_ <-- series_add_str data " " ;
   hora <-- getitem dados "Hora" ;
   texto <-- series_add data_ hora ;
   data_hora <-- to_datetime texto ;
   inr (setitem dados "Data_Hora" data_hora))%err.

(** Lines 27-30. *)
Fixpoint verificar_colunas (cols : list string) (dados : DataFrame)
  : M unit :=
  match cols with
  | [] => ret tt
  | col :: cols' =>
      ((if negb (has_column col dados)
        then (print ("Erro: Coluna '" ++ col
                     ++ "' não encontrada no arquivo CSV.") ;; exit_)
        else ret tt) ;;
       verificar_colunas cols' dados)%script
  end.

Definition grafico_temporal (df : DataFrame) (item : nat * (string * var_info))
  : M unit :=
  let '(i, (col, info)) := item in
  (x <- lift (getitem df "Data_Hora") ;;
   y <- lift (getitem df col) ;;
   lib (Call "axs[i].plot" [AIdx i; ACol x; ACol y;
                            AKw "color" (AStr ("tab:" ++ cor info))]) ;;
   lib (Call "axs[i].set_title"
             [AIdx i; AStr ("Variação Temporal da " ++ nome info)]) ;;
   lib (Call "axs[i].set_ylabel"
             [AIdx i; AStr (nome info ++ " (" ++ unidade info ++ ")")]) ;;
   lib (Call "axs[i].grid" [AIdx i; ALit "True"]) ;;
   lib (Call "plt.figure" [AKw "figsize" (ALit "(12, 4)")]) ;;
   x <- lift (getitem df "Data_Hora") ;;
   y <- lift (getitem df col) ;;
   lib (Call "plt.plot" [ACol x; ACol y;
                         AKw "color" (AStr ("tab:" ++ cor info))]) ;;
   lib (Call "plt.title" [AStr ("Variação Temporal da " ++ nome info)]) ;;
   lib (Call "plt.ylabel"
             [AStr (nome info ++ " (" ++ unidade info ++ ")")]) ;;
   lib (Call "plt.xlabel" [AStr "Horário"]) ;;
   lib (Call "plt.grid" [ALit "True"]) ;;
   lib (Call "plt.tight_layout" []) ;;
   lib (savefig ("graficos/temporal_" ++ lower col ++ ".png")) ;;
   lib (Call "plt.close" []))%script.

Definition graficos_temporais (df : DataFrame) : M unit :=
  (lib (Call "plt.subplots" [ALit "3"; ALit "1";
                             AKw "figsize" (ALit "(12, 15)")]) ;;
   for_each (enumerate variaveis_info) (grafico_temporal df) ;;
   lib (Call "axs[i].set_xlabel" [ALit "-1"; AStr "Horário"]) ;;
   lib (Call "plt.tight_layout" []) ;;
   lib (savefig "graficos/temporal_combinado.png") ;;
   lib (Call "plt.close" []))%script.

Definition plot_graficos_temporais (df : DataFrame) : M unit :=
  try_except (graficos_temporais df)
    (fun e => print ("Erro ao gerar gráficos temporais: " ++ str_exception e)).

Definition boxplot (df : DataFrame) : M unit :=
  (lib (Call "plt.figure" [AKw "figsize" (ALit "(10, 6)")]) ;;
   lib (Call "df.melt" [ADf df; AKw "value_vars" (ALabels core_vars);
                        AKw "var_name" (AStr "Variável");
                        AKw "value_name" (AStr "Valor")]) ;;
   lib (Call "sns.boxplot" [AKw "x" (AStr "Variável");
                            AKw "y" (AStr "Valor");
                            AKw "data" (AVar "df_melt")]) ;;
   lib (Call "plt.title" [AStr "Distribuição das Variáveis Ambientais"]) ;;
   lib (Call "plt.tight_layout" []) ;;
   lib (savefig "graficos/boxplot_variaveis.png") ;;
   lib (Call "plt.close" []))%script.

Definition plot_boxplot (df : DataFrame) : M unit :=
  try_except (boxplot df)
    (fun e => print ("Erro ao gerar boxplot: " ++ str_exception e)).

Definition correlacao (df : DataFrame) : M unit :=
  (sub <- lift (select df core_vars) ;;
   lib (Call "df.corr" [ADf sub]) ;;
   lib (Call "plt.figure" [AKw "figsize" (ALit "(8, 6)")]) ;;
   lib (Call "sns.heatmap" [AVar "corr"; AKw "annot" (ALit "True");
                            AKw "cmap" (AStr "coolwarm");
                            AKw "center" (ALit "0");
                            AKw "annot_kws" (ALit "{'size': 14}");
                            AKw "fmt" (AStr ".2f")]) ;;
   lib (Call "plt.title" [AStr "Matriz de Correlação"]) ;;
   lib (Call "plt.tight_layout" []) ;;
   lib (savefig "graficos/matriz_correlacao.png") ;;
   lib (Call "plt.close" []))%script.

Definition plot_correlacao (df : DataFrame) : M unit :=
  try_except (correlacao df)
    (fun e => print ("Erro ao gerar matriz de correlação: "
                     ++ str_exception e)).

Definition outliers (df : DataFrame) : M unit :=
  (lib (Call "plt.figure" [AKw "figsize" (ALit "(12, 6)")]) ;;
   umidade <- lift (getitem df "UmidadeAr") ;;
   Q1 <- lift (column_quantile umidade (1 # 4)) ;;
   umidade <- lift (getitem df "UmidadeAr") ;;
   Q3 <- lift (column_quantile umidade (3 # 4)) ;;
   let IQR := nsub Q3 Q1 in
   let limite_inf := nsub Q1 (nmul (Fin (3 # 2)) IQR) in
   let limite_sup := nadd Q3 (nmul (Fin (3 # 2)) IQR) in
   umidade <- lift (getitem df "UmidadeAr") ;;
   hue <- lift (column_apply (classify limite_inf limite_sup) umidade) ;;
   lib (Call "sns.scatterplot"
             [AKw "x" (AStr "Data_Hora"); AKw "y" (AStr "UmidadeAr");
              AKw "data" (ADf df);
              AKw "hue" (ALabels (map label_name hue));
              AKw "palette" (ALit "{'Normal':'blue', 'Outlier':'red'}");
              AKw "s" (ALit "80")]) ;;
   lib (Call "plt.axhline" [AKw "y" (ANum limite_sup);
                            AKw "color" (AStr "r");
                            AKw "linestyle" (AStr "--")]) ;;
   lib (Call "plt.axhline" [AKw "y" (ANum limite_inf);
                            AKw "color" (AStr "r");
                            AKw "linestyle" (AStr "--")]) ;;
   lib (Call "plt.title"
             [AStr "Identificação de Outliers - Umidade do Ar"]) ;;
   lib (Call "plt.xticks" [AKw "rotation" (ALit "45")]) ;;
   lib (Call "plt.legend" [AKw "title" (AStr "Classificação")]) ;;
   lib (Call "plt.tight_layout" []) ;;
   lib (savefig "graficos/outliers_umidade.png") ;;
   lib (Call "plt.close" []))%script.

Definition plot_outliers (df : DataFrame) : M unit :=
  try_except (outliers df)
    (fun e => print ("Erro ao gerar gráfico de outliers: "
                     ++ str_exception e)).

Definition vetor_pca (item : nat * string) : M unit :=
  let '(i, feature) := item in
  (lib (Call "plt.arrow" [ALit "0"; ALit "0";
                          AVar "pca.components_[0, i]"; AIdx i;
                          AVar "pca.components_[1, i]"; AIdx i;
                          AKw "color" (AStr "r"); AKw "width" (ALit "0.01");
                          AKw "head_width" (ALit "0.05")]) ;;
   lib (Call "plt.text" [AVar "pca.components_[0, i]*1.2"; AIdx i;
                         AVar "pca.components_[1, i]*1.2"; AIdx i;
                         AStr feature; AKw "color" (AStr "r")]))%script.

Definition pca (df : DataFrame) : M unit :=
  (X <- lift (select df core_vars) ;;
   lib (Call "StandardScaler().fit_transform" [ADf X]) ;;
   lib (Call "PCA" [AKw "n_components" (ALit "2")]) ;;
   lib (Call "pca.fit_transform" [AVar "X"]) ;;
   lib (Call "plt.figure" [AKw "figsize" (ALit "(10, 6)")]) ;;
   lib (Call "plt.scatter" [AVar "principalComponents[:, 0]";
                            AVar "principalComponents[:, 1]";
                            AKw "alpha" (ALit "0.5")]) ;;
   for_each (enumerate ["Umidade"; "Temp"; "USolo"]) vetor_pca ;;
   lib (Call "plt.xlabel"
             [AStr "PC1 (Variancia: ";
              AVar "pca.explained_variance_ratio_[0]:.1%"; AStr ")"]) ;;
   lib (Call "plt.ylabel"
             [AStr "PC2 (Variancia: ";
              AVar "pca.explained_variance_ratio_[1]:.1%"; AStr ")"]) ;;
   lib (Call "plt.title"
             [AStr "Análise de Componentes Principais (PCA)"]) ;;
   lib (Call "plt.grid" []) ;;
   lib (Call "plt.tight_layout" []) ;;
   lib (savefig "graficos/pca_ambiental.png") ;;
   lib (Call "plt.close" []))%script.

Definition plot_pca (df : DataFrame) : M unit :=
  try_except (pca df)
    (fun e => print ("Erro ao gerar PCA: " ++ str_exception e)).

(** Lines 168-172. *)
Definition gerar_graficos (dados : DataFrame) : M unit :=
  (plot_graficos_temporais dados ;;
   plot_boxplot dados ;;
   plot_correlacao dados ;;
   plot_outliers dados ;;
   plot_pca dados)%script.

(** Lines 8-15. *)
Definition configurar : M unit :=
  (try_bare (lib (Call "plt.style.use" [AStr "seaborn-v0_8"]))
            (lib (Call "plt.style.use" [AStr "ggplot"])) ;;
   lib (Call "sns.set_theme" [AKw "style" (AStr "whitegrid")]) ;;
   lib (Call "plt.rcParams.__setitem__" [AStr "font.size"; ALit "12"]))%script.

(** Lines 8-30: configuration, load and column check; returns [dados]. *)
Definition preparar (csv : exception + DataFrame) : M DataFrame :=
  (configurar ;;
   dados <- try_except (lift (carregar csv))
              (fun e => print ("Erro ao carregar dados: "
                               ++ str_exception e) ;; exit_) ;;
   verificar_colunas required_columns dados ;;
   ret dados)%script.

Definition makedirs : call :=
  Call "os.makedirs" [AStr "graficos"; AKw "exist_ok" (ALit "True")].

(** The whole script. *)
Definition gerar_figuras (csv : exception + DataFrame) : M unit :=
  (dados <- preparar csv ;;
   lib makedirs ;;
   gerar_graficos dados ;;
   for_each mensagens_finais print)%script.

End Figuras.

(** ** The outlier renderer over typed columns *)

Module B64Fig.

(** The scatter call of [plot_outliers], for a table and the labels of its
    points. *)
Definition chamada_scatter (df : B64.DataFrame) (hue : list B64.label)
  : call :=
  Call "sns.scatterplot"
       [AKw "x" (AStr "Data_Hora"); AKw "y" (AStr "UmidadeAr");
        AKw "data" (ATab df);
        AKw "hue" (ALabels (map B64.label_name hue));
        AKw "palette" (ALit "{'Normal':'blue', 'Outlier':'red'}");
        AKw "s" (ALit "80")].



Section Renderer.

Variable pd : B64.pandas.
Variable lib_raises : list call -> call -> option exception.

(** Lines 120-129: the two limit lines, the decoration, the image. *)
Definition acabamento (limite_inf limite_sup : B64.f64) : M unit :=
  (lib lib_raises (Call "plt.axhline" [AKw "y" (AF64 limite_sup);
                                       AKw "color" (AStr "r");
                                       AKw "linestyle" (AStr "--")]) ;;
   lib lib_raises (Call "plt.axhline" [AKw "y" (AF64 limite_inf);
                                       AKw "color" (AStr "r");
                                       AKw "linestyle" (AStr "--")]) ;;
   lib lib_raises (Call "plt.title"
                        [AStr "Identificação de Outliers - Umidade do Ar"]) ;;
   lib lib_raises (Call "plt.xticks" [AKw "rotation" (ALit "45")]) ;;
   lib lib_raises (Call "plt.legend" [AKw "title" (AStr "Classificação")]) ;;
   lib lib_raises (Call "plt.tight_layout" []) ;;
   lib lib_raises (savefig "graficos/outliers_umidade.png") ;;
   lib lib_raises (Call "plt.close" []))%script.

(** Lines 104-129. *)
Definition outliers (df : B64.DataFrame) : M unit :=
  (lib lib_raises (Call "plt.figure" [AKw "figsize" (ALit "(12, 6)")]) ;;
   umidade <- lift (getitem df "UmidadeAr") ;;
   Q1 <- lift (B64.column_quantile pd umidade B64.f0_25) ;;
   umidade <- lift (getitem df "UmidadeAr") ;;
   Q3 <- lift (B64.column_quantile pd umidade B64.f0_75) ;;
   let IQR := B64.fsub Q3 Q1 in
   let limite_inf := B64.fsub Q1 (B64.fmul B64.f1_5 IQR) in
   let limite_sup := B64.fadd Q3 (B64.fmul B64.f1_5 IQR) in
   umidade <- lift (getitem df "UmidadeAr") ;;
   hue <- lift (B64.column_apply (B64.classify limite_inf limite_sup)
                                 umidade) ;;
   lib lib_raises (chamada_scatter df hue) ;;
   acabamento limite_inf limite_sup)%script.

Definition plot_outliers (df : B64.DataFrame) : M unit :=
  try_except (outliers df)
    (fun e => print ("Erro ao gerar gráfico de outliers: "
                     ++ str_exception e)).

End Renderer.

End B64Fig.

(** ** The standalone plot, [plotagem.py] *)

Section Plotagem.

Variable str_to_num : string -> option num.
Variable lib_raises : list call -> call -> option exception.
Variable to_datetime : column -> exception + column.

(** The script on the table the CSV reader returned.  Nothing is guarded:
    an exception ends the run. *)
Definition plotagem (df : DataFrame) : M unit :=
  (data <- lift (getitem df "Data") ;;
   data_ <- lift (series_add_str data " ") ;;
   hora <- lift (getitem df "Hora") ;;
   texto <- lift (series_add data_ hora) ;;
   data_hora <- lift (to_datetime texto) ;;
   let df := setitem df "DataHora" data_hora in
   df_numeric <- lift (df_apply (to_numeric str_to_num ErrorsCoerce) df) ;;
   data_hora <- lift (getitem df "DataHora") ;;
   let df_numeric := setitem df_numeric "DataHora" data_hora in
   x <- lift (getitem df_numeric "DataHora") ;;
   lib lib_raises (Call "plt.figure" [AKw "figsize" (ALit "(12, 6)")]) ;;
   temp <- lift (getitem df_numeric "Temp") ;;
   lib lib_raises (Call "plt.plot" [ACol x; ACol temp;
                                    AKw "label" (AStr "Temperatura (°C)");
                                    AKw "color" (AStr "red");
                                    AKw "marker" (AStr "o")]) ;;
   umidade <- lift (getitem df_numeric "UmidadeAr") ;;
   lib lib_raises (Call "plt.plot" [ACol x; ACol umidade;
                                    AKw "label" (AStr "Umidade do Ar (%)");
                                    AKw "color" (AStr "blue");
                                    AKw "marker" (AStr "s")]) ;;
   solo <- lift (getitem df_numeric "USolo") ;;
   lib lib_raises (Call "plt.plot" [ACol x; ACol solo;
                                    AKw "label" (AStr "Umidade do Solo (%)");
                                    AKw "color" (AStr "green");
                                    AKw "marker" (AStr "^")]) ;;
   lib lib_raises (Call "plt.title"
                        [AStr "Evolução das Variáveis ao Longo do Tempo"]) ;;
   lib lib_raises (Call "plt.xlabel" [AStr "Data e Hora"]) ;;
   lib lib_raises (Call "plt.ylabel" [AStr "Valor"]) ;;
   lib lib_raises (Call "plt.xticks" [AKw "rotation" (ALit "45")]) ;;
   lib lib_raises (Call "plt.grid" [ALit "True"]) ;;
   lib lib_raises (Call "plt.legend" []) ;;
   lib lib_raises (Call "plt.tight_layout" []) ;;
   lib lib_raises (Call "plt.show" []))%script.

End Plotagem.

(** ** Concrete instances, to run the model on examples *)

(** A reader of plain decimal literals: an optional sign, digits, and an
    optional fraction. *)
Definition digit_of (c : ascii) : option Z :=
  let n := nat_of_ascii c in
  if (48 <=? n)%nat && (n <=? 57)%nat then Some (Z.of_nat (n - 48)) else None.

Fixpoint read_digits (s : string) (acc : Z) (count : nat)
  : Z * nat * string :=
  match s with
  | EmptyString => (acc, count, s)
  | String c s' =>
      match digit_of c with
      | Some d => read_digits s' (10 * acc + d)%Z (S count)
      | None => (acc, count, s)
      end
  end.

Definition parse_unsigned (s : string) : option Q :=
  let '(ip, ni, rest) := read_digits s 0%Z 0%nat in
  match rest with
  | EmptyString => if (ni =? 0)%nat then None else Some (inject_Z ip)
  | String "." rest' =>
      let '(fp, nf, rest2) := read_digits rest' 0%Z 0%nat in
      match rest2 with
      | EmptyString =>
          if (ni + nf =? 0)%nat then None
          else Some (Qred (inject_Z ip
                           + inject_Z fp / inject_Z (10 ^ Z.of_nat nf)))
      | _ => None
      end
  | _ => None
  end.

Definition parse_decimal (s : string) : option num :=
  match s with
  | String "-" s' => option_map (fun q => Fin (Qred (- q))) (parse_unsigned s')
  | String "+" s' => option_map Fin (parse_unsigned s')
  | _ => option_map Fin (parse_unsigned s)
  end.

(** A square root to six decimals. *)
Definition sqrt_decimal (q : Q) : Q :=
  Qred (inject_Z (Z.sqrt (Qnum q * 10 ^ 12 / Zpos (Qden q)))
        / inject_Z (10 ^ 6)).

(** The table of the two-row scenario, as the CSV reader returns it. *)
Definition dados_exemplo : DataFrame :=
  [ ("Data", ObjCol [OStr "01/01/2025"; OStr "01/01/2025"]);
    ("Hora", ObjCol [OStr "00:00"; OStr "01:00"]);
    ("Temp", NumCol [of_Z 20; of_Z 30]);
    ("UmidadeAr", NumCol [of_Z 50; of_Z 70]);
    ("USolo", NumCol [of_Z 30; of_Z 50]) ].

(** The same table with status words in the air-humidity column. *)
Definition dados_sujos : DataFrame :=
  [ ("Data", ObjCol [OStr "01/01/2025"; OStr "01/01/2025"]);
    ("Hora", ObjCol [OStr "00:00"; OStr "01:00"]);
    ("Temp", NumCol [of_Z 20; of_Z 30]);
    ("UmidadeAr", ObjCol [OStr "SIM"; OStr "NAO"]);
    ("USolo", NumCol [of_Z 30; of_Z 50]) ].

(** A table whose temperature has mean zero and whose air humidity has no
    numeric cell at all. *)
Definition dados_media_zero : DataFrame :=
  [ ("Temp", NumCol [of_Z (-3); of_Z 1; of_Z 2]);
    ("UmidadeAr", ObjCol [OStr "SIM"; OStr "NAO"; ONaN]);
    ("USolo", NumCol [of_Z 30; NaN; of_Z 50]) ].

(** The scenario table without the soil-moisture column, and without the
    date column as well. *)
Definition dados_sem_usolo : DataFrame :=
  [ ("Data", ObjCol [OStr "01/01/2025"; OStr "01/01/2025"]);
    ("Hora", ObjCol [OStr "00:00"; OStr "01:00"]);
    ("Temp", NumCol [of_Z 20; of_Z 30]);
    ("UmidadeAr", NumCol [of_Z 50; of_Z 70]) ].

(** A timestamp parser for the examples: every string cell parses, to the
    index of its row. *)
Definition datetime_exemplo (c : column) : exception + column :=
  match c with
  | ObjCol l =>
      inr (TimeCol (map (fun ix => match snd ix with
                                   | OStr _ => Some (Z.of_nat (fst ix))
                                   | ONaN => None
                                   end) (enumerate l)))
  | _ => inl (TypeError "cannot parse")
  end.

(** Libraries in which no call raises. *)
Definition lib_ok (_ : list call) (_ : call) : option exception := None.

(** Libraries in which configuration and [os.makedirs] work and every other
    call raises. *)
Definition lib_falha (_ : list call) (c : call) : option exception :=
  if existsb (String.eqb (fn c))
             ["plt.style.use"; "sns.set_theme"; "plt.rcParams.__setitem__";
              "os.makedirs"]
  then None
  else Some (OtherError "RuntimeError" "backend failure").

Definition mundo_vazio : World := mkWorld [] [] [].

(** ** An instance of the data library, to run the typed model on examples *)

(** The binary64 value of a decimal literal with few digits: the quotient
    of two integers that are exact in binary64, rounded once. *)
Definition f64_of_num (x : num) : B64.f64 :=
  match x with
  | NaN => B64.nan
  | Inf s => S754_infinity s
  | Fin q => B64.fdiv (B64.of_Z (Qnum q)) (B64.of_Z (Zpos (Qden q)))
  end.

Definition decimal (n d : Z) : B64.f64 := B64.fdiv (B64.of_Z n) (B64.of_Z d).

Definition dropna64 (l : list B64.f64) : list B64.f64 :=
  filter (fun x => negb (B64.is_nan x)) l.

(** Sums accumulate from left to right. *)
Definition sum64 (l : list B64.f64) : B64.f64 :=
  fold_left B64.fadd l (B64.of_Z 0).

Definition mean64 (l : list B64.f64) : B64.f64 :=
  let xs := dropna64 l in
  B64.fdiv (sum64 xs) (B64.of_Z (Z.of_nat (length xs))).

Definition var64 (l : list B64.f64) : B64.f64 :=
  let xs := dropna64 l in
  let count := length xs in
  if (count <=? 1)%nat then B64.nan
  else
    let avg := B64.fdiv (sum64 xs) (B64.of_Z (Z.of_nat count)) in
    let sqr := map (fun x => let d := B64.fsub avg x in B64.fmul d d) xs in
    B64.fdiv (sum64 sqr) (B64.of_Z (Z.of_nat (count - 1))).

Definition std64 (l : list B64.f64) : B64.f64 := B64.fsqrt (var64 l).

Fixpoint insert64 (x : B64.f64) (l : list B64.f64) : list B64.f64 :=
  match l with
  | [] => [x]
  | y :: l' => if B64.fltb y x then y :: insert64 x l' else x :: l
  end.

Definition sort64 (l : list B64.f64) : list B64.f64 :=
  fold_right insert64 [] l.

Definition median64 (l : list B64.f64) : B64.f64 :=
  let xs := sort64 (dropna64 l) in
  let n := length xs in
  match n with
  | O => B64.nan
  | _ =>
      if Nat.odd n then nth (n / 2) xs B64.nan
      else B64.fdiv (B64.fadd (nth (n / 2 - 1) xs B64.nan)
                              (nth (n / 2) xs B64.nan))
                    (B64.of_Z 2)
  end.

Definition min64 (l : list B64.f64) : B64.f64 :=
  match dropna64 l with
  | [] => B64.nan
  | x :: xs => fold_left (fun a b => if B64.fltb b a then b else a) xs x
  end.

Definition max64 (l : list B64.f64) : B64.f64 :=
  match dropna64 l with
  | [] => B64.nan
  | x :: xs => fold_left (fun a b => if B64.fltb a b then b else a) xs x
  end.

(** The integer part of a binary64 value that is not negative. *)
Definition floor64 (x : B64.f64) : Z :=
  match x with
  | S754_finite false m (Zneg k) => (Zpos m / Z.pow_pos 2 k)%Z
  | S754_finite false m e => (Zpos m * 2 ^ e)%Z
  | _ => 0%Z
  end.

Definition lerp64 (a b t : B64.f64) : B64.f64 :=
  let diff_b_a := B64.fsub b a in
  if B64.fltb t (decimal 1 2)
  then B64.fadd a (B64.fmul diff_b_a t)
  else B64.fsub b (B64.fmul diff_b_a (B64.fsub (B64.of_Z 1) t)).

(** The quantile by linear interpolation at the virtual index
    [(n - 1) * q] of the sorted non-missing values. *)
Definition quantile64 (l : list B64.f64) (q : B64.f64) : B64.f64 :=
  let xs := sort64 (dropna64 l) in
  let n := length xs in
  match n with
  | O => B64.nan
  | _ =>
      let virtual := B64.fmul (B64.of_Z (Z.of_nat (n - 1))) q in
      let previous := Z.to_nat (floor64 virtual) in
      let next := Nat.min (previous + 1) (n - 1) in
      let gamma := B64.fsub virtual (B64.of_Z (Z.of_nat previous)) in
      lerp64 (nth previous xs B64.nan) (nth next xs B64.nan) gamma
  end.

(** An instance of the data library: reductions written the plain way, and
    a coercion that reads decimal literals and always answers float64. *)
Definition pandas_exemplo : B64.pandas :=
  {| B64.obj_to_numeric :=
       fun l =>
         B64.F64Col
           (map (fun c => match c with
                          | OStr s =>
                              match parse_decimal s with
                              | Some x => f64_of_num x
                              | None => B64.nan
                              end
                          | ONaN => B64.nan
                          end) l);
     B64.nanmean := fun n => mean64 (B64.to_floats n);
     B64.nanstd := fun n => std64 (B64.to_floats n);
     B64.nanvar := fun n => var64 (B64.to_floats n);
     B64.nanmedian := fun n => median64 (B64.to_floats n);
     B64.nanmin := min64;
     B64.nanmax := max64;
     B64.quantile := fun n q => quantile64 (B64.to_floats n) q |}.

(** The table of the two-row scenario with its dtypes: the readings are
    integer literals, so the reader makes them int64 columns. *)
Definition tabela_exemplo : B64.DataFrame :=
  [ ("Data", B64.Obj [OStr "01/01/2025"; OStr "01/01/2025"]);
    ("Hora", B64.Obj [OStr "00:00"; OStr "01:00"]);
    ("Temp", B64.Num (B64.I64Col [20; 30]%Z));
    ("UmidadeAr", B64.Num (B64.I64Col [50; 70]%Z));
    ("USolo", B64.Num (B64.I64Col [30; 50]%Z)) ].

(** The scenario with a temperature column of [True] and [False]. *)
Definition tabela_booleana : B64.DataFrame :=
  [ ("Temp", B64.Num (B64.BoolCol [true; false]));
    ("UmidadeAr", B64.Num (B64.I64Col [50; 70]%Z));
    ("USolo", B64.Num (B64.I64Col [30; 50]%Z)) ].

(** The same with a temperature column of two [False]. *)
Definition tabela_falsa : B64.DataFrame :=
  [ ("Temp", B64.Num (B64.BoolCol [false; false]));
    ("UmidadeAr", B64.Num (B64.I64Col [50; 70]%Z));
    ("USolo", B64.Num (B64.I64Col [30; 50]%Z)) ].

(** The scenario without the soil-moisture column. *)
Definition tabela_sem_usolo : B64.DataFrame :=
  [ ("Temp", B64.Num (B64.I64Col [20; 30]%Z));
    ("UmidadeAr", B64.Num (B64.I64Col [50; 70]%Z)) ].

(** A temperature of mean zero and no soil-moisture column. *)
Definition tabela_zero_sem_usolo : B64.DataFrame :=
  [ ("Temp", B64.Num (B64.I64Col [-3; 1; 2]%Z));
    ("UmidadeAr", B64.Num (B64.I64Col [50; 70; 60]%Z)) ].

(** A temperature of mean zero, an air humidity without a numeric cell,
    and a soil moisture read as 1.015 twice with a failed reading
    between. *)
Definition tabela_media_zero : B64.DataFrame :=
  [ ("Temp", B64.Num (B64.I64Col [-3; 1; 2]%Z));
    ("UmidadeAr", B64.Obj [OStr "SIM"; OStr "NAO"; ONaN]);
    ("USolo", B64.Num (B64.F64Col [decimal 1015 1000; B64.nan;
                                   decimal 1015 1000])) ].

(** Two temperature readings whose difference is beyond the largest
    binary64 value, 1.5e308 and -1e308. *)
Definition tabela_estouro : B64.DataFrame :=
  [ ("Temp", B64.Num (B64.F64Col [B64.of_Z (15 * 10 ^ 307);
                                  B64.of_Z (- 10 ^ 308)]));
    ("UmidadeAr", B64.Num (B64.I64Col [50; 70]%Z));
    ("USolo", B64.Num (B64.I64Col [30; 50]%Z)) ].


(** ** Vocabulary for further properties *)

(** The first column of a list that a table lacks. *)
Definition primeira_ausente {V : Type} (cols : list string)
           (df : list (string * V)) : option string :=
  find (fun c => negb (has_column c df)) cols.

(** [fs] is an initial part of [ps]. *)
Definition prefixo {A : Type} (fs ps : list A) : Prop :=
  exists rest, ps = (fs ++ rest)%list.

(** [grava ps m]: when [m] returns it has written exactly the files [ps],
    in order; when it raises it has written an initial part of them. *)
Definition grava (ps : list string) {A : Type} (m : M A) : Prop :=
  forall w,
    match m w with
    | (inr _, w') => files w' = (files w ++ ps)%list
    | (inl _, w') =>
        exists fs, prefixo fs ps /\ files w' = (files w ++ fs)%list
    end.

(** [tenta ps m], for a guarded renderer: either it printed nothing and
    wrote all of [ps], or it printed one line and wrote an initial part of
    [ps]. *)
Definition tenta (ps : list string) (m : M unit) : Prop :=
  forall w,
    let w' := snd (m w) in
    (stdout w' = stdout w /\ files w' = (files w ++ ps)%list)
    \/ (exists line fs,
          stdout w' = (stdout w ++ [line])%list
          /\ prefixo fs ps /\ files w' = (files w ++ fs)%list).

(** The image files of each renderer, in the order they are saved. *)
Definition imagens_temporais : list string :=
  [ "graficos/temporal_umidadear.png"; "graficos/temporal_temp.png";
    "graficos/temporal_usolo.png"; "graficos/temporal_combinado.png" ].

Definition imagem_boxplot : list string := ["graficos/boxplot_variaveis.png"].
Definition imagem_correlacao : list string :=
  ["graficos/matriz_correlacao.png"].
Definition imagem_outliers : list string := ["graficos/outliers_umidade.png"].
Definition imagem_pca : list string := ["graficos/pca_ambiental.png"].

Definition imagens : list string :=
  (imagens_temporais ++ imagem_boxplot ++ imagem_correlacao
   ++ imagem_outliers ++ imagem_pca)%list.

(** The text column the load lines hand to the timestamp parser:
    [df['Data'] + ' ' + df['Hora']]. *)
Definition texto_data_hora (df : DataFrame) : exception + column :=
  (data <-- getitem df "Data" ;
   data_ <-- series_add_str data " " ;
   hora <-- getitem df "Hora" ;
   series_add data_ hora)%err.

(** The calls of the standalone plot, for the timestamps and the three
    series it draws. *)
Definition chamadas_plotagem (x temp umidade solo : column) : list call :=
  [ Call "plt.figure" [AKw "figsize" (ALit "(12, 6)")];
    Call "plt.plot" [ACol x; ACol temp;
                     AKw "label" (AStr "Temperatura (°C)");
                     AKw "color" (AStr "red"); AKw "marker" (AStr "o")];
    Call "plt.plot" [ACol x; ACol umidade;
                     AKw "label" (AStr "Umidade do Ar (%)");
                     AKw "color" (AStr "blue"); AKw "marker" (AStr "s")];
    Call "plt.plot" [ACol x; ACol solo;
                     AKw "label" (AStr "Umidade do Solo (%)");
                     AKw "color" (AStr "green"); AKw "marker" (AStr "^")];
    Call "plt.title" [AStr "Evolução das Variáveis ao Longo do Tempo"];
    Call "plt.xlabel" [AStr "Data e Hora"];
    Call "plt.ylabel" [AStr "Valor"];
    Call "plt.xticks" [AKw "rotation" (ALit "45")];
    Call "plt.grid" [ALit "True"];
    Call "plt.legend" [];
    Call "plt.tight_layout" [];
    Call "plt.show" [] ].

(** A table for the statistics script: it has the three variables, and
    none of their coerced columns is boolean. *)
Definition tres_numericas (pd : B64.pandas) (df : B64.DataFrame) : Prop :=
  forall v, In v variaveis ->
    exists c, assoc v df = Some c
              /\ B64.is_bool_column (B64.to_numeric pd c) = false.

(** The scenario with its columns in another order and a column of pump
    states. *)
Definition tabela_reordenada : B64.DataFrame :=
  [ ("USolo", B64.Num (B64.I64Col [30; 50]%Z));
    ("Bomba", B64.Obj [OStr "SIM"; OStr "NAO"]);
    ("Temp", B64.Num (B64.I64Col [20; 30]%Z));
    ("UmidadeAr", B64.Num (B64.I64Col [50; 70]%Z)) ].

(** What stops the loop of the statistics script at a variable: its column
    is absent from the table, or its coerced column is boolean. *)
Definition erro_da_variavel (pd : B64.pandas) (df : B64.DataFrame)
           (var : string) : option exception :=
  match assoc var df with
  | None => Some (KeyError var)
  | Some c =>
      if B64.is_bool_column (B64.to_numeric pd c)
      then Some (TypeError B64.boolean_subtract)
      else None
  end.

(** The first variable of a list at which the loop stops. *)
Definition primeira_com_erro (pd : B64.pandas) (df : B64.DataFrame)
           (vars : list string) : option string :=
  find (fun v => match erro_da_variavel pd df v with
                 | Some _ => true
                 | None => false
                 end) vars.

(** A printed line mentions a word. *)
Definition menciona (palavra linha : string) : bool :=
  match String.index 0 palavra linha with
  | Some _ => true
  | None => false
  end.

(** [vale x c]: [x] is finite and its value is [c]. *)
Definition vale (x : num) (c : Q) : Prop := exists q, x = Fin q /\ q == c.

(** The scenario table once loaded, with its parsed timestamps. *)
Definition dados_preparados : DataFrame :=
  setitem dados_exemplo "Data_Hora" (TimeCol [Some 0%Z; Some 1%Z]).

(** The scenario table without temperature and soil moisture. *)
Definition dados_so_umidade : DataFrame :=
  [ ("Data", ObjCol [OStr "01/01/2025"; OStr "01/01/2025"]);
    ("Hora", ObjCol [OStr "00:00"; OStr "01:00"]);
    ("UmidadeAr", NumCol [of_Z 50; of_Z 70]) ].

(** Libraries in which no plotting style can be set. *)
Definition lib_sem_estilo (_ : list call) (c : call) : option exception :=
  if String.eqb (fn c) "plt.style.use"
  then Some (OtherError "OSError" "style not found")
  else None.

(** The world after the configuration lines, run from the empty world with
    working libraries. *)
Definition mundo_configurado : World :=
  mkWorld [] []
          [ Call "plt.style.use" [AStr "seaborn-v0_8"];
            Call "sns.set_theme" [AKw "style" (AStr "whitegrid")];
            Call "plt.rcParams.__setitem__" [AStr "font.size"; ALit "12"] ].

(** [retorna m]: [m] returns normally from every world. *)
Definition retorna {A : Type} (m : M A) : Prop :=
  forall w, exists a w', m w = (inr a, w').

(** Between two worlds: nothing was printed and no file was written. *)
Definition sem_saida_visivel (w w' : World) : Prop :=
  stdout w' = stdout w /\ files w' = files w.

(** A table with a single reading. *)
Definition dados_uma_linha : DataFrame :=
  [ ("Temp", NumCol [of_Z 20]);
    ("UmidadeAr", NumCol [NaN]);
    ("USolo", NumCol [of_Z 30]) ].

(** * Properties *)

(** ** Generic facts *)

Lemma mapE_total {A B : Type} (f : A -> exception + B) (g : A -> B) l :
  (forall a, In a l -> f a = inr (g a)) -> mapE f l = inr (map g l).
Proof.
  induction l as [|a l IH]; intros Hf; simpl.
  - reflexivity.
  - rewrite (Hf a (or_introl eq_refl)). simpl.
    rewrite IH by (intros b Hb; apply Hf; right; exact Hb).
    reflexivity.
Qed.

Lemma assoc_map_snd {V W : Type} (g : V -> W) k (l : list (string * V)) :
  assoc k (map (fun kv => (fst kv, g (snd kv))) l) = option_map g (assoc k l).
Proof.
  induction l as [|[k' v] l IH]; simpl.
  - reflexivity.
  - destruct (String.eqb k k'); [reflexivity | exact IH].
Qed.

Lemma has_column_assoc {V : Type} c (df : list (string * V)) :
  has_column c df = true <-> exists v, assoc c df = Some v.
Proof.
  unfold has_column, columns.
  induction df as [|[k v] df IH]; simpl.
  - split; [discriminate | intros [v Hv]; discriminate].
  - destruct (String.eqb c k); simpl.
    + split; [intros _; exists v; reflexivity | reflexivity].
    + exact IH.
Qed.

(** ** Numeric coercion *)

Section CoercionFacts.

Variable str_to_num : string -> option num.

Lemma convert_cell_coerce c :
  convert_cell str_to_num ErrorsCoerce c = inr (coerced_cell str_to_num c).
Proof.
  destruct c as [s|]; simpl; [destruct (str_to_num s) |]; reflexivity.
Qed.

Lemma to_numeric_coerce c :
  to_numeric str_to_num ErrorsCoerce c
  = inr (NumCol (coerced_values str_to_num c)).
Proof.
  destruct c as [l|l|l]; simpl; try reflexivity.
  rewrite (mapE_total _ (coerced_cell str_to_num)).
  - reflexivity.
  - intros a _. apply convert_cell_coerce.
Qed.

Lemma df_apply_coerce df :
  df_apply (to_numeric str_to_num ErrorsCoerce) df
  = inr (map (fun kv => (fst kv, NumCol (coerced_values str_to_num (snd kv))))
             df).
Proof.
  unfold df_apply. apply mapE_total.
  intros [k v] _. simpl. rewrite to_numeric_coerce. reflexivity.
Qed.

Lemma getitem_coerced df var s :
  cleaned str_to_num df var = Some s ->
  getitem (map (fun kv => (fst kv, NumCol (coerced_values str_to_num (snd kv))))
               df) var
  = inr (NumCol s).
Proof.
  unfold cleaned, getitem.
  rewrite (assoc_map_snd (fun c => NumCol (coerced_values str_to_num c))).
  destruct (assoc var df); simpl; [|discriminate].
  intros H. injection H as <-. reflexivity.
Qed.

Lemma cleaned_present df var :
  has_column var df = true -> exists s, cleaned str_to_num df var = Some s.
Proof.
  intros H. apply has_column_assoc in H. destruct H as [v Hv].
  unfold cleaned. rewrite Hv. eexists. reflexivity.
Qed.

End CoercionFacts.

(** ** The statistics script *)

Section EstatisticaFacts.

Variable str_to_num : string -> option num.
Variable sqrtQ : Q -> Q.

(** When the three columns are present the script ends normally, and its
    table comes from the three cleaned series. *)
Lemma estatistica_runs df s_temp s_ar s_solo :
  cleaned str_to_num df "Temp" = Some s_temp ->
  cleaned str_to_num df "UmidadeAr" = Some s_ar ->
  cleaned str_to_num df "USolo" = Some s_solo ->
  estatistica str_to_num sqrtQ df
  = inr (resultado [ ("Temp", estatisticas_var sqrtQ s_temp);
                     ("UmidadeAr", estatisticas_var sqrtQ s_ar);
                     ("USolo", estatisticas_var sqrtQ s_solo) ]).
Proof.
  intros H1 H2 H3. unfold estatistica.
  rewrite df_apply_coerce. cbn [bindE for_var variaveis].
  rewrite (getitem_coerced _ _ _ _ H1). cbn [bindE numeric_series].
  rewrite (getitem_coerced _ _ _ _ H2). cbn [bindE numeric_series].
  rewrite (getitem_coerced _ _ _ _ H3). cbn [bindE numeric_series].
  reflexivity.
Qed.

Lemma loc_resultado r1 r2 r3 var stat :
  (exists a b c d e, r1 = linha a b c d e) ->
  (exists a b c d e, r2 = linha a b c d e) ->
  (exists a b c d e, r3 = linha a b c d e) ->
  In var variaveis -> In stat colunas_resultado ->
  let est := [("Temp", r1); ("UmidadeAr", r2); ("USolo", r3)] in
  loc (resultado est) var stat
  = Some (round_decimals 2
            (celula (match assoc var est with
                     | Some r => assoc stat r
                     | None => None
                     end))).
Proof.
  intros (a1 & b1 & c1 & d1 & e1 & ->) (a2 & b2 & c2 & d2 & e2 & ->)
         (a3 & b3 & c3 & d3 & e3 & ->) Hv Hs.
  simpl in Hv, Hs.
  destruct Hv as [<-|[<-|[<-|[]]]];
    destruct Hs as [<-|[<-|[<-|[<-|[<-|[]]]]]]; reflexivity.
Qed.

Lemma estatisticas_var_linha s :
  exists a b c d e, estatisticas_var sqrtQ s = linha a b c d e.
Proof. unfold estatisticas_var, linha. do 5 eexists. reflexivity. Qed.

(** On a table that has the three columns the script ends normally, and
    every cell of the reported table, for a variable of the list, is the
    rounded dict entry. *)
Lemma loc_estatistica df var s :
  (forall v, In v variaveis -> has_column v df = true) ->
  In var variaveis ->
  cleaned str_to_num df var = Some s ->
  exists out,
    estatistica str_to_num sqrtQ df = inr out
    /\ forall stat, In stat colunas_resultado ->
         loc out var stat
         = Some (round_decimals 2
                   (celula (assoc stat (estatisticas_var sqrtQ s)))).
Proof.
  intros Hcols Hvar Hs.
  destruct (cleaned_present str_to_num df "Temp") as [s1 H1];
    [apply Hcols; simpl; tauto|].
  destruct (cleaned_present str_to_num df "UmidadeAr") as [s2 H2];
    [apply Hcols; simpl; tauto|].
  destruct (cleaned_present str_to_num df "USolo") as [s3 H3];
    [apply Hcols; simpl; tauto|].
  eexists. split; [apply (estatistica_runs df s1 s2 s3 H1 H2 H3)|].
  intros stat Hstat.
  rewrite loc_resultado by (auto using estatisticas_var_linha).
  simpl in Hvar.
  destruct Hvar as [<-|[<-|[<-|[]]]]; cbn [assoc String.eqb Ascii.eqb Bool.eqb];
    congruence.
Qed.

Lemma estatistica_exemplo :
  estatistica str_to_num sqrtQ dados_exemplo
  = inr (resultado
           [ ("Temp", estatisticas_var sqrtQ [of_Z 20; of_Z 30]);
             ("UmidadeAr", estatisticas_var sqrtQ [of_Z 50; of_Z 70]);
             ("USolo", estatisticas_var sqrtQ [of_Z 30; of_Z 50]) ]).
Proof. apply estatistica_runs; reflexivity. Qed.

(** C7, as amended.  For the two-row scenario the loop computes for Temp
    mean 25, minimum 20, maximum 30 and range 10, and the reported table
    holds for Temp range-percent 40, median 25 and median-percent 100; its
    columns are the five of the dict, so mean, minimum, maximum and range
    are not reported. *)
Theorem cenario_temp :
  let s := [of_Z 20; of_Z 30] in
  cleaned str_to_num dados_exemplo "Temp" = Some s
  /\ series_mean s = Fin 25
  /\ series_min s = Fin 20
  /\ series_max s = Fin 30
  /\ nsub (series_max s) (series_min s) = Fin 10
  /\ exists out,
       estatistica str_to_num sqrtQ dados_exemplo = inr out
       /\ reports out "Temp" RangePct = Some (Fin 40)
       /\ reports out "Temp" Median = Some (Fin 25)
       /\ reports out "Temp" MedianPct = Some (Fin 100)
       /\ columns out = colunas_resultado
       /\ reports out "Temp" Mean = None
       /\ reports out "Temp" Min = None
       /\ reports out "Temp" Max = None
       /\ reports out "Temp" Range = None.
Proof.
  repeat split; try reflexivity.
  eexists. split; [apply estatistica_exemplo|].
  repeat split; reflexivity.
Qed.

End EstatisticaFacts.

(** C7, as stated, fails.  The table reported for the scenario has the five
    columns of the dict; no cell of its Temp row is 20, 30 or 10 (the
    minimum, the maximum and the range), and no column carries the mean. *)
Lemma cenario_temp_sem_media :
  exists out,
    estatistica parse_decimal sqrt_decimal dados_exemplo = inr out
    /\ columns out = colunas_resultado
    /\ (forall c x, loc out "Temp" c = Some x ->
                    x <> Fin 20 /\ x <> Fin 30 /\ x <> Fin 10)
    /\ reports out "Temp" Mean = None
    /\ ~ (reports out "Temp" Mean = Some (Fin 25)
          /\ reports out "Temp" Min = Some (Fin 20)
          /\ reports out "Temp" Max = Some (Fin 30)
          /\ reports out "Temp" Range = Some (Fin 10)
          /\ reports out "Temp" RangePct = Some (Fin 40)
          /\ reports out "Temp" Median = Some (Fin 25)
          /\ reports out "Temp" MedianPct = Some (Fin 100)).
Proof.
  eexists. split; [vm_compute; reflexivity|].
  split; [reflexivity|]. split; [|split; [reflexivity|]].
  - intros c x. unfold loc. cbn [assoc].
    repeat (destruct (String.eqb c _);
            [cbn; intros [= <-]; repeat split; discriminate|]).
    discriminate.
  - intros (Hmean & _). discriminate Hmean.
Qed.

(** ** The statistics script over typed columns *)

Section EstatisticaTipada.

Variable pd : B64.pandas.

Lemma getitem_df_apply df var :
  getitem (B64.df_apply pd df) var
  = match assoc var df with
    | Some c => inr (B64.to_numeric pd c)
    | None => inl (KeyError var)
    end.
Proof.
  unfold getitem, B64.df_apply.
  rewrite (assoc_map_snd (B64.to_numeric pd)).
  destruct (assoc var df); reflexivity.
Qed.

(** Line 29 on a column that is not boolean: the subtraction returns. *)
Lemma intervalo_definido s :
  B64.is_bool_column s = false ->
  exists i,
    B64.scalar_sub (B64.series_max pd s) (B64.series_min pd s) = inr i.
Proof.
  destruct s as [l|[|x r]|[|x r]|[|x r]]; simpl; intros H;
    try discriminate; eexists; reflexivity.
Qed.

(** Line 29 on a boolean column: the subtraction raises. *)
Lemma intervalo_booleano s :
  B64.is_bool_column s = true ->
  B64.scalar_sub (B64.series_max pd s) (B64.series_min pd s)
  = inl (TypeError B64.boolean_subtract).
Proof.
  destruct s as [l|[|x r]|[|x r]|[|x r]]; simpl; intros H;
    try discriminate; reflexivity.
Qed.

(** The dict of a variable, once the range is computed. *)
Lemma estatisticas_var_inr s i :
  B64.scalar_sub (B64.series_max pd s) (B64.series_min pd s) = inr i ->
  let media := B64.nanmean pd s in
  let pct x :=
    if B64.truthy media
    then Some (B64.fmul (B64.fdiv x media) B64.f100) else None in
  B64.estatisticas_var pd s
  = inr (B64.linha (pct (B64.to_float i)) (pct (B64.nanstd pd s))
                   (pct (B64.nanvar pd s)) (Some (B64.nanmedian pd s))
                   (pct (B64.nanmedian pd s))).
Proof. intros H. unfold B64.estatisticas_var. rewrite H. reflexivity. Qed.

Lemma estatisticas_var_booleana s :
  B64.is_bool_column s = true ->
  B64.estatisticas_var pd s = inl (TypeError B64.boolean_subtract).
Proof.
  intros H. unfold B64.estatisticas_var.
  rewrite (intervalo_booleano s H). reflexivity.
Qed.

Lemma estatisticas_var_linha64 s :
  B64.is_bool_column s = false ->
  exists a b c d e, B64.estatisticas_var pd s = inr (B64.linha a b c d e).
Proof.
  intros H. destruct (intervalo_definido s H) as [i Hi].
  rewrite (estatisticas_var_inr s i Hi). do 5 eexists. reflexivity.
Qed.

Lemma loc_resultado64 r1 r2 r3 var stat :
  (exists a b c d e, r1 = B64.linha a b c d e) ->
  (exists a b c d e, r2 = B64.linha a b c d e) ->
  (exists a b c d e, r3 = B64.linha a b c d e) ->
  In var variaveis -> In stat colunas_resultado ->
  let est := [("Temp", r1); ("UmidadeAr", r2); ("USolo", r3)] in
  B64.loc (B64.resultado est) var stat
  = Some (B64.around 2
            (B64.celula (match assoc var est with
                         | Some r => assoc stat r
                         | None => None
                         end))).
Proof.
  intros (a1 & b1 & c1 & d1 & e1 & ->) (a2 & b2 & c2 & d2 & e2 & ->)
         (a3 & b3 & c3 & d3 & e3 & ->) Hv Hs.
  simpl in Hv, Hs.
  destruct Hv as [<-|[<-|[<-|[]]]];
    destruct Hs as [<-|[<-|[<-|[<-|[<-|[]]]]]]; reflexivity.
Qed.

(** On a table that has the three variables, none of them boolean, the
    script ends normally, and every cell of the reported table, for a
    variable of the list, is the rounded dict entry. *)
Lemma loc_estatistica64 df var col :
  tres_numericas pd df ->
  In var variaveis ->
  assoc var df = Some col ->
  exists out d,
    B64.estatistica pd df = inr out
    /\ B64.estatisticas_var pd (B64.to_numeric pd col) = inr d
    /\ forall stat, In stat colunas_resultado ->
         B64.loc out var stat
         = Some (B64.around 2 (B64.celula (assoc stat d))).
Proof.
  intros Hcols Hvar Hcol.
  destruct (Hcols "Temp") as (c1 & A1 & B1); [simpl; tauto|].
  destruct (Hcols "UmidadeAr") as (c2 & A2 & B2); [simpl; tauto|].
  destruct (Hcols "USolo") as (c3 & A3 & B3); [simpl; tauto|].
  destruct (estatisticas_var_linha64 _ B1) as (a1 & b1 & x1 & d1 & e1 & E1).
  destruct (estatisticas_var_linha64 _ B2) as (a2 & b2 & x2 & d2 & e2 & E2).
  destruct (estatisticas_var_linha64 _ B3) as (a3 & b3 & x3 & d3 & e3 & E3).
  assert (Hrun : B64.estatistica pd df
                 = inr (B64.resultado
                          [("Temp", B64.linha a1 b1 x1 d1 e1);
                           ("UmidadeAr", B64.linha a2 b2 x2 d2 e2);
                           ("USolo", B64.linha a3 b3 x3 d3 e3)])).
  { unfold B64.estatistica. cbn [B64.for_var variaveis].
    rewrite !getitem_df_apply, A1, A2, A3. cbn [bindE].
    rewrite E1. cbn [bindE]. rewrite E2. cbn [bindE]. rewrite E3.
    reflexivity. }
  simpl in Hvar.
  destruct Hvar as [<-|[<-|[<-|[]]]].
  - exists (B64.resultado
            [("Temp", B64.linha a1 b1 x1 d1 e1);
             ("UmidadeAr", B64.linha a2 b2 x2 d2 e2);
             ("USolo", B64.linha a3 b3 x3 d3 e3)]), (B64.linha a1 b1 x1 d1 e1).
    assert (col = c1) by congruence. subst col.
    split; [exact Hrun|]. split; [exact E1|].
    intros stat Hstat. rewrite loc_resultado64; try (simpl; tauto);
      try (do 5 eexists; reflexivity).
  - exists (B64.resultado
            [("Temp", B64.linha a1 b1 x1 d1 e1);
             ("UmidadeAr", B64.linha a2 b2 x2 d2 e2);
             ("USolo", B64.linha a3 b3 x3 d3 e3)]), (B64.linha a2 b2 x2 d2 e2).
    assert (col = c2) by congruence. subst col.
    split; [exact Hrun|]. split; [exact E2|].
    intros stat Hstat. rewrite loc_resultado64; try (simpl; tauto);
      try (do 5 eexists; reflexivity).
  - exists (B64.resultado
            [("Temp", B64.linha a1 b1 x1 d1 e1);
             ("UmidadeAr", B64.linha a2 b2 x2 d2 e2);
             ("USolo", B64.linha a3 b3 x3 d3 e3)]), (B64.linha a3 b3 x3 d3 e3).
    assert (col = c3) by congruence. subst col.
    split; [exact Hrun|]. split; [exact E3|].
    intros stat Hstat. rewrite loc_resultado64; try (simpl; tauto);
      try (do 5 eexists; reflexivity).
Qed.

End EstatisticaTipada.

Section EstatisticaTipadaRelatorio.

Variable pd : B64.pandas.

Lemma fdiv_nan_r x : B64.fdiv x B64.nan = B64.nan.
Proof. destruct x; reflexivity. Qed.

Lemma pct_nan x : B64.around 2 (B64.fmul (B64.fdiv x B64.nan) B64.f100) = B64.nan.
Proof. rewrite fdiv_nan_r. reflexivity. Qed.

Lemma truthy_is_zero x : B64.truthy x = negb (B64.is_zero x).
Proof. reflexivity. Qed.

Lemma is_nan_eq x : B64.is_nan x = true -> x = B64.nan.
Proof. destruct x; try discriminate. reflexivity. Qed.

(** C1, as amended.  On a table that has the three variables, none of
    them with a boolean column after coercion, for a variable of the list
    whose mean (the library's mean of the coerced column, which skips
    missing values) is defined and not zero, the run returns its table and
    the table holds, each rounded to two decimals the way the numeric
    library rounds binary64: the range (maximum minus minimum, in the
    dtype of the column), the standard deviation, the variance and the
    median, each divided by the mean and multiplied by 100.  Every
    aggregate is the library's reduction with its default arguments. *)
Theorem percentuais_media_nao_nula df var col :
  tres_numericas pd df ->
  In var variaveis ->
  assoc var df = Some col ->
  let s := B64.to_numeric pd col in
  let media := B64.nanmean pd s in
  B64.is_nan media = false ->
  B64.is_zero media = false ->
  let pct x := B64.around 2 (B64.fmul (B64.fdiv x media) B64.f100) in
  exists out intervalo,
    B64.estatistica pd df = inr out
    /\ B64.scalar_sub (B64.series_max pd s) (B64.series_min pd s)
       = inr intervalo
    /\ B64.loc out var "Intervalo (%)" = Some (pct (B64.to_float intervalo))
    /\ B64.loc out var "Desvio Padrão (%)" = Some (pct (B64.nanstd pd s))
    /\ B64.loc out var "Variância (%)" = Some (pct (B64.nanvar pd s))
    /\ B64.loc out var "Mediana (%)" = Some (pct (B64.nanmedian pd s)).
Proof.
  intros Hcols Hvar Hcol s media _ Hz pct.
  destruct (loc_estatistica64 pd df var col Hcols Hvar Hcol)
    as (out & d & Hrun & Hd & Hcell).
  destruct (Hcols var Hvar) as (c & Hc & Hb).
  assert (c = col) by congruence. subst c.
  destruct (intervalo_definido pd _ Hb) as [i Hi].
  fold s in Hi, Hd.
  rewrite (estatisticas_var_inr pd s i Hi) in Hd. injection Hd as <-.
  assert (Ht : B64.truthy (B64.nanmean pd s) = true)
    by (rewrite truthy_is_zero; fold media; rewrite Hz; reflexivity).
  exists out, i. split; [exact Hrun|]. split; [exact Hi|].
  repeat split; rewrite Hcell by (simpl; tauto);
    cbn [assoc B64.linha String.eqb Ascii.eqb Bool.eqb B64.celula];
    rewrite Ht; reflexivity.
Qed.

(** C2, as amended.  On a table that has the three variables, none of
    them with a boolean column after coercion, for a variable of the list
    whose mean is zero (of either sign) or not-a-number, the run returns
    its table and the four percentage cells of the variable are all the
    missing value: no exception, and no infinity. *)
Theorem percentuais_media_nula df var col :
  tres_numericas pd df ->
  In var variaveis ->
  assoc var df = Some col ->
  let media := B64.nanmean pd (B64.to_numeric pd col) in
  B64.is_nan media = true \/ B64.is_zero media = true ->
  exists out,
    B64.estatistica pd df = inr out
    /\ B64.loc out var "Intervalo (%)" = Some B64.nan
    /\ B64.loc out var "Desvio Padrão (%)" = Some B64.nan
    /\ B64.loc out var "Variância (%)" = Some B64.nan
    /\ B64.loc out var "Mediana (%)" = Some B64.nan.
Proof.
  intros Hcols Hvar Hcol media Hmedia.
  destruct (loc_estatistica64 pd df var col Hcols Hvar Hcol)
    as (out & d & Hrun & Hd & Hcell).
  destruct (Hcols var Hvar) as (c & Hc & Hb).
  assert (c = col) by congruence. subst c.
  destruct (intervalo_definido pd _ Hb) as [i Hi].
  rewrite (estatisticas_var_inr pd _ i Hi) in Hd. injection Hd as <-.
  exists out. split; [exact Hrun|].
  fold media. destruct Hmedia as [Hnan|Hzero].
  - apply is_nan_eq in Hnan. 
    repeat split; rewrite Hcell by (simpl; tauto);
      cbn [assoc B64.linha String.eqb Ascii.eqb Bool.eqb B64.celula];
      fold media; rewrite Hnan; cbn [B64.truthy B64.is_zero B64.nan negb B64.celula];
      rewrite pct_nan; reflexivity.
  - assert (Ht : B64.truthy media = false)
      by (rewrite truthy_is_zero, Hzero; reflexivity).
    repeat split; rewrite Hcell by (simpl; tauto);
      cbn [assoc B64.linha String.eqb Ascii.eqb Bool.eqb B64.celula];
      fold media; rewrite Ht; reflexivity.
Qed.

(** C9, as amended.  On a table that has the three variables, none of
    them with a boolean column after coercion, for every variable of the
    list the reported table holds under 'Mediana (valor)' the library's
    median of the coerced column, rounded to two decimals, whatever the
    mean is; when the mean is zero the four percentage cells beside it
    are missing. *)
Theorem mediana_valor_incondicional df var col :
  tres_numericas pd df ->
  In var variaveis ->
  assoc var df = Some col ->
  let s := B64.to_numeric pd col in
  exists out,
    B64.estatistica pd df = inr out
    /\ B64.loc out var "Mediana (valor)"
       = Some (B64.around 2 (B64.nanmedian pd s))
    /\ (B64.truthy (B64.nanmean pd s) = false ->
        B64.loc out var "Intervalo (%)" = Some B64.nan
        /\ B64.loc out var "Desvio Padrão (%)" = Some B64.nan
        /\ B64.loc out var "Variância (%)" = Some B64.nan
        /\ B64.loc out var "Mediana (%)" = Some B64.nan).
Proof.
  intros Hcols Hvar Hcol s.
  destruct (loc_estatistica64 pd df var col Hcols Hvar Hcol)
    as (out & d & Hrun & Hd & Hcell).
  destruct (Hcols var Hvar) as (c & Hc & Hb).
  assert (c = col) by congruence. subst c.
  destruct (intervalo_definido pd _ Hb) as [i Hi].
  fold s in Hi, Hd.
  rewrite (estatisticas_var_inr pd s i Hi) in Hd. injection Hd as <-.
  exists out. split; [exact Hrun|]. split.
  - rewrite Hcell by (simpl; tauto). reflexivity.
  - intros Ht.
    repeat split; rewrite Hcell by (simpl; tauto);
      cbn [assoc B64.linha String.eqb Ascii.eqb Bool.eqb B64.celula];
      rewrite Ht; reflexivity.
Qed.

End EstatisticaTipadaRelatorio.

(** C1, as stated, fails.  A temperature column of [True] and [False] has
    the mean 0.5, defined and not zero, and the run ends at line 29 with
    the TypeError of the boolean subtraction; a table without the
    soil-moisture column has a temperature of mean 25, and the run ends
    with the KeyError of 'USolo'.  In both runs no table is reported, so
    no percentage of the temperature is. *)
Lemma percentuais_sem_tabela :
  (let media := B64.nanmean pandas_exemplo (B64.BoolCol [true; false]) in
   assoc "Temp" tabela_booleana = Some (B64.Num (B64.BoolCol [true; false]))
   /\ media = decimal 1 2
   /\ B64.is_nan media = false /\ B64.is_zero media = false
   /\ B64.estatistica pandas_exemplo tabela_booleana
      = inl (TypeError B64.boolean_subtract))
  /\ (let media := B64.nanmean pandas_exemplo (B64.I64Col [20; 30]%Z) in
      assoc "Temp" tabela_sem_usolo = Some (B64.Num (B64.I64Col [20; 30]%Z))
      /\ media = B64.of_Z 25
      /\ B64.is_nan media = false /\ B64.is_zero media = false
      /\ B64.estatistica pandas_exemplo tabela_sem_usolo
         = inl (KeyError "USolo"))
  /\ ~ (exists out x,
          B64.estatistica pandas_exemplo tabela_booleana = inr out
          /\ B64.loc out "Temp" "Mediana (%)" = Some x)
  /\ ~ (exists out x,
          B64.estatistica pandas_exemplo tabela_sem_usolo = inr out
          /\ B64.loc out "Temp" "Mediana (%)" = Some x).
Proof.
  split; [|split; [|split]].
  - vm_compute. repeat split; reflexivity.
  - vm_compute. repeat split; reflexivity.
  - intros (out & x & Hrun & _). vm_compute in Hrun. discriminate Hrun.
  - intros (out & x & Hrun & _). vm_compute in Hrun. discriminate Hrun.
Qed.

(** C2, as stated, fails.  A temperature column of two [False] has mean
    zero, and so has the temperature [-3, 1, 2] of a table without the
    soil-moisture column; the first run ends with the TypeError of the
    boolean subtraction, the second with the KeyError of 'USolo', and
    neither reports a missing percentage, or anything.  And the script
    does produce an infinity: for the readings 1.5e308 and -1e308, of
    mean 2.5e307, the range overflows and the range-percent reported is
    infinite. *)
Lemma media_nula_sem_tabela :
  (let media := B64.nanmean pandas_exemplo (B64.BoolCol [false; false]) in
   assoc "Temp" tabela_falsa = Some (B64.Num (B64.BoolCol [false; false]))
   /\ B64.is_zero media = true
   /\ B64.estatistica pandas_exemplo tabela_falsa
      = inl (TypeError B64.boolean_subtract))
  /\ (let media := B64.nanmean pandas_exemplo (B64.I64Col [-3; 1; 2]%Z) in
      assoc "Temp" tabela_zero_sem_usolo
      = Some (B64.Num (B64.I64Col [-3; 1; 2]%Z))
      /\ B64.is_zero media = true
      /\ B64.estatistica pandas_exemplo tabela_zero_sem_usolo
         = inl (KeyError "USolo"))
  /\ ~ (exists out,
          B64.estatistica pandas_exemplo tabela_falsa = inr out
          /\ B64.loc out "Temp" "Mediana (%)" = Some B64.nan)
  /\ ~ (exists out,
          B64.estatistica pandas_exemplo tabela_zero_sem_usolo = inr out
          /\ B64.loc out "Temp" "Mediana (%)" = Some B64.nan)
  /\ (let temp := B64.F64Col [B64.of_Z (15 * 10 ^ 307);
                              B64.of_Z (- 10 ^ 308)] in
      B64.nanmean pandas_exemplo temp = B64.of_Z (25 * 10 ^ 306)
      /\ B64.scalar_sub (B64.series_max pandas_exemplo temp)
                        (B64.series_min pandas_exemplo temp)
         = inr (B64.Float64 (S754_infinity false))
      /\ exists out,
           B64.estatistica pandas_exemplo tabela_estouro = inr out
           /\ B64.loc out "Temp" "Intervalo (%)"
              = Some (S754_infinity false)).
Proof.
  split; [|split; [|split; [|split]]].
  - vm_compute. repeat split; reflexivity.
  - vm_compute. repeat split; reflexivity.
  - intros (out & Hrun & _). vm_compute in Hrun. discriminate Hrun.
  - intros (out & Hrun & _). vm_compute in Hrun. discriminate Hrun.
  - cbv zeta. split; [vm_compute; reflexivity|].
    split; [vm_compute; reflexivity|].
    eexists. split; vm_compute; reflexivity.
Qed.

(** C9, as stated, fails.  Temp is a variable of the list; on the table
    without the soil-moisture column and on the table with a boolean
    temperature the run ends with an exception and no 'Mediana (valor)'
    is reported for it. *)
Lemma mediana_sem_tabela :
  In "Temp" variaveis
  /\ B64.estatistica pandas_exemplo tabela_sem_usolo = inl (KeyError "USolo")
  /\ B64.estatistica pandas_exemplo tabela_booleana
     = inl (TypeError B64.boolean_subtract)
  /\ ~ (exists out,
          B64.estatistica pandas_exemplo tabela_sem_usolo = inr out
          /\ B64.loc out "Temp" "Mediana (valor)"
             = Some (B64.around 2
                       (B64.nanmedian pandas_exemplo
                          (B64.I64Col [20; 30]%Z))))
  /\ ~ (exists out,
          B64.estatistica pandas_exemplo tabela_booleana = inr out
          /\ B64.loc out "Temp" "Mediana (valor)"
             = Some (B64.around 2
                       (B64.nanmedian pandas_exemplo
                          (B64.BoolCol [true; false])))).
Proof.
  split; [simpl; tauto|]. split; [vm_compute; reflexivity|].
  split; [vm_compute; reflexivity|]. split.
  - intros (out & Hrun & _). vm_compute in Hrun. discriminate Hrun.
  - intros (out & Hrun & _). vm_compute in Hrun. discriminate Hrun.
Qed.

Lemma tres_numericas_exemplo : tres_numericas pandas_exemplo tabela_exemplo.
Proof.
  intros v [<-|[<-|[<-|[]]]]; eexists; split; reflexivity.
Qed.

Lemma tres_numericas_media_zero :
  tres_numericas pandas_exemplo tabela_media_zero.
Proof.
  intros v [<-|[<-|[<-|[]]]]; eexists; split; reflexivity.
Qed.

Lemma percentuais_media_nao_nula_witness :
  exists out,
    B64.estatistica pandas_exemplo tabela_exemplo = inr out
    /\ B64.loc out "Temp" "Intervalo (%)" = Some (B64.of_Z 40)
    /\ B64.loc out "Temp" "Desvio Padrão (%)" = Some (decimal 2828 100)
    /\ B64.loc out "Temp" "Variância (%)" = Some (B64.of_Z 200)
    /\ B64.loc out "Temp" "Mediana (%)" = Some (B64.of_Z 100).
Proof.
  destruct (percentuais_media_nao_nula pandas_exemplo tabela_exemplo "Temp"
              (B64.Num (B64.I64Col [20; 30]%Z)))
    as (out & i & Hrun & Hi & H1 & H2 & H3 & H4).
  - exact tres_numericas_exemplo.
  - simpl; tauto.
  - reflexivity.
  - vm_compute; reflexivity.
  - vm_compute; reflexivity.
  - exists out. split; [exact Hrun|].
    vm_compute in Hi. injection Hi as <-.
    rewrite H1, H2, H3, H4. vm_compute. repeat split; reflexivity.
Defined.

Lemma percentuais_media_nula_witness :
  exists out,
    B64.estatistica pandas_exemplo tabela_media_zero = inr out
    /\ B64.loc out "Temp" "Intervalo (%)" = Some B64.nan
    /\ B64.loc out "Temp" "Desvio Padrão (%)" = Some B64.nan
    /\ B64.loc out "Temp" "Variância (%)" = Some B64.nan
    /\ B64.loc out "Temp" "Mediana (%)" = Some B64.nan.
Proof.
  apply (percentuais_media_nula pandas_exemplo tabela_media_zero "Temp"
           (B64.Num (B64.I64Col [-3; 1; 2]%Z))).
  - exact tres_numericas_media_zero.
  - simpl; tauto.
  - reflexivity.
  - right. vm_compute; reflexivity.
Defined.

Lemma mediana_valor_incondicional_witness :
  exists out,
    B64.estatistica pandas_exemplo tabela_media_zero = inr out
    /\ B64.loc out "Temp" "Mediana (valor)" = Some (B64.of_Z 1)
    /\ B64.loc out "Temp" "Mediana (%)" = Some B64.nan
    /\ B64.loc out "USolo" "Mediana (valor)" = Some (decimal 101 100).
Proof.
  destruct (mediana_valor_incondicional pandas_exemplo tabela_media_zero
              "Temp" (B64.Num (B64.I64Col [-3; 1; 2]%Z)))
    as (out & Hrun & Hmed & Hpct).
  - exact tres_numericas_media_zero.
  - simpl; tauto.
  - reflexivity.
  - exists out. split; [exact Hrun|]. split; [|split].
    + rewrite Hmed. vm_compute. reflexivity.
    + apply Hpct. vm_compute. reflexivity.
    + vm_compute in Hrun. injection Hrun as <-. vm_compute. reflexivity.
Defined.

(** ** Idempotence of the coercion *)

Section Idempotence.

Variable str_to_num : string -> option num.

Lemma to_numeric_coerce_twice c c' :
  to_numeric str_to_num ErrorsCoerce c = inr c' ->
  to_numeric str_to_num ErrorsCoerce c' = inr c'.
Proof.
  rewrite to_numeric_coerce. intros H. injection H as <-. reflexivity.
Qed.

Lemma df_apply_coerce_twice df df' :
  df_apply (to_numeric str_to_num ErrorsCoerce) df = inr df' ->
  df_apply (to_numeric str_to_num ErrorsCoerce) df' = inr df'.
Proof.
  rewrite df_apply_coerce. intros H. injection H as <-.
  rewrite df_apply_coerce, map_map. apply f_equal.
  apply map_ext. intros [k v]. reflexivity.
Qed.

Lemma coerced_cells_missing l :
  (forall s, In (OStr s) l -> str_to_num s = None) ->
  map (coerced_cell str_to_num) l = map (fun _ => NaN) l.
Proof.
  intros H. apply map_ext_in. intros [s|] Hin; simpl.
  - rewrite (H s Hin). reflexivity.
  - reflexivity.
Qed.

(** C8.  Coercion with [errors='coerce'] never raises, on a column or on a
    table; coercing its result again returns that result; a numeric column
    comes back cell for cell, missing values included; and an object
    column none of whose strings reads as a number comes back with the
    missing value in every cell. *)
Theorem coercao_idempotente :
  (forall c, exists l, to_numeric str_to_num ErrorsCoerce c = inr (NumCol l))
  /\ (forall c c',
        to_numeric str_to_num ErrorsCoerce c = inr c' ->
        to_numeric str_to_num ErrorsCoerce c' = inr c')
  /\ (forall df, exists df',
        df_apply (to_numeric str_to_num ErrorsCoerce) df = inr df'
        /\ df_apply (to_numeric str_to_num ErrorsCoerce) df' = inr df'
        /\ columns df' = columns df)
  /\ (forall l, to_numeric str_to_num ErrorsCoerce (NumCol l) = inr (NumCol l))
  /\ (forall l,
        (forall s, In (OStr s) l -> str_to_num s = None) ->
        to_numeric str_to_num ErrorsCoerce (ObjCol l)
        = inr (NumCol (map (fun _ => NaN) l))).
Proof.
  split; [|split; [|split; [|split]]].
  - intros c. eexists. apply to_numeric_coerce.
  - apply to_numeric_coerce_twice.
  - intros df. eexists. split; [apply df_apply_coerce|]. split.
    + apply (df_apply_coerce_twice df), df_apply_coerce.
    + unfold columns. rewrite map_map. reflexivity.
  - reflexivity.
  - intros l H. rewrite to_numeric_coerce. simpl.
    rewrite (coerced_cells_missing l H). reflexivity.
Qed.

End Idempotence.

Lemma coercao_idempotente_witness :
  to_numeric parse_decimal ErrorsCoerce (ObjCol [OStr "SIM"; OStr "NAO"])
  = inr (NumCol [NaN; NaN])
  /\ to_numeric parse_decimal ErrorsCoerce (NumCol [NaN; NaN])
     = inr (NumCol [NaN; NaN]).
Proof.
  destruct (coercao_idempotente parse_decimal) as (_ & Htwice & _ & _ & Hobj).
  assert (H : to_numeric parse_decimal ErrorsCoerce
                (ObjCol [OStr "SIM"; OStr "NAO"])
              = inr (NumCol [NaN; NaN])).
  { apply (Hobj [OStr "SIM"; OStr "NAO"]).
    intros s [[= <-]|[[= <-]|[]]]; vm_compute; reflexivity. }
  split; [exact H | exact (Htwice _ _ H)].
Defined.

(** ** The script monad *)

Lemma for_each_print l w :
  for_each l print w
  = (inr tt, mkWorld (stdout w ++ l)%list (files w) (trace w)).
Proof.
  revert w. induction l as [|x l IH]; intros [so fs tr]; simpl.
  - unfold ret. rewrite app_nil_r. reflexivity.
  - unfold bind, print at 1. simpl. rewrite IH. simpl.
    rewrite <- app_assoc. reflexivity.
Qed.

(** Relations between the world before and after that each step keeps. *)
Section Keeps.

Variable R : World -> World -> Prop.
Hypothesis R_refl : forall w, R w w.
Hypothesis R_trans : forall a b c, R a b -> R b c -> R a c.

Lemma keeps_ret {A : Type} (a : A) : keeps R (ret a).
Proof. intros w. apply R_refl. Qed.

Lemma keeps_exit {A : Type} : keeps R (@exit_ A).
Proof. intros w. apply R_refl. Qed.

Lemma keeps_lift {A : Type} (r : exception + A) : keeps R (lift r).
Proof. intros w. unfold lift. destruct r; apply R_refl. Qed.

Lemma keeps_bind {A B : Type} (m : M A) (f : A -> M B) :
  keeps R m -> (forall a, keeps R (f a)) -> keeps R (bind m f).
Proof.
  intros Hm Hf w. unfold bind. specialize (Hm w).
  destruct (m w) as [[r|a] w']; simpl in *.
  - exact Hm.
  - eapply R_trans; [exact Hm | apply Hf].
Qed.

Lemma keeps_try_except {A : Type} (m : M A) (h : exception -> M A) :
  keeps R m -> (forall e, keeps R (h e)) -> keeps R (try_except m h).
Proof.
  intros Hm Hh w. unfold try_except. specialize (Hm w).
  destruct (m w) as [[[e|]|a] w']; simpl in *; try exact Hm.
  eapply R_trans; [exact Hm | apply Hh].
Qed.

Lemma keeps_try_bare {A : Type} (m h : M A) :
  keeps R m -> keeps R h -> keeps R (try_bare m h).
Proof.
  intros Hm Hh w. unfold try_bare. specialize (Hm w).
  destruct (m w) as [[r|a] w']; simpl in *; try exact Hm.
  eapply R_trans; [exact Hm | apply Hh].
Qed.

Lemma keeps_for_each {A : Type} (l : list A) (body : A -> M unit) :
  (forall a, keeps R (body a)) -> keeps R (for_each l body).
Proof.
  intros Hb. induction l as [|a l IH]; simpl.
  - apply keeps_ret.
  - apply keeps_bind; [apply Hb | intros _; exact IH].
Qed.

End Keeps.

Lemma no_exit_ret {A : Type} (a : A) : no_exit (ret a).
Proof. intros w. discriminate. Qed.

Lemma no_exit_lift {A : Type} (r : exception + A) : no_exit (lift r).
Proof. intros w. unfold lift. destruct r; discriminate. Qed.

Lemma no_exit_print line : no_exit (print line).
Proof. intros w. discriminate. Qed.

Lemma no_exit_bind {A B : Type} (m : M A) (f : A -> M B) :
  no_exit m -> (forall a, no_exit (f a)) -> no_exit (bind m f).
Proof.
  intros Hm Hf w. unfold bind. specialize (Hm w).
  destruct (m w) as [[r|a] w']; simpl in *; [congruence | apply Hf].
Qed.

Lemma no_exit_for_each {A : Type} (l : list A) (body : A -> M unit) :
  (forall a, no_exit (body a)) -> no_exit (for_each l body).
Proof.
  intros Hb. induction l as [|a l IH]; simpl.
  - apply no_exit_ret.
  - apply no_exit_bind; [apply Hb | intros _; exact IH].
Qed.

(** A body guarded by [except Exception] whose handler prints: the call
    always returns; a raised exception leaves its message as the last
    printed line, on the world the body had reached. *)
Lemma try_except_print (body : M unit) (msg : exception -> string) w :
  no_exit body ->
  exists w',
    try_except body (fun e => print (msg e)) w = (inr tt, w')
    /\ (forall wb, body w = (inr tt, wb) -> w' = wb)
    /\ (forall e wb, body w = (inl (Exc e), wb) ->
          w' = printed wb (msg e)).
Proof.
  intros Hne. unfold try_except. specialize (Hne w).
  destruct (body w) as [[[e|]|[]] wb]; simpl in Hne.
  - eexists. split; [reflexivity|]. split.
    + intros wb' H. discriminate.
    + intros e' wb' H. injection H as <- <-. reflexivity.
  - congruence.
  - eexists. split; [reflexivity|]. split.
    + intros wb' H. injection H as <-. reflexivity.
    + intros e' wb' H. discriminate.
Qed.

(** ** The figure script *)

Section FigurasFacts.

Variable lib_raises : list call -> call -> option exception.
Variable to_datetime : column -> exception + column.

Lemma no_exit_lib c : no_exit (lib lib_raises c).
Proof. intros w. unfold lib. destruct (lib_raises (trace w) c); discriminate. Qed.

(** Closes [no_exit] goals on computations built from library calls, pure
    steps, prints and loops. *)
Ltac sem_saida :=
  repeat first
    [ apply no_exit_lib
    | apply no_exit_lift
    | apply no_exit_print
    | apply no_exit_ret
    | apply no_exit_bind; [|intros ?]
    | apply no_exit_for_each; intros ? ].

Lemma no_exit_grafico_temporal df item :
  no_exit (grafico_temporal lib_raises df item).
Proof. destruct item as [i [col info]]. unfold grafico_temporal. sem_saida. Qed.

Lemma no_exit_graficos_temporais df : no_exit (graficos_temporais lib_raises df).
Proof.
  unfold graficos_temporais.
  apply no_exit_bind; [apply no_exit_lib | intros _].
  apply no_exit_bind;
    [apply no_exit_for_each; apply no_exit_grafico_temporal | intros _].
  sem_saida.
Qed.

Lemma no_exit_boxplot df : no_exit (boxplot lib_raises df).
Proof. unfold boxplot. sem_saida. Qed.

Lemma no_exit_correlacao df : no_exit (correlacao lib_raises df).
Proof. unfold correlacao. sem_saida. Qed.

Lemma no_exit_outliers df : no_exit (outliers lib_raises df).
Proof. unfold outliers. sem_saida. Qed.

Lemma no_exit_vetor_pca item : no_exit (vetor_pca lib_raises item).
Proof. destruct item as [i feature]. unfold vetor_pca. sem_saida. Qed.

Lemma no_exit_pca df : no_exit (pca lib_raises df).
Proof.
  unfold pca.
  repeat (apply no_exit_bind;
          [first [apply no_exit_lib | apply no_exit_lift
                 | apply no_exit_for_each; apply no_exit_vetor_pca]
          | intros ?]).
  apply no_exit_lib.
Qed.

Lemma plot_graficos_temporais_returns df w :
  exists w',
    plot_graficos_temporais lib_raises df w = (inr tt, w')
    /\ forall e wb,
         graficos_temporais lib_raises df w = (inl (Exc e), wb) ->
         w' = printed wb ("Erro ao gerar gráficos temporais: "
                          ++ str_exception e).
Proof.
  destruct (try_except_print (graficos_temporais lib_raises df)
              (fun e => "Erro ao gerar gráficos temporais: " ++ str_exception e)
              w (no_exit_graficos_temporais df)) as (w' & H & _ & E).
  exists w'. split; assumption.
Qed.

Lemma plot_boxplot_returns df w :
  exists w',
    plot_boxplot lib_raises df w = (inr tt, w')
    /\ forall e wb,
         boxplot lib_raises df w = (inl (Exc e), wb) ->
         w' = printed wb ("Erro ao gerar boxplot: " ++ str_exception e).
Proof.
  destruct (try_except_print (boxplot lib_raises df)
              (fun e => "Erro ao gerar boxplot: " ++ str_exception e)
              w (no_exit_boxplot df)) as (w' & H & _ & E).
  exists w'. split; assumption.
Qed.

Lemma plot_correlacao_returns df w :
  exists w',
    plot_correlacao lib_raises df w = (inr tt, w')
    /\ forall e wb,
         correlacao lib_raises df w = (inl (Exc e), wb) ->
         w' = printed wb ("Erro ao gerar matriz de correlação: "
                          ++ str_exception e).
Proof.
  destruct (try_except_print (correlacao lib_raises df)
              (fun e => "Erro ao gerar matriz de correlação: "
                        ++ str_exception e)
              w (no_exit_correlacao df)) as (w' & H & _ & E).
  exists w'. split; assumption.
Qed.

Lemma plot_outliers_returns df w :
  exists w',
    plot_outliers lib_raises df w = (inr tt, w')
    /\ forall e wb,
         outliers lib_raises df w = (inl (Exc e), wb) ->
         w' = printed wb ("Erro ao gerar gráfico de outliers: "
                          ++ str_exception e).
Proof.
  destruct (try_except_print (outliers lib_raises df)
              (fun e => "Erro ao gerar gráfico de outliers: "
                        ++ str_exception e)
              w (no_exit_outliers df)) as (w' & H & _ & E).
  exists w'. split; assumption.
Qed.

Lemma plot_pca_returns df w :
  exists w',
    plot_pca lib_raises df w = (inr tt, w')
    /\ forall e wb,
         pca lib_raises df w = (inl (Exc e), wb) ->
         w' = printed wb ("Erro ao gerar PCA: " ++ str_exception e).
Proof.
  destruct (try_except_print (pca lib_raises df)
              (fun e => "Erro ao gerar PCA: " ++ str_exception e)
              w (no_exit_pca df)) as (w' & H & _ & E).
  exists w'. split; assumption.
Qed.

Lemma gerar_graficos_returns df w :
  exists w5, gerar_graficos lib_raises df w = (inr tt, w5).
Proof.
  destruct (plot_graficos_temporais_returns df w) as (w1 & H1 & _).
  destruct (plot_boxplot_returns df w1) as (w2 & H2 & _).
  destruct (plot_correlacao_returns df w2) as (w3 & H3 & _).
  destruct (plot_outliers_returns df w3) as (w4 & H4 & _).
  destruct (plot_pca_returns df w4) as (w5 & H5 & _).
  exists w5. unfold gerar_graficos, bind.
  rewrite H1, H2, H3, H4. exact H5.
Qed.

(** C6.  From any world and for any behaviour of the libraries, each of the
    five renderers returns normally, each starting from the world the one
    before it left, and so does their sequence; a renderer whose body raised
    an exception has printed its own error line with the exception's text,
    after whatever the body had done, and the next one runs all the same. *)
Theorem renderizadores_independentes df w :
  exists w1 w2 w3 w4 w5,
    plot_graficos_temporais lib_raises df w = (inr tt, w1)
    /\ plot_boxplot lib_raises df w1 = (inr tt, w2)
    /\ plot_correlacao lib_raises df w2 = (inr tt, w3)
    /\ plot_outliers lib_raises df w3 = (inr tt, w4)
    /\ plot_pca lib_raises df w4 = (inr tt, w5)
    /\ gerar_graficos lib_raises df w = (inr tt, w5)
    /\ (forall e wb,
          graficos_temporais lib_raises df w = (inl (Exc e), wb) ->
          w1 = printed wb ("Erro ao gerar gráficos temporais: "
                           ++ str_exception e))
    /\ (forall e wb,
          boxplot lib_raises df w1 = (inl (Exc e), wb) ->
          w2 = printed wb ("Erro ao gerar boxplot: " ++ str_exception e))
    /\ (forall e wb,
          correlacao lib_raises df w2 = (inl (Exc e), wb) ->
          w3 = printed wb ("Erro ao gerar matriz de correlação: "
                           ++ str_exception e))
    /\ (forall e wb,
          outliers lib_raises df w3 = (inl (Exc e), wb) ->
          w4 = printed wb ("Erro ao gerar gráfico de outliers: "
                           ++ str_exception e))
    /\ (forall e wb,
          pca lib_raises df w4 = (inl (Exc e), wb) ->
          w5 = printed wb ("Erro ao gerar PCA: " ++ str_exception e)).
Proof.
  destruct (plot_graficos_temporais_returns df w) as (w1 & H1 & E1).
  destruct (plot_boxplot_returns df w1) as (w2 & H2 & E2).
  destruct (plot_correlacao_returns df w2) as (w3 & H3 & E3).
  destruct (plot_outliers_returns df w3) as (w4 & H4 & E4).
  destruct (plot_pca_returns df w4) as (w5 & H5 & E5).
  exists w1, w2, w3, w4, w5.
  repeat split; try assumption.
  unfold gerar_graficos, bind.
  rewrite H1, H2, H3, H4. exact H5.
Qed.

(** *** Configuration, load and column check *)

Lemma so_config_refl w : so_config w w.
Proof.
  split; [reflexivity|]. exists []. rewrite app_nil_r. split; [reflexivity|].
  constructor.
Qed.

Lemma so_config_trans a b c : so_config a b -> so_config b c -> so_config a c.
Proof.
  intros [F1 (c1 & T1 & A1)] [F2 (c2 & T2 & A2)]. split; [congruence|].
  exists (c1 ++ c2)%list. split.
  - rewrite T2, T1, app_assoc. reflexivity.
  - apply Forall_app. split; assumption.
Qed.

Lemma calado_refl w : calado w w.
Proof. reflexivity. Qed.

Lemma calado_trans a b c : calado a b -> calado b c -> calado a c.
Proof. unfold calado. congruence. Qed.

Lemma so_config_print line : keeps so_config (print line).
Proof.
  intros w. split; [reflexivity|]. exists []. simpl. rewrite app_nil_r.
  split; [reflexivity | constructor].
Qed.

Lemma so_config_lib c :
  In (fn c) nomes_config -> saved_file c = None ->
  keeps so_config (lib lib_raises c).
Proof.
  intros Hfn Hsave w. unfold lib. rewrite Hsave.
  destruct (lib_raises (trace w) c); simpl;
    (split; [reflexivity|]; exists [c]; split; [reflexivity|];
     constructor; [exact Hfn | constructor]).
Qed.

Lemma calado_lib c : keeps calado (lib lib_raises c).
Proof.
  intros w. unfold lib, calado.
  destruct (lib_raises (trace w) c); reflexivity.
Qed.

Lemma so_config_configurar : keeps so_config (configurar lib_raises).
Proof.
  unfold configurar.
  apply (keeps_bind _ so_config_trans);
    [apply (keeps_try_bare _ so_config_trans) | intros _].
  - apply so_config_lib; [simpl; tauto | reflexivity].
  - apply so_config_lib; [simpl; tauto | reflexivity].
  - apply (keeps_bind _ so_config_trans); [|intros _];
      (apply so_config_lib; [simpl; tauto | reflexivity]).
Qed.

Lemma calado_configurar : keeps calado (configurar lib_raises).
Proof.
  unfold configurar.
  apply (keeps_bind _ calado_trans);
    [apply (keeps_try_bare _ calado_trans); apply calado_lib | intros _].
  apply (keeps_bind _ calado_trans); [|intros _]; apply calado_lib.
Qed.

Lemma so_config_verificar cols dados :
  keeps so_config (verificar_colunas cols dados).
Proof.
  induction cols as [|col cols IH]; simpl.
  - apply (keeps_ret _ so_config_refl).
  - apply (keeps_bind _ so_config_trans); [|intros _; exact IH].
    destruct (negb (has_column col dados)).
    + apply (keeps_bind _ so_config_trans); [apply so_config_print|intros _].
      apply (keeps_exit _ so_config_refl).
    + apply (keeps_ret _ so_config_refl).
Qed.

Lemma so_config_preparar csv :
  keeps so_config (preparar lib_raises to_datetime csv).
Proof.
  unfold preparar.
  apply (keeps_bind _ so_config_trans); [apply so_config_configurar|intros _].
  apply (keeps_bind _ so_config_trans).
  - apply (keeps_try_except _ so_config_trans).
    + apply (keeps_lift _ so_config_refl).
    + intros e. apply (keeps_bind _ so_config_trans);
        [apply so_config_print | intros _; apply (keeps_exit _ so_config_refl)].
  - intros dados. apply (keeps_bind _ so_config_trans);
      [apply so_config_verificar | intros _; apply (keeps_ret _ so_config_refl)].
Qed.

(** The column check on a table that lacks a required column: it prints the
    error for the first such column and ends the process. *)
Lemma verificar_colunas_ausente cols dados w :
  (exists c, In c cols /\ has_column c dados = false) ->
  exists c0,
    In c0 cols /\ has_column c0 dados = false
    /\ verificar_colunas cols dados w = (inl SystemExit, printed w (erro_coluna c0)).
Proof.
  induction cols as [|col cols IH]; intros (c & Hin & Habs).
  - destruct Hin.
  - simpl. destruct (has_column col dados) eqn:Hcol; simpl.
    + destruct Hin as [<-|Hin]; [congruence|].
      destruct IH as (c0 & Hin0 & Habs0 & Hrun); [exists c; tauto|].
      exists c0. split; [right; exact Hin0|]. split; [exact Habs0|].
      unfold bind at 1. simpl. exact Hrun.
    + exists col. split; [left; reflexivity|]. split; [exact Hcol|].
      reflexivity.
Qed.

Lemma verificar_colunas_returns cols dados w r w' :
  verificar_colunas cols dados w = (inr r, w') ->
  w' = w /\ forall c, In c cols -> has_column c dados = true.
Proof.
  revert w. induction cols as [|col cols IH]; intros w; simpl.
  - intros H. injection H as _ <-. split; [reflexivity | intros c []].
  - destruct (has_column col dados) eqn:Hcol; simpl.
    + unfold bind at 1. simpl. intros H. destruct (IH _ H) as [-> Hall].
      split; [reflexivity|]. intros c [<-|Hc]; [exact Hcol | apply Hall, Hc].
    + unfold bind. simpl. discriminate.
Qed.

Lemma has_column_setitem {V : Type} c k (v : V) df :
  has_column c (setitem df k v) = has_column c df || String.eqb c k.
Proof.
  unfold has_column, columns.
  induction df as [|[k' w] df IH]; simpl.
  - rewrite orb_false_r. reflexivity.
  - destruct (String.eqb k k') eqn:Hk; simpl.
    + apply String.eqb_eq in Hk. subst k'.
      destruct (String.eqb c k); simpl;
        [reflexivity | rewrite orb_false_r; reflexivity].
    + rewrite IH, orb_assoc. reflexivity.
Qed.

Lemma assoc_setitem_other {V : Type} c k (v : V) df :
  c <> k -> assoc c (setitem df k v) = assoc c df.
Proof.
  intros Hne. induction df as [|[k' w] df IH]; simpl.
  - apply String.eqb_neq in Hne. rewrite Hne. reflexivity.
  - destruct (String.eqb k k') eqn:Hk; simpl.
    + apply String.eqb_eq in Hk. subst k'.
      apply String.eqb_neq in Hne. rewrite Hne. reflexivity.
    + rewrite IH. reflexivity.
Qed.

(** A load that succeeds returns the table read, with [Data_Hora] set. *)
Lemma carregar_inr csv dados :
  carregar to_datetime csv = inr dados ->
  exists df data_hora, csv = inr df /\ dados = setitem df "Data_Hora" data_hora.
Proof.
  unfold carregar. destruct csv as [e|df]; simpl; [discriminate|].
  destruct (getitem df "Data") as [e|data]; simpl; [discriminate|].
  destruct (series_add_str data " ") as [e|data_]; simpl; [discriminate|].
  destruct (getitem df "Hora") as [e|hora]; simpl; [discriminate|].
  destruct (series_add data_ hora) as [e|texto]; simpl; [discriminate|].
  destruct (to_datetime texto) as [e|dh]; simpl; [discriminate|].
  intros H. injection H as <-. exists df, dh. split; reflexivity.
Qed.

Lemma required_not_data_hora c :
  In c required_columns -> String.eqb c "Data_Hora" = false.
Proof. intros [<-|[<-|[<-|[]]]]; reflexivity. Qed.

(** What the lines before [os.makedirs] do once configuration has gone
    through. *)
Lemma preparar_apos_configurar csv w w1 :
  configurar lib_raises w = (inr tt, w1) ->
  preparar lib_raises to_datetime csv w
  = match carregar to_datetime csv with
    | inl e =>
        (inl SystemExit,
         printed w1 ("Erro ao carregar dados: " ++ str_exception e))
    | inr dados =>
        match verificar_colunas required_columns dados w1 with
        | (inl r, w2) => (inl r, w2)
        | (inr _, w2) => (inr dados, w2)
        end
    end.
Proof.
  intros Hcfg. unfold preparar. unfold bind at 1. rewrite Hcfg.
  unfold bind at 1. unfold try_except, lift.
  destruct (carregar to_datetime csv) as [e|dados]; [reflexivity|].
  unfold bind.
  destruct (verificar_colunas required_columns dados w1) as [[r|[]] w2];
    reflexivity.
Qed.

(** With a required column absent, the lines before [os.makedirs] do not
    return. *)
Lemma preparar_ausente df w c :
  In c required_columns -> has_column c df = false ->
  exists r w', preparar lib_raises to_datetime (inr df) w = (inl r, w').
Proof.
  intros Hin Habs.
  destruct (configurar lib_raises w) as [[r|[]] w1] eqn:Hcfg.
  - exists r, w1. unfold preparar. unfold bind at 1. rewrite Hcfg. reflexivity.
  - rewrite (preparar_apos_configurar _ _ _ Hcfg).
    destruct (carregar to_datetime (inr df)) as [e|dados] eqn:Hload.
    + eexists. eexists. reflexivity.
    + destruct (carregar_inr _ _ Hload) as (df' & dh & Hcsv & ->).
      injection Hcsv as <-.
      destruct (verificar_colunas_ausente required_columns
                  (setitem df "Data_Hora" dh) w1) as (c0 & _ & _ & Hrun).
      { exists c. split; [exact Hin|].
        rewrite has_column_setitem, Habs, (required_not_data_hora c Hin).
        reflexivity. }
      rewrite Hrun. eexists. eexists. reflexivity.
Qed.

Lemma preparar_inr csv w dados w0 :
  preparar lib_raises to_datetime csv w = (inr dados, w0) ->
  configurar lib_raises w = (inr tt, w0)
  /\ carregar to_datetime csv = inr dados
  /\ forall c, In c required_columns -> has_column c dados = true.
Proof.
  intros H.
  destruct (configurar lib_raises w) as [[r|[]] w1] eqn:Hcfg.
  - unfold preparar in H. unfold bind at 1 in H. rewrite Hcfg in H.
    discriminate.
  - rewrite (preparar_apos_configurar _ _ _ Hcfg) in H.
    destruct (carregar to_datetime csv) as [e|dados']; [discriminate|].
    destruct (verificar_colunas required_columns dados' w1) as [[r|u] w2] eqn:Hv;
      [discriminate|].
    injection H as <- <-.
    destruct (verificar_colunas_returns _ _ _ _ _ Hv) as [-> Hall].
    split; [reflexivity|]. split; [reflexivity | exact Hall].
Qed.

(** C5, as amended.  When the table read from the CSV file lacks a
    required column, the script does not finish: it writes no file and
    calls no library function other than the configuration ones (no
    directory is made, no renderer runs).  When configuration and load go
    through, the process ends by [exit()] after printing, as its only
    line, the error that names a required column the file lacks. *)
Theorem coluna_ausente_encerra df w c :
  In c required_columns ->
  has_column c df = false ->
  let fim := gerar_figuras lib_raises to_datetime (inr df) w in
  (exists r, fst fim = inl r)
  /\ so_config w (snd fim)
  /\ files (snd fim) = files w
  /\ (forall w1 dados,
        configurar lib_raises w = (inr tt, w1) ->
        carregar to_datetime (inr df) = inr dados ->
        exists c0,
          In c0 required_columns /\ has_column c0 df = false
          /\ fst fim = inl SystemExit
          /\ stdout (snd fim) = (stdout w ++ [erro_coluna c0])%list).
Proof.
  intros Hin Habs fim.
  destruct (preparar_ausente df w c Hin Habs) as (r & w' & Hprep).
  assert (Hfim : fim = (inl r, w')).
  { unfold fim, gerar_figuras. unfold bind at 1. rewrite Hprep. reflexivity. }
  assert (Hso : so_config w (snd fim)).
  { rewrite Hfim. simpl.
    pose proof (so_config_preparar (inr df) w) as Hk.
    rewrite Hprep in Hk. exact Hk. }
  split; [exists r; rewrite Hfim; reflexivity|].
  split; [exact Hso|]. split; [exact (proj1 Hso)|].
  intros w1 dados Hcfg Hload.
  destruct (carregar_inr _ _ Hload) as (df' & dh & Hcsv & ->).
  injection Hcsv as <-.
  destruct (verificar_colunas_ausente required_columns
              (setitem df "Data_Hora" dh) w1) as (c0 & Hin0 & Habs0 & Hrun).
  { exists c. split; [exact Hin|].
    rewrite has_column_setitem, Habs, (required_not_data_hora c Hin).
    reflexivity. }
  exists c0. split; [exact Hin0|].
  rewrite has_column_setitem, (required_not_data_hora c0 Hin0), orb_false_r
    in Habs0.
  split; [exact Habs0|].
  rewrite (preparar_apos_configurar _ _ _ Hcfg), Hload, Hrun in Hprep.
  injection Hprep as <- <-. rewrite Hfim. simpl.
  split; [reflexivity|].
  pose proof (calado_configurar w) as Hq. rewrite Hcfg in Hq.
  unfold calado in Hq. simpl in Hq. rewrite Hq. reflexivity.
Qed.

(** C3, as amended.  When the lines before [os.makedirs] return a table, it
    is the table read from the CSV file with the parsed [Data_Hora] column
    set and every other column as it was read, with no coercion; and the
    rest of the run hands that same table to each of the five renderers. *)
Theorem renderizadores_recebem_dados_lidos csv w dados w0 :
  preparar lib_raises to_datetime csv w = (inr dados, w0) ->
  (exists df data_hora,
     csv = inr df
     /\ dados = setitem df "Data_Hora" data_hora
     /\ forall c, c <> "Data_Hora" -> assoc c dados = assoc c df)
  /\ gerar_figuras lib_raises to_datetime csv w
     = (lib lib_raises makedirs ;;
        plot_graficos_temporais lib_raises dados ;;
        plot_boxplot lib_raises dados ;;
        plot_correlacao lib_raises dados ;;
        plot_outliers lib_raises dados ;;
        plot_pca lib_raises dados ;;
        for_each mensagens_finais print)%script w0.
Proof.
  intros Hprep. split.
  - destruct (preparar_inr _ _ _ _ Hprep) as (_ & Hload & _).
    destruct (carregar_inr _ _ Hload) as (df & dh & -> & ->).
    exists df, dh. repeat split.
    intros c Hc. apply assoc_setitem_other. exact Hc.
  - unfold gerar_figuras. unfold bind at 1. rewrite Hprep.
    unfold gerar_graficos, bind.
    destruct (lib lib_raises makedirs w0) as [[r|u] w1]; [reflexivity|].
    destruct (plot_graficos_temporais lib_raises dados w1) as [[r|u1] w2];
      [reflexivity|].
    destruct (plot_boxplot lib_raises dados w2) as [[r|u2] w3]; [reflexivity|].
    destruct (plot_correlacao lib_raises dados w3) as [[r|u3] w4];
      [reflexivity|].
    destruct (plot_outliers lib_raises dados w4) as [[r|u4] w5]; [reflexivity|].
    reflexivity.
Qed.

(** *** The calls of a guarded renderer *)


End FigurasFacts.

(** ** The outlier rule over typed columns *)

Section RegraIQR.

Variable pd : B64.pandas.
Variable lib_raises : list call -> call -> option exception.








End RegraIQR.




(** C3, as stated, fails.  Read with status words in the air-humidity
    column, the table the renderers get still holds those words: the
    time-series renderer plots the column of strings and saves the image,
    while the cleaned table has a missing value in each of those cells. *)
Lemma renderizador_recebe_texto :
  let fim := gerar_figuras lib_ok datetime_exemplo (inr dados_sujos)
               mundo_vazio in
  In (Call "axs[i].plot"
           [AIdx 0; ACol (TimeCol [Some 0%Z; Some 1%Z]);
            ACol (ObjCol [OStr "SIM"; OStr "NAO"]);
            AKw "color" (AStr "tab:blue")])
     (trace (snd fim))
  /\ In "graficos/temporal_umidadear.png" (files (snd fim))
  /\ cleaned parse_decimal dados_sujos "UmidadeAr" = Some [NaN; NaN]
  /\ to_numeric parse_decimal ErrorsCoerce (ObjCol [OStr "SIM"; OStr "NAO"])
     = inr (NumCol [NaN; NaN]).
Proof.
  vm_compute. repeat split.
  - do 5 right. left. reflexivity.
  - left. reflexivity.
Qed.

Lemma renderizadores_recebem_dados_lidos_witness :
  exists df data_hora,
    inr dados_sujos = @inr exception DataFrame df
    /\ setitem dados_sujos "Data_Hora" (TimeCol [Some 0%Z; Some 1%Z])
       = setitem df "Data_Hora" data_hora
    /\ assoc "UmidadeAr"
             (setitem dados_sujos "Data_Hora" (TimeCol [Some 0%Z; Some 1%Z]))
       = assoc "UmidadeAr" df.
Proof.
  destruct (renderizadores_recebem_dados_lidos lib_ok datetime_exemplo
              (inr dados_sujos) mundo_vazio
              (setitem dados_sujos "Data_Hora" (TimeCol [Some 0%Z; Some 1%Z]))
              (mkWorld [] []
                 [Call "plt.style.use" [AStr "seaborn-v0_8"];
                  Call "sns.set_theme" [AKw "style" (AStr "whitegrid")];
                  Call "plt.rcParams.__setitem__" [AStr "font.size"; ALit "12"]]))
    as [(df & dh & Hcsv & Hdados & Hcols) _].
  - vm_compute. reflexivity.
  - exists df, dh. split; [exact Hcsv|]. split; [exact Hdados|].
    apply Hcols. discriminate.
Defined.

Lemma coluna_ausente_encerra_witness :
  let fim := gerar_figuras lib_ok datetime_exemplo (inr dados_sem_usolo)
               mundo_vazio in
  fst fim = inl SystemExit
  /\ stdout (snd fim)
     = ["Erro: Coluna 'USolo' não encontrada no arquivo CSV."]
  /\ files (snd fim) = [].
Proof.
  destruct (coluna_ausente_encerra lib_ok datetime_exemplo dados_sem_usolo
              mundo_vazio "USolo") as (_ & _ & Hfiles & Hmsg).
  - simpl; tauto.
  - reflexivity.
  - destruct (Hmsg (mkWorld [] []
                 [Call "plt.style.use" [AStr "seaborn-v0_8"];
                  Call "sns.set_theme" [AKw "style" (AStr "whitegrid")];
                  Call "plt.rcParams.__setitem__" [AStr "font.size"; ALit "12"]])
              (setitem dados_sem_usolo "Data_Hora"
                       (TimeCol [Some 0%Z; Some 1%Z])))
      as (c0 & Hin & Habs & Hexit & Hout).
    + vm_compute. reflexivity.
    + vm_compute. reflexivity.
    + split; [exact Hexit|]. split; [|exact Hfiles].
      vm_compute. reflexivity.
Defined.

(** C5, as stated, fails.  Read without the soil-moisture column and
    without the date column, the script ends by [exit()] with the load
    error as its only line; no printed line names 'USolo', or any
    required column. *)
Lemma coluna_ausente_sem_nome :
  let df := tl dados_sem_usolo in
  let fim := gerar_figuras lib_ok datetime_exemplo (inr df) mundo_vazio in
  In "USolo" required_columns
  /\ has_column "USolo" df = false
  /\ fst fim = inl SystemExit
  /\ stdout (snd fim) = ["Erro ao carregar dados: 'Data'"]
  /\ forall c linha,
       In c required_columns -> In linha (stdout (snd fim)) ->
       menciona c linha = false.
Proof.
  cbv zeta. split; [simpl; tauto|]. split; [reflexivity|].
  split; [vm_compute; reflexivity|]. split; [vm_compute; reflexivity|].
  intros c linha Hc Hl. vm_compute in Hl. destruct Hl as [<-|[]].
  simpl in Hc. destruct Hc as [<-|[<-|[<-|[]]]]; vm_compute; reflexivity.
Qed.

(** The standalone plot, unlike the figure script, plots the coerced
    column: the status words have become missing values. *)
Lemma plotagem_plota_coagido :
  In (Call "plt.plot"
           [ACol (TimeCol [Some 0%Z; Some 1%Z]); ACol (NumCol [NaN; NaN]);
            AKw "label" (AStr "Umidade do Ar (%)");
            AKw "color" (AStr "blue"); AKw "marker" (AStr "s")])
     (trace (snd (plotagem parse_decimal lib_ok datetime_exemplo dados_sujos
                    mundo_vazio))).
Proof. vm_compute. do 2 right. left. reflexivity. Qed.

(** * Further properties *)

(** ** The statistics script: errors, shape and edge cases *)

Section EstatisticaMais.

Variable str_to_num : string -> option num.
Variable sqrtQ : Q -> Q.

Lemma has_column_false_assoc {V : Type} c (df : list (string * V)) :
  has_column c df = false <-> assoc c df = None.
Proof.
  split; intros H.
  - destruct (assoc c df) as [v|] eqn:Hv; [|reflexivity].
    assert (Ht : has_column c df = true)
      by (apply has_column_assoc; exists v; exact Hv).
    congruence.
  - destruct (has_column c df) eqn:Hc; [|reflexivity].
    apply has_column_assoc in Hc. destruct Hc as [v Hv]. congruence.
Qed.

Lemma getitem_coerced_absent df var :
  has_column var df = false ->
  getitem (map (fun kv => (fst kv, NumCol (coerced_values str_to_num (snd kv))))
               df) var
  = inl (KeyError var).
Proof.
  intros H. apply has_column_false_assoc in H. unfold getitem.
  rewrite (assoc_map_snd (fun c => NumCol (coerced_values str_to_num c))), H.
  reflexivity.
Qed.

(** The outcome of the script, by the first variable the table lacks. *)
Lemma estatistica_casos df :
  match primeira_ausente variaveis df with
  | Some v => estatistica str_to_num sqrtQ df = inl (KeyError v)
  | None =>
      exists s1 s2 s3,
        cleaned str_to_num df "Temp" = Some s1
        /\ cleaned str_to_num df "UmidadeAr" = Some s2
        /\ cleaned str_to_num df "USolo" = Some s3
        /\ estatistica str_to_num sqrtQ df
           = inr (resultado [ ("Temp", estatisticas_var sqrtQ s1);
                              ("UmidadeAr", estatisticas_var sqrtQ s2);
                              ("USolo", estatisticas_var sqrtQ s3) ])
  end.
Proof.
  unfold primeira_ausente, variaveis. cbn [find].
  destruct (has_column "Temp" df) eqn:H1; cbn [negb].
  2:{ unfold estatistica. rewrite df_apply_coerce. cbn [bindE for_var variaveis].
      rewrite (getitem_coerced_absent _ _ H1). reflexivity. }
  destruct (cleaned_present str_to_num df "Temp" H1) as [s1 C1].
  destruct (has_column "UmidadeAr" df) eqn:H2; cbn [negb].
  2:{ unfold estatistica. rewrite df_apply_coerce. cbn [bindE for_var variaveis].
      rewrite (getitem_coerced _ _ _ _ C1). cbn [bindE numeric_series].
      rewrite (getitem_coerced_absent _ _ H2). reflexivity. }
  destruct (cleaned_present str_to_num df "UmidadeAr" H2) as [s2 C2].
  destruct (has_column "USolo" df) eqn:H3; cbn [negb].
  2:{ unfold estatistica. rewrite df_apply_coerce. cbn [bindE for_var variaveis].
      rewrite (getitem_coerced _ _ _ _ C1). cbn [bindE numeric_series].
      rewrite (getitem_coerced _ _ _ _ C2). cbn [bindE numeric_series].
      rewrite (getitem_coerced_absent _ _ H3). reflexivity. }
  destruct (cleaned_present str_to_num df "USolo" H3) as [s3 C3].
  exists s1, s2, s3. repeat split; try assumption.
  apply estatistica_runs; assumption.
Qed.

(** X2.  Whenever the statistics script produces its table, the table has
    the five statistic columns in the order of the dict, and each column
    has one row per variable, in the order Temp, UmidadeAr, USolo. *)
Theorem estatistica_forma df out :
  estatistica str_to_num sqrtQ df = inr out ->
  columns out = colunas_resultado
  /\ forall c, In c colunas_resultado ->
       exists col, assoc c out = Some col /\ columns col = variaveis.
Proof.
  intros Hrun. pose proof (estatistica_casos df) as H.
  destruct (primeira_ausente variaveis df) as [v|]; [congruence|].
  destruct H as (s1 & s2 & s3 & _ & _ & _ & Heq).
  rewrite Heq in Hrun. injection Hrun as <-.
  destruct (estatisticas_var_linha sqrtQ s1) as (a1 & b1 & c1 & d1 & e1 & ->).
  destruct (estatisticas_var_linha sqrtQ s2) as (a2 & b2 & c2 & d2 & e2 & ->).
  destruct (estatisticas_var_linha sqrtQ s3) as (a3 & b3 & c3 & d3 & e3 & ->).
  split; [reflexivity|].
  intros c Hc. simpl in Hc.
  destruct Hc as [<-|[<-|[<-|[<-|[<-|[]]]]]]; eexists; split; reflexivity.
Qed.

End EstatisticaMais.

Lemma estatistica_forma_witness :
  exists out,
    estatistica parse_decimal sqrt_decimal dados_media_zero = inr out
    /\ columns out = colunas_resultado.
Proof.
  eexists. split; [vm_compute; reflexivity|].
  refine (proj1 (estatistica_forma parse_decimal sqrt_decimal
                   dados_media_zero _ _)).
  vm_compute. reflexivity.
Defined.

Section EstatisticaBordas.

Variable str_to_num : string -> option num.
Variable sqrtQ : Q -> Q.

Lemma series_var_poucos s :
  (length (dropna s) <= 1)%nat -> series_var s = NaN.
Proof.
  intros H. unfold series_var.
  apply Nat.leb_le in H. rewrite H. reflexivity.
Qed.

Lemma agregados_sem_valores s :
  dropna s = [] ->
  series_mean s = NaN /\ series_min s = NaN /\ series_max s = NaN
  /\ series_median s = NaN.
Proof.
  intros H. unfold series_mean, series_min, series_max, series_median.
  rewrite H. repeat split; reflexivity.
Qed.

Lemma cleaned_has_column_true df var s :
  cleaned str_to_num df var = Some s -> has_column var df = true.
Proof.
  unfold cleaned. intros H. apply has_column_assoc.
  destruct (assoc var df) as [c|]; [exists c; reflexivity | discriminate].
Qed.

(** A run that produced its table found the three columns. *)
Lemma estatistica_inr_colunas df out :
  estatistica str_to_num sqrtQ df = inr out ->
  forall v, In v variaveis -> has_column v df = true.
Proof.
  intros Hrun. pose proof (estatistica_casos str_to_num sqrtQ df) as H.
  destruct (primeira_ausente variaveis df) as [v0|]; [congruence|].
  destruct H as (s1 & s2 & s3 & C1 & C2 & C3 & _).
  intros v [<-|[<-|[<-|[]]]]; eapply cleaned_has_column_true; eassumption.
Qed.

(** X5.  Whenever the statistics script produces its table, a variable
    with fewer than two non-missing values has missing standard-deviation
    and variance percentages, whatever its mean: there is no sample
    variance of one value.  A variable with no non-missing value at all
    has all five cells missing, the median included. *)
Theorem estatistica_poucos_valores df out var s :
  estatistica str_to_num sqrtQ df = inr out ->
  In var variaveis ->
  cleaned str_to_num df var = Some s ->
  (length (dropna s) <= 1)%nat ->
  loc out var "Desvio Padrão (%)" = Some NaN
  /\ loc out var "Variância (%)" = Some NaN
  /\ (dropna s = [] ->
      loc out var "Intervalo (%)" = Some NaN
      /\ loc out var "Mediana (valor)" = Some NaN
      /\ loc out var "Mediana (%)" = Some NaN).
Proof.
  intros Hrun Hvar Hs Hfew.
  destruct (loc_estatistica str_to_num sqrtQ df var s
              (estatistica_inr_colunas df out Hrun) Hvar Hs)
    as (out' & Hrun' & Hcell).
  assert (out' = out) by congruence. subst out'.
  pose proof (series_var_poucos s Hfew) as Hvar0.
  split; [|split].
  - rewrite Hcell by (simpl; tauto).
    unfold estatisticas_var, series_std.
    cbn [assoc String.eqb Ascii.eqb Bool.eqb]. rewrite Hvar0.
    destruct (truthy (series_mean s)); reflexivity.
  - rewrite Hcell by (simpl; tauto).
    unfold estatisticas_var. cbn [assoc String.eqb Ascii.eqb Bool.eqb].
    rewrite Hvar0. destruct (truthy (series_mean s)); reflexivity.
  - intros Hnone.
    destruct (agregados_sem_valores s Hnone) as (Hm & Hmin & Hmax & Hmed).
    repeat split; rewrite Hcell by (simpl; tauto);
      unfold estatisticas_var; cbn [assoc String.eqb Ascii.eqb Bool.eqb];
      rewrite ?Hm, ?Hmed, ?Hmin, ?Hmax; reflexivity.
Qed.

End EstatisticaBordas.

Lemma estatistica_poucos_valores_witness :
  exists out,
    estatistica parse_decimal sqrt_decimal dados_uma_linha = inr out
    /\ loc out "Temp" "Desvio Padrão (%)" = Some NaN
    /\ loc out "Temp" "Variância (%)" = Some NaN
    /\ loc out "Temp" "Mediana (valor)" = Some (Fin 20).
Proof.
  eexists. split; [vm_compute; reflexivity|].
  match goal with
  | |- loc ?o _ _ = _ /\ _ =>
      destruct (estatistica_poucos_valores parse_decimal sqrt_decimal
                  dados_uma_linha o "Temp" [of_Z 20])
        as (Hstd & Hvar & _)
  end.
  - vm_compute. reflexivity.
  - simpl; tauto.
  - reflexivity.
  - simpl. lia.
  - split; [exact Hstd|]. split; [exact Hvar|]. vm_compute. reflexivity.
Defined.

(** ** The statistics script over typed columns: errors and inputs *)

Section EstatisticaTipadaMais.

Variable pd : B64.pandas.

Lemma estatisticas_var_casos s :
  if B64.is_bool_column s
  then B64.estatisticas_var pd s = inl (TypeError B64.boolean_subtract)
  else exists d, B64.estatisticas_var pd s = inr d.
Proof.
  destruct (B64.is_bool_column s) eqn:Hb.
  - apply estatisticas_var_booleana. exact Hb.
  - destruct (estatisticas_var_linha64 pd s Hb) as (a & b & c & d & e & H).
    eexists. exact H.
Qed.

(** The loop stops at the first variable whose column is absent or
    boolean, with the exception of that variable, and only there. *)
Lemma for_var_erro df vars acc e :
  B64.for_var pd vars (B64.df_apply pd df) acc = inl e
  <-> exists v, primeira_com_erro pd df vars = Some v
                /\ erro_da_variavel pd df v = Some e.
Proof.
  revert acc. induction vars as [|var vars IH]; intros acc.
  - simpl. split; [discriminate | intros (v & Hv & _); discriminate].
  - cbn [B64.for_var]. rewrite getitem_df_apply.
    unfold primeira_com_erro. cbn [find].
    unfold erro_da_variavel at 1.
    destruct (assoc var df) as [c|] eqn:Hc; cbn [bindE].
    + pose proof (estatisticas_var_casos (B64.to_numeric pd c)) as Hs.
      destruct (B64.is_bool_column (B64.to_numeric pd c)) eqn:Hb.
      * rewrite Hs. cbn [bindE]. split.
        -- intros [= <-]. exists var. split; [reflexivity|].
           unfold erro_da_variavel. rewrite Hc, Hb. reflexivity.
        -- intros (v & [= <-] & He). unfold erro_da_variavel in He.
           rewrite Hc, Hb in He. congruence.
      * destruct Hs as [d Hd]. rewrite Hd. cbn [bindE]. apply IH.
    + split.
      * intros [= <-]. exists var. split; [reflexivity|].
        unfold erro_da_variavel. rewrite Hc. reflexivity.
      * intros (v & [= <-] & He). unfold erro_da_variavel in He.
        rewrite Hc in He. congruence.
Qed.

(** X1.  The statistics script raises exactly when, going through Temp,
    UmidadeAr and USolo in this order, it meets a variable whose column is
    absent or whose coerced column is boolean; what it raises is the
    KeyError of that variable, or the TypeError of the boolean subtraction
    of line 29.  Cells that are not numbers never make it raise. *)
Theorem estatistica_erro df e :
  B64.estatistica pd df = inl e
  <-> exists v, primeira_com_erro pd df variaveis = Some v
                /\ erro_da_variavel pd df v = Some e.
Proof.
  rewrite <- (for_var_erro df variaveis [] e). unfold B64.estatistica.
  destruct (B64.for_var pd variaveis (B64.df_apply pd df) []); cbn [bindE];
    split; congruence.
Qed.

Lemma for_var_mesmas_colunas vars dn dn' acc :
  (forall v, In v vars -> getitem dn v = getitem dn' v) ->
  B64.for_var pd vars dn acc = B64.for_var pd vars dn' acc.
Proof.
  revert acc. induction vars as [|var vars IH]; intros acc H.
  - reflexivity.
  - cbn [B64.for_var]. rewrite (H var) by (left; reflexivity).
    destruct (getitem dn' var) as [e|s]; cbn [bindE]; [reflexivity|].
    destruct (B64.estatisticas_var pd s) as [e|d]; cbn [bindE];
      [reflexivity|].
    apply IH. intros v Hv. apply H. right. exact Hv.
Qed.

(** X3.  The outcome of the statistics script, table or exception,
    depends only on the coerced columns of the three variables: the other
    columns of the file, the order of the columns, and cells that coerce
    alike make no difference. *)
Theorem estatistica_so_tres_colunas df df' :
  (forall v, In v variaveis ->
             option_map (B64.to_numeric pd) (assoc v df)
             = option_map (B64.to_numeric pd) (assoc v df')) ->
  B64.estatistica pd df = B64.estatistica pd df'.
Proof.
  intros H. unfold B64.estatistica.
  rewrite (for_var_mesmas_colunas variaveis (B64.df_apply pd df)
             (B64.df_apply pd df') []); [reflexivity|].
  intros v Hv. rewrite !getitem_df_apply. specialize (H v Hv).
  destruct (assoc v df), (assoc v df'); simpl in H; congruence.
Qed.

End EstatisticaTipadaMais.

Lemma estatistica_erro_witness :
  B64.estatistica pandas_exemplo tabela_booleana
  = inl (TypeError B64.boolean_subtract).
Proof.
  apply (proj2 (estatistica_erro pandas_exemplo tabela_booleana
                  (TypeError B64.boolean_subtract))).
  exists "Temp". split; reflexivity.
Defined.

Lemma estatistica_so_tres_colunas_witness :
  B64.estatistica pandas_exemplo tabela_reordenada
  = B64.estatistica pandas_exemplo tabela_exemplo.
Proof.
  apply estatistica_so_tres_colunas.
  intros v [<-|[<-|[<-|[]]]]; reflexivity.
Defined.

(** Minimum and maximum of values within bounds. *)
Lemma fold_min_max_entre (lo hi : Z) r x :
  Forall (fun z => (lo <= z < hi)%Z) (x :: r) ->
  (lo <= fold_left Z.min r x)%Z
  /\ (fold_left Z.min r x <= fold_left Z.max r x)%Z
  /\ (fold_left Z.max r x < hi)%Z.
Proof.
  intros H.
  assert (G : forall a b,
             (lo <= a)%Z -> (a <= b)%Z -> (b < hi)%Z ->
             Forall (fun z => (lo <= z < hi)%Z) r ->
             (lo <= fold_left Z.min r a)%Z
             /\ (fold_left Z.min r a <= fold_left Z.max r b)%Z
             /\ (fold_left Z.max r b < hi)%Z).
  { clear H x. induction r as [|y r IH]; intros a b Ha Hab Hb Hr; simpl.
    - lia.
    - inversion Hr as [|? ? Hy Hr']; subst. apply IH; try assumption; lia. }
  inversion H as [|? ? Hx Hr]; subst. apply G; try assumption; lia.
Qed.

Section IntervaloInteiro.

Variable pd : B64.pandas.

(** X18.  For a variable read as an int64 column, the range of line 29 is
    the exact difference of its maximum and minimum as long as that stays
    below 2^63; from 2^63 on it wraps around, to the difference minus 2^64,
    a negative number, and the range-percent is computed from that. *)
Theorem intervalo_int64 x r :
  Forall (fun z => (- 2 ^ 63 <= z < 2 ^ 63)%Z) (x :: r) ->
  let s := B64.I64Col (x :: r) in
  let maior := fold_left Z.max r x in
  let menor := fold_left Z.min r x in
  B64.scalar_sub (B64.series_max pd s) (B64.series_min pd s)
  = inr (B64.Int64 (B64.wrap_int64 (maior - menor)))
  /\ ((maior - menor < 2 ^ 63)%Z ->
      B64.wrap_int64 (maior - menor) = (maior - menor)%Z)
  /\ ((2 ^ 63 <= maior - menor)%Z ->
      B64.wrap_int64 (maior - menor) = (maior - menor - 2 ^ 64)%Z
      /\ (B64.wrap_int64 (maior - menor) < 0)%Z).
Proof.
  intros H s maior menor.
  destruct (fold_min_max_entre (- 2 ^ 63) (2 ^ 63) r x H) as (Hlo & Hle & Hhi).
  fold maior menor in Hlo, Hle, Hhi.
  split; [reflexivity|]. unfold B64.wrap_int64.
  split.
  - intros Hsmall.
    rewrite Z.mod_small by lia. lia.
  - intros Hbig.
    assert (E : ((maior - menor + 2 ^ 63) mod 2 ^ 64
                 = maior - menor + 2 ^ 63 - 2 ^ 64)%Z).
    { symmetry. apply Z.mod_unique with (q := 1%Z); lia. }
    rewrite E. lia.
Qed.

End IntervaloInteiro.

Lemma intervalo_int64_witness :
  B64.scalar_sub
    (B64.series_max pandas_exemplo
       (B64.I64Col [9223372036854775807; -9223372036854775509]%Z))
    (B64.series_min pandas_exemplo
       (B64.I64Col [9223372036854775807; -9223372036854775509]%Z))
  = inr (B64.Int64 (-300)).
Proof.
  destruct (intervalo_int64 pandas_exemplo 9223372036854775807
              [-9223372036854775509]%Z) as (Hsub & _ & _).
  - repeat constructor; lia.
  - exact Hsub.
Defined.

(** ** The figure script: how a run can end *)

Section FigurasDesfechos.

Variable lib_raises : list call -> call -> option exception.
Variable to_datetime : column -> exception + column.

(** The column check stops at the first missing column. *)
Lemma verificar_colunas_primeira cols dados w :
  verificar_colunas cols dados w
  = match primeira_ausente cols dados with
    | Some c => (inl SystemExit, printed w (erro_coluna c))
    | None => (inr tt, w)
    end.
Proof.
  unfold primeira_ausente. induction cols as [|col cols IH]; simpl.
  - reflexivity.
  - destruct (has_column col dados); simpl.
    + unfold bind at 1. simpl. exact IH.
    + reflexivity.
Qed.

Lemma primeira_ausente_setitem cols df dh :
  (forall c, In c cols -> String.eqb c "Data_Hora" = false) ->
  primeira_ausente cols (setitem df "Data_Hora" dh)
  = primeira_ausente (V := column) cols df.
Proof.
  unfold primeira_ausente. induction cols as [|col cols IH]; intros Hne; simpl.
  - reflexivity.
  - rewrite has_column_setitem, (Hne col) by (left; reflexivity).
    rewrite orb_false_r, IH by (intros c Hc; apply Hne; right; exact Hc).
    reflexivity.
Qed.

(** X6.  When configuration and load go through and the table lacks
    required columns, the figure script prints one line only, for the first
    missing column in the order UmidadeAr, Temp, USolo, and exits there;
    further missing columns are not reported. *)
Theorem so_a_primeira_coluna_ausente df w w1 dados c :
  configurar lib_raises w = (inr tt, w1) ->
  carregar to_datetime (inr df) = inr dados ->
  primeira_ausente required_columns df = Some c ->
  gerar_figuras lib_raises to_datetime (inr df) w
  = (inl SystemExit, printed w1 (erro_coluna c)).
Proof.
  intros Hcfg Hload Hc.
  destruct (carregar_inr to_datetime _ _ Hload) as (df' & dh & Hcsv & ->).
  injection Hcsv as <-.
  unfold gerar_figuras. unfold bind at 1.
  rewrite (preparar_apos_configurar lib_raises to_datetime _ _ _ Hcfg), Hload.
  rewrite verificar_colunas_primeira.
  rewrite primeira_ausente_setitem by apply required_not_data_hora.
  rewrite Hc. reflexivity.
Qed.

(** X7.  When configuration goes through and the load step fails, whatever
    the reason, the figure script prints the single line 'Erro ao carregar
    dados: ' followed by the exception's text and exits.  A failed read
    passes its own exception on; a table without the Data column fails with
    the KeyError of 'Data', and one with a text Data column but no Hora
    column with the KeyError of 'Hora'. *)
Theorem erro_ao_carregar csv w w1 e :
  configurar lib_raises w = (inr tt, w1) ->
  carregar to_datetime csv = inl e ->
  gerar_figuras lib_raises to_datetime csv w
  = (inl SystemExit,
     printed w1 ("Erro ao carregar dados: " ++ str_exception e))
  /\ (forall e0, csv = inl e0 -> e = e0)
  /\ (forall df, csv = inr df -> has_column "Data" df = false ->
                 e = KeyError "Data")
  /\ (forall df l, csv = inr df -> assoc "Data" df = Some (ObjCol l) ->
                   has_column "Hora" df = false -> e = KeyError "Hora").
Proof.
  intros Hcfg Hload. split; [|split; [|split]].
  - unfold gerar_figuras. unfold bind at 1.
    rewrite (preparar_apos_configurar lib_raises to_datetime _ _ _ Hcfg), Hload.
    reflexivity.
  - intros e0 ->. simpl in Hload. congruence.
  - intros df -> Habs. apply has_column_false_assoc in Habs.
    unfold carregar, getitem in Hload. simpl in Hload.
    rewrite Habs in Hload. simpl in Hload. congruence.
  - intros df l -> Hdata Habs. apply has_column_false_assoc in Habs.
    unfold carregar, getitem in Hload. simpl in Hload.
    rewrite Hdata in Hload. simpl in Hload.
    rewrite Habs in Hload. simpl in Hload. congruence.
Qed.

Lemma no_exit_configurar : no_exit (configurar lib_raises).
Proof.
  intros w. unfold configurar, bind, try_bare, lib.
  repeat match goal with
         | |- context [lib_raises ?h ?c] => destruct (lib_raises h c); simpl
         end; discriminate.
Qed.

(** X8.  The configuration lines end the run only when the fallback style
    'ggplot', the theme or the font size raises: the exception is then
    uncaught, raised by the last call made.  A failure of the first style,
    'seaborn-v0_8', is swallowed by the bare [except]. *)
Theorem configurar_falha w r w1 :
  configurar lib_raises w = (inl r, w1) ->
  exists e c h,
    r = Exc e
    /\ In c [ Call "plt.style.use" [AStr "ggplot"];
              Call "sns.set_theme" [AKw "style" (AStr "whitegrid")];
              Call "plt.rcParams.__setitem__" [AStr "font.size"; ALit "12"] ]
    /\ trace w1 = (h ++ [c])%list
    /\ lib_raises h c = Some e.
Proof.
  unfold configurar, bind, try_bare, lib. cbn [saved_file fn String.eqb
    Ascii.eqb Bool.eqb fst snd trace stdout files].
  destruct (lib_raises (trace w) (Call "plt.style.use" [AStr "seaborn-v0_8"]))
    as [e1|] eqn:H1; cbn [trace].
  - destruct (lib_raises _ (Call "plt.style.use" [AStr "ggplot"]))
      as [e2|] eqn:H2; cbn [trace].
    + intros [= <- <-]. do 3 eexists. split; [reflexivity|].
      split; [left; reflexivity|]. split; [reflexivity | exact H2].
    + destruct (lib_raises _ (Call "sns.set_theme" _)) as [e3|] eqn:H3;
        cbn [trace].
      * intros [= <- <-]. do 3 eexists. split; [reflexivity|].
        split; [right; left; reflexivity|]. split; [reflexivity | exact H3].
      * destruct (lib_raises _ (Call "plt.rcParams.__setitem__" _))
          as [e4|] eqn:H4; cbn [trace]; [|discriminate].
        intros [= <- <-]. do 3 eexists. split; [reflexivity|].
        split; [right; right; left; reflexivity|].
        split; [reflexivity | exact H4].
  - destruct (lib_raises _ (Call "sns.set_theme" _)) as [e3|] eqn:H3;
      cbn [trace].
    + intros [= <- <-]. do 3 eexists. split; [reflexivity|].
      split; [right; left; reflexivity|]. split; [reflexivity | exact H3].
    + destruct (lib_raises _ (Call "plt.rcParams.__setitem__" _))
        as [e4|] eqn:H4; cbn [trace]; [|discriminate].
      intros [= <- <-]. do 3 eexists. split; [reflexivity|].
      split; [right; right; left; reflexivity|].
      split; [reflexivity | exact H4].
Qed.

End FigurasDesfechos.

(** ** The figure script: which files a run writes *)

Lemma prefixo_refl {A : Type} (l : list A) : prefixo l l.
Proof. exists []. rewrite app_nil_r. reflexivity. Qed.

Lemma prefixo_nil {A : Type} (l : list A) : prefixo [] l.
Proof. exists l. reflexivity. Qed.

Lemma prefixo_app_r {A : Type} (fs ps qs : list A) :
  prefixo fs ps -> prefixo fs (ps ++ qs).
Proof. intros [r ->]. exists (r ++ qs)%list. rewrite app_assoc. reflexivity. Qed.

Lemma prefixo_app_l {A : Type} (fs ps qs : list A) :
  prefixo fs qs -> prefixo (ps ++ fs) (ps ++ qs).
Proof. intros [r ->]. exists r. rewrite app_assoc. reflexivity. Qed.

Lemma prefixo_In {A : Type} (fs ps : list A) x :
  prefixo fs ps -> In x fs -> In x ps.
Proof. intros [r ->] H. apply in_or_app. left. exact H. Qed.

Lemma prefixo_length {A : Type} (fs ps : list A) :
  prefixo fs ps -> (length fs <= length ps)%nat.
Proof. intros [r ->]. rewrite length_app. lia. Qed.

Lemma grava_conv {A : Type} ps ps' (m : M A) :
  grava ps m -> ps = ps' -> grava ps' m.
Proof. intros H <-. exact H. Qed.

Lemma grava_ret {A : Type} (a : A) : grava [] (ret a).
Proof. intros w. simpl. rewrite app_nil_r. reflexivity. Qed.

Lemma grava_lift {A : Type} (r : exception + A) : grava [] (lift r).
Proof.
  intros w. unfold lift. destruct r; simpl.
  - exists []. split; [apply prefixo_nil | rewrite app_nil_r; reflexivity].
  - rewrite app_nil_r. reflexivity.
Qed.

Lemma grava_bind {A B : Type} ps1 ps2 (m : M A) (f : A -> M B) :
  grava ps1 m -> (forall a, grava ps2 (f a)) -> grava (ps1 ++ ps2) (bind m f).
Proof.
  intros Hm Hf w. unfold bind. specialize (Hm w).
  destruct (m w) as [[r|a] w1].
  - destruct Hm as (fs & Hp & Hfs). exists fs. split; [|exact Hfs].
    apply prefixo_app_r. exact Hp.
  - specialize (Hf a w1). destruct (f a w1) as [[r|b] w2].
    + destruct Hf as (fs & Hp & Hfs). exists (ps1 ++ fs)%list. split.
      * apply prefixo_app_l. exact Hp.
      * rewrite Hfs, Hm, app_assoc. reflexivity.
    + rewrite Hf, Hm, app_assoc. reflexivity.
Qed.

Lemma grava_for_each {A : Type} (g : A -> list string) (l : list A)
      (body : A -> M unit) :
  (forall a, grava (g a) (body a)) ->
  grava (concat (map g l)) (for_each l body).
Proof.
  intros Hb. induction l as [|a l IH]; simpl.
  - apply grava_ret.
  - apply grava_bind; [apply Hb | intros _; exact IH].
Qed.

Section FigurasArquivos.

Variable lib_raises : list call -> call -> option exception.
Variable to_datetime : column -> exception + column.

Lemma grava_lib_nada c :
  String.eqb (fn c) "plt.savefig" = false -> grava [] (lib lib_raises c).
Proof.
  intros Hfn w. unfold lib, saved_file. rewrite Hfn.
  destruct (lib_raises (trace w) c); simpl.
  - exists []. split; [apply prefixo_nil | rewrite app_nil_r; reflexivity].
  - rewrite app_nil_r. reflexivity.
Qed.

Lemma grava_lib_savefig path : grava [path] (lib lib_raises (savefig path)).
Proof.
  intros w. unfold lib. simpl.
  destruct (lib_raises (trace w) (savefig path)); simpl.
  - exists []. split; [apply prefixo_nil | rewrite app_nil_r; reflexivity].
  - reflexivity.
Qed.

(** Computes the files a body writes from its sequence of steps. *)
Ltac arquivos_do_corpo :=
  repeat first
    [ apply grava_lib_savefig
    | apply grava_lib_nada; reflexivity
    | apply grava_lift
    | apply grava_ret
    | eapply grava_bind; [|intros ?] ].

(** Closes [keeps calado] goals on bodies that only call the libraries. *)
Ltac corpo_calado :=
  repeat first
    [ apply calado_lib
    | apply (keeps_lift _ calado_refl)
    | apply (keeps_ret _ calado_refl)
    | apply (keeps_bind _ calado_trans); [|intros ?]
    | apply (keeps_for_each _ calado_refl calado_trans); intros ? ].

Lemma grava_grafico_temporal df item :
  grava ["graficos/temporal_" ++ lower (fst (snd item)) ++ ".png"]
        (grafico_temporal lib_raises df item).
Proof.
  destruct item as [i [col info]]. unfold grafico_temporal.
  eapply grava_conv; [arquivos_do_corpo | reflexivity].
Qed.

Lemma grava_graficos_temporais df :
  grava imagens_temporais (graficos_temporais lib_raises df).
Proof.
  unfold graficos_temporais.
  eapply grava_conv.
  - eapply grava_bind; [apply grava_lib_nada; reflexivity | intros _].
    eapply grava_bind;
      [apply (grava_for_each
                (fun item => ["graficos/temporal_" ++ lower (fst (snd item))
                              ++ ".png"]));
       apply grava_grafico_temporal
      | intros _].
    arquivos_do_corpo.
  - reflexivity.
Qed.

Lemma grava_boxplot df : grava imagem_boxplot (boxplot lib_raises df).
Proof.
  unfold boxplot. eapply grava_conv; [arquivos_do_corpo | reflexivity].
Qed.

Lemma grava_correlacao df : grava imagem_correlacao (correlacao lib_raises df).
Proof.
  unfold correlacao. eapply grava_conv; [arquivos_do_corpo | reflexivity].
Qed.

Lemma grava_outliers df : grava imagem_outliers (outliers lib_raises df).
Proof.
  unfold outliers. eapply grava_conv; [arquivos_do_corpo | reflexivity].
Qed.

Lemma grava_vetor_pca item : grava [] (vetor_pca lib_raises item).
Proof.
  destruct item as [i feature]. unfold vetor_pca.
  eapply grava_conv; [arquivos_do_corpo | reflexivity].
Qed.

Lemma grava_pca df : grava imagem_pca (pca lib_raises df).
Proof.
  unfold pca. eapply grava_conv.
  - do 6 (eapply grava_bind;
          [first [apply grava_lib_nada; reflexivity | apply grava_lift]
          | intros ?]).
    eapply grava_bind;
      [apply (grava_for_each (fun _ => [])); apply grava_vetor_pca | intros _].
    arquivos_do_corpo.
  - reflexivity.
Qed.

Lemma calado_grafico_temporal df item :
  keeps calado (grafico_temporal lib_raises df item).
Proof. destruct item as [i [col info]]. unfold grafico_temporal. corpo_calado. Qed.

Lemma calado_graficos_temporais df :
  keeps calado (graficos_temporais lib_raises df).
Proof.
  unfold graficos_temporais.
  apply (keeps_bind _ calado_trans); [apply calado_lib | intros _].
  apply (keeps_bind _ calado_trans);
    [apply (keeps_for_each _ calado_refl calado_trans);
     apply calado_grafico_temporal
    | intros _].
  corpo_calado.
Qed.

Lemma calado_boxplot df : keeps calado (boxplot lib_raises df).
Proof. unfold boxplot. corpo_calado. Qed.

Lemma calado_correlacao df : keeps calado (correlacao lib_raises df).
Proof. unfold correlacao. corpo_calado. Qed.

Lemma calado_outliers df : keeps calado (outliers lib_raises df).
Proof. unfold outliers. corpo_calado. Qed.

Lemma calado_vetor_pca item : keeps calado (vetor_pca lib_raises item).
Proof. destruct item as [i feature]. unfold vetor_pca. corpo_calado. Qed.

Lemma calado_pca df : keeps calado (pca lib_raises df).
Proof.
  unfold pca.
  repeat (apply (keeps_bind _ calado_trans);
          [first [apply calado_lib | apply (keeps_lift _ calado_refl)
                 | apply (keeps_for_each _ calado_refl calado_trans);
                   apply calado_vetor_pca]
          | intros ?]).
  apply calado_lib.
Qed.

(** A body under [except Exception] with a printing handler. *)
Lemma tenta_try_except ps (body : M unit) (msg : exception -> string) :
  grava ps body -> keeps calado body -> no_exit body ->
  tenta ps (try_except body (fun e => print (msg e))).
Proof.
  intros Hg Hc Hn w. unfold try_except.
  specialize (Hg w). specialize (Hc w). specialize (Hn w).
  unfold calado in Hc.
  destruct (body w) as [[[e|]|[]] wb]; simpl in *.
  - right. destruct Hg as (fs & Hp & Hfs).
    exists (msg e), fs. rewrite Hc. repeat split; assumption.
  - congruence.
  - left. split; assumption.
Qed.

End FigurasArquivos.

Section FigurasExecucao.

Variable lib_raises : list call -> call -> option exception.
Variable to_datetime : column -> exception + column.

(** One guarded renderer, summed up: the files and the lines it added. *)
Lemma passo_tenta ps (m : M unit) w :
  tenta ps m ->
  exists f e,
    prefixo f ps
    /\ files (snd (m w)) = (files w ++ f)%list
    /\ stdout (snd (m w)) = (stdout w ++ e)%list
    /\ (length e <= 1)%nat
    /\ (e = [] -> f = ps).
Proof.
  intros H. destruct (H w) as [[Hs Hf]|(line & fs & Hs & Hp & Hf)].
  - exists ps, []. rewrite app_nil_r.
    repeat split; try assumption; [apply prefixo_refl | simpl; lia].
  - exists fs, [line]. repeat split; try assumption; [simpl; lia|].
    discriminate.
Qed.

Lemma tenta_plot_graficos_temporais df :
  tenta imagens_temporais (plot_graficos_temporais lib_raises df).
Proof.
  apply tenta_try_except;
    [apply grava_graficos_temporais | apply calado_graficos_temporais
    | apply no_exit_graficos_temporais].
Qed.

Lemma tenta_plot_boxplot df : tenta imagem_boxplot (plot_boxplot lib_raises df).
Proof.
  apply tenta_try_except;
    [apply grava_boxplot | apply calado_boxplot | apply no_exit_boxplot].
Qed.

Lemma tenta_plot_correlacao df :
  tenta imagem_correlacao (plot_correlacao lib_raises df).
Proof.
  apply tenta_try_except;
    [apply grava_correlacao | apply calado_correlacao
    | apply no_exit_correlacao].
Qed.

Lemma tenta_plot_outliers df :
  tenta imagem_outliers (plot_outliers lib_raises df).
Proof.
  apply tenta_try_except;
    [apply grava_outliers | apply calado_outliers | apply no_exit_outliers].
Qed.

Lemma tenta_plot_pca df : tenta imagem_pca (plot_pca lib_raises df).
Proof.
  apply tenta_try_except;
    [apply grava_pca | apply calado_pca | apply no_exit_pca].
Qed.

(** The five renderers in sequence, summed up. *)
Lemma gerar_graficos_resumo df w :
  exists w5 f1 f2 f3 f4 f5 erros,
    gerar_graficos lib_raises df w = (inr tt, w5)
    /\ prefixo f1 imagens_temporais
    /\ prefixo f2 imagem_boxplot
    /\ prefixo f3 imagem_correlacao
    /\ prefixo f4 imagem_outliers
    /\ prefixo f5 imagem_pca
    /\ files w5 = (files w ++ f1 ++ f2 ++ f3 ++ f4 ++ f5)%list
    /\ stdout w5 = (stdout w ++ erros)%list
    /\ (length erros <= 5)%nat
    /\ (erros = [] -> (f1 ++ f2 ++ f3 ++ f4 ++ f5)%list = imagens).
Proof.
  destruct (plot_graficos_temporais_returns lib_raises df w) as (w1 & H1 & _).
  destruct (plot_boxplot_returns lib_raises df w1) as (w2 & H2 & _).
  destruct (plot_correlacao_returns lib_raises df w2) as (w3 & H3 & _).
  destruct (plot_outliers_returns lib_raises df w3) as (w4 & H4 & _).
  destruct (plot_pca_returns lib_raises df w4) as (w5 & H5 & _).
  destruct (passo_tenta _ _ w (tenta_plot_graficos_temporais df))
    as (f1 & e1 & P1 & F1 & S1 & L1 & A1).
  destruct (passo_tenta _ _ w1 (tenta_plot_boxplot df))
    as (f2 & e2 & P2 & F2 & S2 & L2 & A2).
  destruct (passo_tenta _ _ w2 (tenta_plot_correlacao df))
    as (f3 & e3 & P3 & F3 & S3 & L3 & A3).
  destruct (passo_tenta _ _ w3 (tenta_plot_outliers df))
    as (f4 & e4 & P4 & F4 & S4 & L4 & A4).
  destruct (passo_tenta _ _ w4 (tenta_plot_pca df))
    as (f5 & e5 & P5 & F5 & S5 & L5 & A5).
  rewrite H1 in F1, S1. rewrite H2 in F2, S2. rewrite H3 in F3, S3.
  rewrite H4 in F4, S4. rewrite H5 in F5, S5. simpl in *.
  exists w5, f1, f2, f3, f4, f5, (e1 ++ e2 ++ e3 ++ e4 ++ e5)%list.
  split; [unfold gerar_graficos, bind; rewrite H1, H2, H3, H4; exact H5|].
  repeat (split; [assumption|]).
  split; [rewrite F5, F4, F3, F2, F1, <- !app_assoc; reflexivity|].
  split; [rewrite S5, S4, S3, S2, S1, <- !app_assoc; reflexivity|].
  split; [rewrite !length_app; lia|].
  intros Hnil.
  apply app_eq_nil in Hnil. destruct Hnil as [N1 Hnil].
  apply app_eq_nil in Hnil. destruct Hnil as [N2 Hnil].
  apply app_eq_nil in Hnil. destruct Hnil as [N3 Hnil].
  apply app_eq_nil in Hnil. destruct Hnil as [N4 N5].
  rewrite (A1 N1), (A2 N2), (A3 N3), (A4 N4), (A5 N5). reflexivity.
Qed.

Lemma partes_em_imagens (f1 f2 f3 f4 f5 : list string) p :
  prefixo f1 imagens_temporais -> prefixo f2 imagem_boxplot ->
  prefixo f3 imagem_correlacao -> prefixo f4 imagem_outliers ->
  prefixo f5 imagem_pca ->
  In p (f1 ++ f2 ++ f3 ++ f4 ++ f5)%list -> In p imagens.
Proof.
  intros P1 P2 P3 P4 P5 Hp. unfold imagens.
  repeat (apply in_app_or in Hp; destruct Hp as [Hp|Hp];
          [ apply in_or_app; left; eapply prefixo_In; eassumption
          | apply in_or_app; right ]).
  eapply prefixo_In; eassumption.
Qed.

(** X9.  Whatever the libraries do, the five renderers leave behind, in
    this order, an initial part of the four time-series images, then the
    boxplot image or nothing, then the correlation image or nothing, then
    the outlier image or nothing, then the PCA image or nothing: never a
    file outside the eight fixed names, never more than eight files, and
    within the time-series renderer never a later image without the earlier
    ones. *)
Theorem arquivos_dos_renderizadores df w :
  exists f1 f2 f3 f4 f5,
    prefixo f1 imagens_temporais
    /\ prefixo f2 imagem_boxplot
    /\ prefixo f3 imagem_correlacao
    /\ prefixo f4 imagem_outliers
    /\ prefixo f5 imagem_pca
    /\ files (snd (gerar_graficos lib_raises df w))
       = (files w ++ f1 ++ f2 ++ f3 ++ f4 ++ f5)%list
    /\ (forall p, In p (f1 ++ f2 ++ f3 ++ f4 ++ f5)%list -> In p imagens)
    /\ (length (f1 ++ f2 ++ f3 ++ f4 ++ f5) <= 8)%nat.
Proof.
  destruct (gerar_graficos_resumo df w)
    as (w5 & f1 & f2 & f3 & f4 & f5 & erros & Hrun & P1 & P2 & P3 & P4 & P5
        & Hf & _).
  exists f1, f2, f3, f4, f5. rewrite Hrun. cbn [snd].
  repeat (split; [assumption|]). split.
  - intros p. apply partes_em_imagens; assumption.
  - apply prefixo_length in P1, P2, P3, P4, P5.
    rewrite !length_app. simpl in P1, P2, P3, P4, P5. lia.
Qed.

(** What a finished run of the whole script looks like. *)
Lemma gerar_figuras_terminou csv w w' :
  gerar_figuras lib_raises to_datetime csv w = (inr tt, w') ->
  exists erros novos,
    stdout w' = (stdout w ++ erros ++ mensagens_finais)%list
    /\ (length erros <= 5)%nat
    /\ files w' = (files w ++ novos)%list
    /\ (forall p, In p novos -> In p imagens)
    /\ (erros = [] -> novos = imagens).
Proof.
  unfold gerar_figuras. unfold bind at 1.
  destruct (preparar lib_raises to_datetime csv w) as [[r|dados] w0] eqn:Hprep;
    [discriminate|].
  destruct (preparar_inr lib_raises to_datetime _ _ _ _ Hprep) as (Hcfg & _ & _).
  pose proof (calado_configurar lib_raises w) as Hq.
  pose proof (so_config_configurar lib_raises w) as [Hfs _].
  rewrite Hcfg in Hq, Hfs. unfold calado in Hq. simpl in Hq, Hfs.
  unfold bind at 1. unfold lib at 1.
  destruct (lib_raises (trace w0) makedirs); [discriminate|].
  cbn [saved_file makedirs fn String.eqb Ascii.eqb Bool.eqb].
  unfold bind.
  match goal with
  | |- context [gerar_graficos lib_raises dados ?wm] =>
      destruct (gerar_graficos_resumo dados wm)
        as (w5 & f1 & f2 & f3 & f4 & f5 & erros & Hrun & P1 & P2 & P3 & P4
            & P5 & Hf & Hs & Hl & Hall)
  end.
  rewrite Hrun, for_each_print. intros [= <-].
  cbn [stdout files trace] in *.
  exists erros, (f1 ++ f2 ++ f3 ++ f4 ++ f5)%list.
  split; [rewrite Hs, Hq, <- app_assoc; reflexivity|].
  split; [exact Hl|]. split; [rewrite Hf, Hfs; reflexivity|].
  split; [|exact Hall].
  intros p. apply partes_em_imagens; assumption.
Qed.

(** X10.  A finished run that printed nothing but the ten final lines wrote
    all eight images, in the order the renderers save them: with no error
    line on the output, the printed list of files is accurate. *)
Theorem sem_linha_de_erro_tudo_gravado csv w w' :
  gerar_figuras lib_raises to_datetime csv w = (inr tt, w') ->
  stdout w' = (stdout w ++ mensagens_finais)%list ->
  files w' = (files w ++ imagens)%list.
Proof.
  intros Hrun Hout.
  destruct (gerar_figuras_terminou _ _ _ Hrun)
    as (erros & novos & Hs & _ & Hf & _ & Hall).
  rewrite Hs in Hout. apply app_inv_head in Hout.
  assert (Hnil : erros = []).
  { apply (app_inv_tail mensagens_finais). exact Hout. }
  rewrite Hf, (Hall Hnil). reflexivity.
Qed.

End FigurasExecucao.

Section FigurasDesfechoGeral.

Variable lib_raises : list call -> call -> option exception.
Variable to_datetime : column -> exception + column.

Lemma preparar_falhou csv w r w' :
  preparar lib_raises to_datetime csv w = (inl r, w') ->
  files w' = files w
  /\ match r with
     | Exc _ => stdout w' = stdout w
     | SystemExit => exists line, stdout w' = (stdout w ++ [line])%list
     end.
Proof.
  intros H. split.
  - pose proof (so_config_preparar lib_raises to_datetime csv w) as [Hf _].
    rewrite H in Hf. exact Hf.
  - pose proof (calado_configurar lib_raises w) as Hq.
    pose proof (no_exit_configurar lib_raises w) as Hne.
    unfold calado in Hq.
    destruct (configurar lib_raises w) as [[r1|[]] w1] eqn:Hcfg;
      simpl in Hq, Hne.
    + unfold preparar in H. unfold bind at 1 in H. rewrite Hcfg in H.
      injection H as <- <-. destruct r1; [exact Hq | congruence].
    + rewrite (preparar_apos_configurar lib_raises to_datetime _ _ _ Hcfg) in H.
      destruct (carregar to_datetime csv) as [e|dados].
      * injection H as <- <-. eexists. simpl. rewrite Hq. reflexivity.
      * rewrite verificar_colunas_primeira in H.
        destruct (primeira_ausente required_columns dados) as [c|];
          [|discriminate].
        injection H as <- <-. eexists. simpl. rewrite Hq. reflexivity.
Qed.

(** X11.  The three ways a run of the figure script can end.  Finished: the
    output is at most five error lines followed by the ten final lines, and
    the files written are among the eight images.  Ended by [exit()]:
    exactly one line was printed and no file was written.  Ended by an
    uncaught exception (from configuration or [os.makedirs], never from a
    renderer): nothing was printed and no file was written. *)
Theorem desfechos csv w r w' :
  gerar_figuras lib_raises to_datetime csv w = (r, w') ->
  match r with
  | inr _ =>
      exists erros novos,
        stdout w' = (stdout w ++ erros ++ mensagens_finais)%list
        /\ (length erros <= 5)%nat
        /\ files w' = (files w ++ novos)%list
        /\ (forall p, In p novos -> In p imagens)
  | inl SystemExit =>
      files w' = files w
      /\ exists line, stdout w' = (stdout w ++ [line])%list
  | inl (Exc _) => files w' = files w /\ stdout w' = stdout w
  end.
Proof.
  intros Hrun. destruct r as [r|[]].
  - assert (Hcase :
      preparar lib_raises to_datetime csv w = (inl r, w')
      \/ exists dados w0 e,
           preparar lib_raises to_datetime csv w = (inr dados, w0)
           /\ r = Exc e /\ stdout w' = stdout w0 /\ files w' = files w0).
    { unfold gerar_figuras in Hrun. unfold bind at 1 in Hrun.
      destruct (preparar lib_raises to_datetime csv w) as [[r0|dados] w0];
        [left; injection Hrun as <- <-; reflexivity|].
      right. unfold bind at 1 in Hrun. unfold lib at 1 in Hrun.
      destruct (lib_raises (trace w0) makedirs) as [e|].
      - injection Hrun as <- <-. exists dados, w0, e. repeat split.
      - exfalso. revert Hrun.
        cbn [saved_file makedirs fn String.eqb Ascii.eqb Bool.eqb].
        unfold bind.
        match goal with
        | |- context [gerar_graficos lib_raises dados ?wm] =>
            destruct (gerar_graficos_returns lib_raises dados wm) as [w5 H5]
        end.
        rewrite H5, for_each_print. discriminate. }
    destruct Hcase as [Hprep|(dados & w0 & e & Hprep & -> & Hs & Hf)].
    + destruct (preparar_falhou _ _ _ _ Hprep) as [Hfiles Hout].
      destruct r; split; assumption.
    + destruct (preparar_inr lib_raises to_datetime _ _ _ _ Hprep)
        as (Hcfg & _ & _).
      pose proof (calado_configurar lib_raises w) as Hq.
      pose proof (so_config_configurar lib_raises w) as [Hfs _].
      rewrite Hcfg in Hq, Hfs. unfold calado in Hq. simpl in Hq, Hfs.
      split; congruence.
  - destruct (gerar_figuras_terminou lib_raises to_datetime _ _ _ Hrun)
      as (erros & novos & Hs & Hl & Hf & Hin & _).
    exists erros, novos. repeat split; assumption.
Qed.

Lemma sem_valores_texto l s : In (OStr s) l -> sem_valores l = false.
Proof.
  intros Hin. unfold sem_valores. apply not_true_iff_false. intros H.
  rewrite forallb_forall in H. specialize (H _ Hin). discriminate.
Qed.

(** X13.  With a string in the air-humidity column (the column is then of
    object dtype) the outlier renderer fails by itself, whatever the
    libraries do after the figure is opened: it prints its error line,
    writes no image, makes no further library call, so the figure it
    opened is never closed. *)
Theorem outliers_com_texto df l s w :
  assoc "UmidadeAr" df = Some (ObjCol l) ->
  In (OStr s) l ->
  lib_raises (trace w) (Call "plt.figure" [AKw "figsize" (ALit "(12, 6)")])
  = None ->
  exists texto,
    plot_outliers lib_raises df w
    = (inr tt,
       printed
         (mkWorld (stdout w) (files w)
                  (trace w
                   ++ [Call "plt.figure" [AKw "figsize" (ALit "(12, 6)")]])%list)
         ("Erro ao gerar gráfico de outliers: " ++ texto)).
Proof.
  intros Hcol Htexto Hfig. eexists.
  unfold plot_outliers, try_except, outliers.
  unfold bind at 1. unfold lib at 1. rewrite Hfig.
  cbn [saved_file fn String.eqb Ascii.eqb Bool.eqb].
  unfold getitem. rewrite Hcol.
  cbn [lift bind column_quantile].
  rewrite (sem_valores_texto l s Htexto). reflexivity.
Qed.

End FigurasDesfechoGeral.

(** ** The figure script when the libraries work *)

Lemma retorna_ret {A : Type} (a : A) : retorna (ret a).
Proof. intros w. exists a, w. reflexivity. Qed.

Lemma retorna_bind {A B : Type} (m : M A) (f : A -> M B) :
  retorna m -> (forall a, retorna (f a)) -> retorna (bind m f).
Proof.
  intros Hm Hf w. unfold bind. destruct (Hm w) as (a & w1 & ->).
  apply Hf.
Qed.

Lemma retorna_bind_lift {A B : Type} (v : A) (f : A -> M B) :
  retorna (f v) -> retorna (bind (lift (inr v)) f).
Proof. intros Hf w. unfold bind, lift. apply Hf. Qed.

Lemma retorna_for_each {A : Type} (l : list A) (body : A -> M unit) :
  (forall a, In a l -> retorna (body a)) -> retorna (for_each l body).
Proof.
  induction l as [|a l IH]; intros Hb; simpl.
  - apply retorna_ret.
  - apply retorna_bind; [apply Hb; left; reflexivity | intros _].
    apply IH. intros b Hin. apply Hb. right. exact Hin.
Qed.

Section BibliotecasFuncionam.

Variable lib_raises : list call -> call -> option exception.
Hypothesis nunca_falha : forall h c, lib_raises h c = None.

Lemma retorna_lib c : retorna (lib lib_raises c).
Proof.
  intros w. unfold lib. rewrite nunca_falha. eexists. eexists. reflexivity.
Qed.

(** Runs a body step by step when every step returns. *)
Ltac passo_a_passo :=
  repeat first
    [ apply retorna_ret
    | apply retorna_lib
    | apply retorna_bind_lift
    | apply retorna_bind; [|intros ?] ].

Variable df : DataFrame.
Variables (data_hora umidade_ar temp usolo : column) (l : list num).
Hypothesis tem_data_hora : assoc "Data_Hora" df = Some data_hora.
Hypothesis tem_umidade : assoc "UmidadeAr" df = Some (NumCol l).
Hypothesis tem_temp : assoc "Temp" df = Some temp.
Hypothesis tem_usolo : assoc "USolo" df = Some usolo.

Lemma retorna_graficos_temporais : retorna (graficos_temporais lib_raises df).
Proof.
  unfold graficos_temporais.
  apply retorna_bind; [apply retorna_lib | intros _].
  apply retorna_bind; [|intros _; passo_a_passo].
  apply retorna_for_each. intros item Hin.
  simpl in Hin.
  destruct Hin as [<-|[<-|[<-|[]]]]; unfold grafico_temporal, getitem;
    rewrite tem_data_hora, ?tem_umidade, ?tem_temp, ?tem_usolo;
    passo_a_passo.
Qed.

Lemma retorna_boxplot : retorna (boxplot lib_raises df).
Proof. unfold boxplot. passo_a_passo. Qed.

Lemma select_core :
  select df core_vars
  = inr [("UmidadeAr", NumCol l); ("Temp", temp); ("USolo", usolo)].
Proof.
  unfold select, core_vars, getitem. simpl.
  rewrite tem_umidade, tem_temp, tem_usolo. reflexivity.
Qed.

Lemma retorna_correlacao : retorna (correlacao lib_raises df).
Proof. unfold correlacao. rewrite select_core. passo_a_passo. Qed.

Lemma retorna_outliers : retorna (outliers lib_raises df).
Proof.
  unfold outliers, getitem. rewrite tem_umidade.
  cbn [column_quantile column_apply]. passo_a_passo.
Qed.

Lemma retorna_pca : retorna (pca lib_raises df).
Proof.
  unfold pca. rewrite select_core.
  apply retorna_bind_lift.
  do 5 (apply retorna_bind; [apply retorna_lib | intros _]).
  apply retorna_bind; [|intros _; passo_a_passo].
  apply retorna_for_each. intros [i feature] _. unfold vetor_pca.
  passo_a_passo.
Qed.

(** A guarded renderer whose body returns: no error line, all files. *)
Lemma renderizador_completo ps (body : M unit) msg w :
  retorna body -> grava ps body -> keeps calado body ->
  exists w',
    try_except body (fun e => print (msg e)) w = (inr tt, w')
    /\ stdout w' = stdout w
    /\ files w' = (files w ++ ps)%list.
Proof.
  intros Hr Hg Hc. specialize (Hg w). specialize (Hc w). unfold calado in Hc.
  unfold try_except. destruct (Hr w) as ([] & wb & Hb).
  rewrite Hb in *. simpl in *. exists wb. repeat split; assumption.
Qed.

(** X12.  When no library call raises and the table has its timestamp
    column, a numeric air-humidity column (float64 or int64; a boolean
    column is not one) and the other two variables, the
    five renderers print nothing and write exactly the eight images, in the
    order: the three single time series (air humidity, temperature, soil),
    the combined one, boxplot, correlation, outliers, PCA. *)
Theorem tudo_gravado_sem_erros w :
  exists w',
    gerar_graficos lib_raises df w = (inr tt, w')
    /\ stdout w' = stdout w
    /\ files w' = (files w ++ imagens)%list.
Proof.
  destruct (renderizador_completo imagens_temporais
              (graficos_temporais lib_raises df)
              (fun e => "Erro ao gerar gráficos temporais: " ++ str_exception e)
              w retorna_graficos_temporais
              (grava_graficos_temporais lib_raises df)
              (calado_graficos_temporais lib_raises df))
    as (w1 & H1 & S1 & F1).
  destruct (renderizador_completo imagem_boxplot (boxplot lib_raises df)
              (fun e => "Erro ao gerar boxplot: " ++ str_exception e)
              w1 retorna_boxplot (grava_boxplot lib_raises df)
              (calado_boxplot lib_raises df))
    as (w2 & H2 & S2 & F2).
  destruct (renderizador_completo imagem_correlacao (correlacao lib_raises df)
              (fun e => "Erro ao gerar matriz de correlação: "
                        ++ str_exception e)
              w2 retorna_correlacao (grava_correlacao lib_raises df)
              (calado_correlacao lib_raises df))
    as (w3 & H3 & S3 & F3).
  destruct (renderizador_completo imagem_outliers (outliers lib_raises df)
              (fun e => "Erro ao gerar gráfico de outliers: "
                        ++ str_exception e)
              w3 retorna_outliers (grava_outliers lib_raises df)
              (calado_outliers lib_raises df))
    as (w4 & H4 & S4 & F4).
  destruct (renderizador_completo imagem_pca (pca lib_raises df)
              (fun e => "Erro ao gerar PCA: " ++ str_exception e)
              w4 retorna_pca (grava_pca lib_raises df)
              (calado_pca lib_raises df))
    as (w5 & H5 & S5 & F5).
  exists w5. split; [|split].
  - pose proof (H1 : plot_graficos_temporais lib_raises df w = _) as P1.
    pose proof (H2 : plot_boxplot lib_raises df w1 = _) as P2.
    pose proof (H3 : plot_correlacao lib_raises df w2 = _) as P3.
    pose proof (H4 : plot_outliers lib_raises df w3 = _) as P4.
    unfold gerar_graficos, bind. rewrite P1, P2, P3, P4. exact H5.
  - congruence.
  - rewrite F5, F4, F3, F2, F1. unfold imagens.
    rewrite <- !app_assoc. reflexivity.
Qed.

End BibliotecasFuncionam.

(** ** The standalone plot *)

Lemma sem_saida_visivel_refl w : sem_saida_visivel w w.
Proof. split; reflexivity. Qed.

Lemma sem_saida_visivel_trans a b c :
  sem_saida_visivel a b -> sem_saida_visivel b c -> sem_saida_visivel a c.
Proof. intros [S1 F1] [S2 F2]. split; congruence. Qed.

Lemma assoc_setitem_same {V : Type} k (v : V) df :
  assoc k (setitem df k v) = Some v.
Proof.
  induction df as [|[k' w] df IH]; simpl.
  - rewrite String.eqb_refl. reflexivity.
  - destruct (String.eqb k k') eqn:Hk; simpl; rewrite Hk;
      [reflexivity | exact IH].
Qed.

Section PlotagemFacts.

Variable str_to_num : string -> option num.
Variable lib_raises : list call -> call -> option exception.
Variable to_datetime : column -> exception + column.

Lemma sem_saida_visivel_lib c :
  String.eqb (fn c) "plt.savefig" = false ->
  keeps sem_saida_visivel (lib lib_raises c).
Proof.
  intros Hfn w. unfold lib, saved_file. rewrite Hfn.
  destruct (lib_raises (trace w) c); split; reflexivity.
Qed.

(** X14.  The standalone plot never prints a line and never writes a file,
    however it ends: it only shows the figure. *)
Theorem plotagem_nao_grava df w :
  let w' := snd (plotagem str_to_num lib_raises to_datetime df w) in
  stdout w' = stdout w /\ files w' = files w.
Proof.
  cbv zeta.
  assert (H : keeps sem_saida_visivel
                (plotagem str_to_num lib_raises to_datetime df)).
  { unfold plotagem.
    repeat first
      [ apply sem_saida_visivel_lib; reflexivity
      | apply (keeps_lift _ sem_saida_visivel_refl)
      | apply (keeps_bind _ sem_saida_visivel_trans); [|intros ?] ]. }
  exact (H w).
Qed.

Hypothesis nunca_falha : forall h c, lib_raises h c = None.

Lemma lib_funciona {B : Type} c (f : unit -> M B) w :
  String.eqb (fn c) "plt.savefig" = false ->
  bind (lib lib_raises c) f w
  = f tt (mkWorld (stdout w) (files w) (trace w ++ [c])%list).
Proof.
  intros Hfn. unfold bind, lib, saved_file. rewrite nunca_falha, Hfn.
  reflexivity.
Qed.

Lemma lib_funciona_fim c w :
  String.eqb (fn c) "plt.savefig" = false ->
  lib lib_raises c w
  = (inr tt, mkWorld (stdout w) (files w) (trace w ++ [c])%list).
Proof.
  intros Hfn. unfold lib, saved_file. rewrite nunca_falha, Hfn. reflexivity.
Qed.

Lemma lift_funciona {A B : Type} (v : A) (f : A -> M B) w :
  bind (lift (inr v)) f w = f v w.
Proof. reflexivity. Qed.

(** One step of a run whose next library call returns; pure steps that
    are known to return before it are passed over. *)
Ltac passo_lib :=
  etransitivity; [apply lib_funciona; reflexivity|];
  cbv beta; cbn [stdout files trace].

(** One pure step that is known to return. *)
Ltac passo_lift :=
  etransitivity; [apply lift_funciona|]; cbv beta.

(** What the table of coerced columns, with the timestamps put back, holds
    for a variable. *)
Lemma df_numeric_var df data_hora var col :
  var <> "DataHora" ->
  assoc var df = Some col ->
  getitem
    (setitem
       (map (fun kv => (fst kv, NumCol (coerced_values str_to_num (snd kv))))
            (setitem df "DataHora" data_hora))
       "DataHora" data_hora) var
  = inr (NumCol (coerced_values str_to_num col)).
Proof.
  intros Hne Hcol. unfold getitem.
  rewrite assoc_setitem_other by exact Hne.
  rewrite (assoc_map_snd (fun c => NumCol (coerced_values str_to_num c))).
  rewrite assoc_setitem_other by exact Hne.
  rewrite Hcol. reflexivity.
Qed.

Lemma df_numeric_data_hora (df : DataFrame) data_hora :
  getitem
    (setitem
       (map (fun kv => (fst kv, NumCol (coerced_values str_to_num (snd kv))))
            (setitem df "DataHora" data_hora))
       "DataHora" data_hora) "DataHora"
  = inr data_hora.
Proof. unfold getitem. rewrite assoc_setitem_same. reflexivity. Qed.

Lemma df_data_hora (df : DataFrame) data_hora :
  getitem (setitem df "DataHora" data_hora) "DataHora" = inr data_hora.
Proof. unfold getitem. rewrite assoc_setitem_same. reflexivity. Qed.

(** X15.  When no library call raises, the date and time columns combine
    and parse, and the table has the three variables, the standalone plot
    returns after exactly twelve library calls: it opens one figure, plots
    against the parsed timestamps the coerced Temp, UmidadeAr and USolo
    series (unparseable cells as missing values), decorates, and shows. *)
Theorem plotagem_plota_series_coagidas
        df texto data_hora temp umidade solo w :
  texto_data_hora df = inr texto ->
  to_datetime texto = inr data_hora ->
  assoc "Temp" df = Some temp ->
  assoc "UmidadeAr" df = Some umidade ->
  assoc "USolo" df = Some solo ->
  plotagem str_to_num lib_raises to_datetime df w
  = (inr tt,
     mkWorld (stdout w) (files w)
             (trace w
              ++ chamadas_plotagem
                   data_hora
                   (NumCol (coerced_values str_to_num temp))
                   (NumCol (coerced_values str_to_num umidade))
                   (NumCol (coerced_values str_to_num solo)))%list).
Proof.
  intros Htexto Hdt Htemp Humid Hsolo.
  unfold texto_data_hora in Htexto.
  destruct (getitem df "Data") as [e|data] eqn:Hdata; [discriminate|].
  cbn [bindE] in Htexto.
  destruct (series_add_str data " ") as [e|data_] eqn:Hdata_; [discriminate|].
  cbn [bindE] in Htexto.
  destruct (getitem df "Hora") as [e|hora] eqn:Hhora; [discriminate|].
  cbn [bindE] in Htexto.
  unfold plotagem.
  rewrite Hdata. passo_lift.
  rewrite Hdata_. passo_lift.
  rewrite Hhora. passo_lift.
  rewrite Htexto. passo_lift.
  rewrite Hdt. passo_lift. cbv zeta.
  rewrite df_apply_coerce. passo_lift.
  rewrite df_data_hora. passo_lift. cbv zeta.
  rewrite df_numeric_data_hora.
  rewrite (df_numeric_var df data_hora "Temp" temp)
    by (discriminate || exact Htemp).
  rewrite (df_numeric_var df data_hora "UmidadeAr" umidade)
    by (discriminate || exact Humid).
  rewrite (df_numeric_var df data_hora "USolo" solo)
    by (discriminate || exact Hsolo).
  do 11 passo_lib.
  rewrite lib_funciona_fim by reflexivity.
  cbn [stdout files trace]. rewrite <- !app_assoc. reflexivity.
Qed.

End PlotagemFacts.

(** ** A constant signal *)

Lemma Qltb_irrefl a b : a == b -> Qltb a b = false.
Proof.
  intros H. unfold Qltb. apply negb_false_iff. apply Qle_bool_iff.
  rewrite H. apply Qle_refl.
Qed.

Lemma vale_nadd x y a b : vale x a -> vale y b -> vale (nadd x y) (a + b).
Proof.
  intros (p & -> & Hp) (q & -> & Hq). eexists. split; [reflexivity|].
  rewrite Qred_correct, Hp, Hq. reflexivity.
Qed.

Lemma vale_nopp x a : vale x a -> vale (nopp x) (- a).
Proof.
  intros (p & -> & Hp). eexists. split; [reflexivity|].
  rewrite Qred_correct, Hp. reflexivity.
Qed.

Lemma vale_nsub x y a b : vale x a -> vale y b -> vale (nsub x y) (a - b).
Proof. intros Hx Hy. apply vale_nadd; [exact Hx | apply vale_nopp, Hy]. Qed.

Lemma vale_nmul x y a b : vale x a -> vale y b -> vale (nmul x y) (a * b).
Proof.
  intros (p & -> & Hp) (q & -> & Hq). eexists. split; [reflexivity|].
  rewrite Qred_correct, Hp, Hq. reflexivity.
Qed.

Lemma vale_Fin q : vale (Fin q) q.
Proof. exists q. split; reflexivity. Qed.

Lemma vale_eq x a b : vale x a -> a == b -> vale x b.
Proof.
  intros (p & -> & Hp) H. exists p. split; [reflexivity|].
  rewrite Hp. exact H.
Qed.

Lemma insert_sorted_repeat c n :
  insert_sorted (Fin c) (repeat (Fin c) n) = repeat (Fin c) (S n).
Proof.
  destruct n as [|n]; simpl; [reflexivity|].
  rewrite (Qltb_irrefl c c) by reflexivity. reflexivity.
Qed.

Lemma sort_num_repeat c n : sort_num (repeat (Fin c) n) = repeat (Fin c) n.
Proof.
  induction n as [|n IH]; [reflexivity|].
  unfold sort_num in *. simpl. rewrite IH. apply insert_sorted_repeat.
Qed.

Lemma nth_repeat {A : Type} (x d : A) n k :
  (k < n)%nat -> nth k (repeat x n) d = x.
Proof.
  revert k. induction n as [|n IH]; intros k Hk; [lia|].
  destruct k as [|k]; simpl; [reflexivity | apply IH; lia].
Qed.

Lemma lerp_constante c t g : vale t g -> vale (lerp (Fin c) (Fin c) t) c.
Proof.
  intros Ht. unfold lerp.
  assert (Hd : vale (nsub (Fin c) (Fin c)) 0).
  { eapply vale_eq; [apply vale_nsub; apply vale_Fin|]. ring. }
  destruct (nltb t (Fin (1 # 2))).
  - eapply vale_eq;
      [apply vale_nadd; [apply vale_Fin | apply vale_nmul; eassumption]|].
    ring.
  - eapply vale_eq.
    + apply vale_nsub; [apply vale_Fin|].
      apply vale_nmul; [exact Hd|].
      apply vale_nsub; [apply (vale_Fin (inject_Z 1)) | exact Ht].
    + ring.
Qed.

Lemma indice_quantil n q :
  (0 < n)%nat -> 0 <= q -> q <= 1 ->
  (Z.to_nat (Qfloor (inject_Z (Z.of_nat (n - 1)) * q)) < n)%nat.
Proof.
  intros Hn Hq0 Hq1.
  assert (Hle : (Qfloor (inject_Z (Z.of_nat (n - 1)) * q)
                 <= Z.of_nat (n - 1))%Z).
  { rewrite <- (Qfloor_Z (Z.of_nat (n - 1))) at 2.
    apply Qfloor_resp_le.
    rewrite <- (Qmult_1_l (inject_Z (Z.of_nat (n - 1)))) at 2.
    rewrite (Qmult_comm (inject_Z (Z.of_nat (n - 1))) q).
    apply Qmult_le_compat_r; [exact Hq1|].
    change 0 with (inject_Z 0). rewrite <- Zle_Qle. lia. }
  lia.
Qed.

(** The quartiles of a series whose non-missing values are all [c]. *)
Lemma series_quantile_constante s c n q :
  dropna s = repeat (Fin c) (S n) -> 0 <= q -> q <= 1 ->
  vale (series_quantile s q) c.
Proof.
  intros Hs Hq0 Hq1. unfold series_quantile.
  rewrite Hs, sort_num_repeat, repeat_length.
  cbv beta iota zeta.
  pose proof (indice_quantil (S n) q ltac:(lia) Hq0 Hq1) as H.
  replace (S n - 1)%nat with n in * by lia.
  rewrite !nth_repeat.
  - eapply lerp_constante. apply vale_Fin.
  - lia.
  - exact H.
Qed.

(** X16.  A missing value is never labelled an outlier.  On a column whose
    non-missing values are all the same number, both quartiles are that
    number, the interquartile range is zero, and every point is labelled
    'Normal'. *)
Theorem sinal_constante_sem_outliers s c n :
  dropna s = repeat (Fin c) (S n) ->
  let Q1 := series_quantile s (1 # 4) in
  let Q3 := series_quantile s (3 # 4) in
  let IQR := nsub Q3 Q1 in
  let limite_inf := nsub Q1 (nmul (Fin (3 # 2)) IQR) in
  let limite_sup := nadd Q3 (nmul (Fin (3 # 2)) IQR) in
  vale Q1 c /\ vale Q3 c /\ vale IQR 0
  /\ map (classify limite_inf limite_sup) s = map (fun _ => Normal) s
  /\ forall lo hi, classify lo hi NaN = Normal.
Proof.
  intros Hs Q1 Q3 IQR limite_inf limite_sup.
  assert (H1 : vale Q1 c)
    by (apply (series_quantile_constante s c n); [exact Hs | easy | easy]).
  assert (H3 : vale Q3 c)
    by (apply (series_quantile_constante s c n); [exact Hs | easy | easy]).
  assert (HI : vale IQR 0)
    by (eapply vale_eq; [apply vale_nsub; eassumption | ring]).
  assert (Hlo : vale limite_inf c).
  { eapply vale_eq;
      [apply vale_nsub; [exact H1 | apply vale_nmul; [apply vale_Fin|exact HI]]|].
    ring. }
  assert (Hhi : vale limite_sup c).
  { eapply vale_eq;
      [apply vale_nadd; [exact H3 | apply vale_nmul; [apply vale_Fin|exact HI]]|].
    ring. }
  split; [exact H1|]. split; [exact H3|]. split; [exact HI|].
  split; [|intros lo hi; destruct lo, hi; reflexivity].
  apply map_ext_in. intros v Hv.
  destruct Hlo as (a & -> & Ha). destruct Hhi as (b & -> & Hb).
  destruct v as [|sg|q]; [reflexivity| |].
  - assert (Hin : In (Inf sg) (dropna s))
      by (apply filter_In; split; [exact Hv | reflexivity]).
    rewrite Hs in Hin. apply repeat_spec in Hin. discriminate.
  - assert (Hin : In (Fin q) (dropna s))
      by (apply filter_In; split; [exact Hv | reflexivity]).
    rewrite Hs in Hin. apply repeat_spec in Hin. injection Hin as ->.
    unfold classify, ngtb. simpl.
    rewrite (Qltb_irrefl c a) by (symmetry; exact Ha).
    rewrite (Qltb_irrefl b c) by exact Hb. reflexivity.
Qed.

(** ** The further properties on examples *)

Lemma so_a_primeira_coluna_ausente_witness :
  gerar_figuras lib_ok datetime_exemplo (inr dados_so_umidade) mundo_vazio
  = (inl SystemExit, printed mundo_configurado (erro_coluna "Temp")).
Proof.
  apply (so_a_primeira_coluna_ausente lib_ok datetime_exemplo dados_so_umidade
           mundo_vazio mundo_configurado
           (setitem dados_so_umidade "Data_Hora"
                    (TimeCol [Some 0%Z; Some 1%Z]))).
  - vm_compute. reflexivity.
  - vm_compute. reflexivity.
  - reflexivity.
Defined.

Lemma erro_ao_carregar_witness :
  gerar_figuras lib_ok datetime_exemplo (inr (tl dados_sem_usolo)) mundo_vazio
  = (inl SystemExit, printed mundo_configurado "Erro ao carregar dados: 'Data'").
Proof.
  apply (proj1 (erro_ao_carregar lib_ok datetime_exemplo
                  (inr (tl dados_sem_usolo)) mundo_vazio mundo_configurado
                  (KeyError "Data") eq_refl eq_refl)).
Defined.

Lemma configurar_falha_witness :
  exists e c h,
    Exc (OtherError "OSError" "style not found") = Exc e
    /\ In c [ Call "plt.style.use" [AStr "ggplot"];
              Call "sns.set_theme" [AKw "style" (AStr "whitegrid")];
              Call "plt.rcParams.__setitem__" [AStr "font.size"; ALit "12"] ]
    /\ [ Call "plt.style.use" [AStr "seaborn-v0_8"];
         Call "plt.style.use" [AStr "ggplot"] ] = (h ++ [c])%list
    /\ lib_sem_estilo h c = Some e.
Proof.
  apply (configurar_falha lib_sem_estilo mundo_vazio
           (Exc (OtherError "OSError" "style not found"))
           (mkWorld [] [] [ Call "plt.style.use" [AStr "seaborn-v0_8"];
                            Call "plt.style.use" [AStr "ggplot"] ])).
  vm_compute. reflexivity.
Defined.

Lemma sem_linha_de_erro_tudo_gravado_witness :
  files (snd (gerar_figuras lib_ok datetime_exemplo (inr dados_exemplo)
                mundo_vazio))
  = imagens.
Proof.
  apply (sem_linha_de_erro_tudo_gravado lib_ok datetime_exemplo
           (inr dados_exemplo) mundo_vazio).
  - vm_compute. reflexivity.
  - vm_compute. reflexivity.
Defined.

Lemma desfechos_witness :
  exists erros novos,
    stdout (snd (gerar_figuras lib_falha datetime_exemplo (inr dados_exemplo)
                   mundo_vazio))
    = (erros ++ mensagens_finais)%list
    /\ (length erros <= 5)%nat
    /\ files (snd (gerar_figuras lib_falha datetime_exemplo
                     (inr dados_exemplo) mundo_vazio))
       = novos
    /\ (forall p, In p novos -> In p imagens).
Proof.
  apply (desfechos lib_falha datetime_exemplo (inr dados_exemplo) mundo_vazio
           (inr tt)
           (snd (gerar_figuras lib_falha datetime_exemplo (inr dados_exemplo)
                   mundo_vazio))).
  vm_compute. reflexivity.
Defined.

Lemma tudo_gravado_sem_erros_witness :
  exists w',
    gerar_graficos lib_ok dados_preparados mundo_vazio = (inr tt, w')
    /\ stdout w' = []
    /\ files w' = imagens.
Proof.
  apply (tudo_gravado_sem_erros lib_ok (fun _ _ => eq_refl) dados_preparados
           (TimeCol [Some 0%Z; Some 1%Z]) (NumCol [of_Z 20; of_Z 30])
           (NumCol [of_Z 30; of_Z 50]) [of_Z 50; of_Z 70]);
    reflexivity.
Defined.

Lemma outliers_com_texto_witness :
  exists texto,
    plot_outliers lib_ok dados_sujos mundo_vazio
    = (inr tt,
       printed
         (mkWorld [] [] [Call "plt.figure" [AKw "figsize" (ALit "(12, 6)")]])
         ("Erro ao gerar gráfico de outliers: " ++ texto)).
Proof.
  apply (outliers_com_texto lib_ok dados_sujos [OStr "SIM"; OStr "NAO"]
           "SIM" mundo_vazio); [reflexivity | left; reflexivity | reflexivity].
Defined.

Lemma plotagem_plota_series_coagidas_witness :
  plotagem parse_decimal lib_ok datetime_exemplo dados_sujos mundo_vazio
  = (inr tt,
     mkWorld [] []
             (chamadas_plotagem (TimeCol [Some 0%Z; Some 1%Z])
                                (NumCol [of_Z 20; of_Z 30])
                                (NumCol [NaN; NaN])
                                (NumCol [of_Z 30; of_Z 50]))).
Proof.
  apply (plotagem_plota_series_coagidas parse_decimal lib_ok datetime_exemplo
           (fun _ _ => eq_refl) dados_sujos
           (ObjCol [OStr "01/01/2025 00:00"; OStr "01/01/2025 01:00"])
           (TimeCol [Some 0%Z; Some 1%Z])
           (NumCol [of_Z 20; of_Z 30])
           (ObjCol [OStr "SIM"; OStr "NAO"])
           (NumCol [of_Z 30; of_Z 50]) mundo_vazio);
    reflexivity.
Defined.

Lemma sinal_constante_sem_outliers_witness :
  let s := [of_Z 50; NaN; of_Z 50; of_Z 50] in
  let Q1 := series_quantile s (1 # 4) in
  let Q3 := series_quantile s (3 # 4) in
  map (classify (nsub Q1 (nmul (Fin (3 # 2)) (nsub Q3 Q1)))
                (nadd Q3 (nmul (Fin (3 # 2)) (nsub Q3 Q1)))) s
  = [Normal; Normal; Normal; Normal].
Proof.
  destruct (sinal_constante_sem_outliers [of_Z 50; NaN; of_Z 50; of_Z 50]
              (inject_Z 50) 2 eq_refl) as (_ & _ & _ & H & _).
  exact H.
Defined.
